(** * Smart attendance backend: attendance session and marking engine

    A shallow embedding of the service layer ([AttendanceService],
    [ReportService]), of the attendance routes and scheduled tasks of
    [server.js], and of the Mongoose schemas they store into.

    Modelling conventions.
    - A collection is the list of its documents in insertion order;
      [findOne] returns the first document that satisfies the query,
      [find] all of them.
    - An [ObjectId] is a natural number drawn from a counter of the store.
    - A [Date] is its millisecond timestamp, an integer.  The timestamps
      count milliseconds on the server's local wall clock (a zone with a
      fixed offset), so that [setHours(0,0,0,0)], [getHours] and [getDay]
      are arithmetic on the timestamp.
    - Every [new Date()] and [Date.now()] is one reading of the clock of
      the running handler: the k-th reading of an invocation yields
      [clk k].  Readings of one invocation need not coincide.
    - [async] code runs in a state and exception monad over the store; what
      was written before a [throw] stays written.
    - Push notifications and audit entries are left out: they never write
      to the collections modelled here and their failures are swallowed by
      [sendNotification]. *)

From Stdlib Require Import ZArith List String Bool Lia PeanoNat.
From Stdlib Require Import Floats Uint63 Permutation Sorted.
Import ListNotations.

Open Scope string_scope.
Open Scope Z_scope.

(** ** Dates *)

Definition Time := Z.
Definition ObjectId := nat.
Bind Scope Z_scope with Time.
Bind Scope nat_scope with ObjectId.

Definition MS_PER_HOUR : Z := 3600000.
Definition MS_PER_DAY : Z := 86400000.

(** [d.setHours(0, 0, 0, 0)]: the timestamp of the midnight that starts
    the day of [d]. *)
Definition setHours0 (d : Time) : Time := d - d mod MS_PER_DAY.

(** [d.getHours()]. *)
Definition getHours (d : Time) : Z := (d mod MS_PER_DAY) / MS_PER_HOUR.

(** [d.getDay()]: 0 is Sunday, 6 is Saturday; day 0 of the epoch was a
    Thursday. *)
Definition getDay (d : Time) : Z := (d / MS_PER_DAY + 4) mod 7.

(** Timestamp of a wall-clock instant, [day] counted from the epoch. *)
Definition at_time (day h m : Z) : Time :=
  day * MS_PER_DAY + h * MS_PER_HOUR + m * 60000.

(** ** Schemas *)

Inductive AttendanceType := CAMPUS | CLASS.
Inductive Status := PRESENT | ABSENT | LATE.
Inductive Mode := GPS | BLE | WIFI | INTERNET | MANUAL.
Inductive HolidayType := SPECIAL | SATURDAY_WORKING.
Inductive RequestType := MANUAL_ATTENDANCE | FRIEND_ATTENDANCE.
Inductive RequestStatus := PENDING | APPROVED | REJECTED.

Definition AttendanceType_eqb (a b : AttendanceType) : bool :=
  match a, b with CAMPUS, CAMPUS | CLASS, CLASS => true | _, _ => false end.

Definition Status_eqb (a b : Status) : bool :=
  match a, b with
  | PRESENT, PRESENT | ABSENT, ABSENT | LATE, LATE => true
  | _, _ => false
  end.

Definition option_eqb {A} (eqb : A -> A -> bool) (x y : option A) : bool :=
  match x, y with
  | Some a, Some b => eqb a b
  | None, None => true
  | _, _ => false
  end.

Record Location := { latitude : float; longitude : float }.

Module Student.
Record t := {
  _id : ObjectId;
  rollNumber : string;
  name : string;
  classId : ObjectId;
  isActive : bool
}.
End Student.

Module Attendance.
(** The object literal handed to [Attendance.create]. *)
Record doc := {
  d_studentId : ObjectId;
  d_classId : ObjectId;
  d_date : Time;
  d_type : AttendanceType;
  d_period : option nat;
  d_status : option Status;
  d_mode : option Mode;
  d_location : option Location;
  d_deviceId : option string;
  d_markedBy : option ObjectId;
  d_reason : option string
}.

(** A stored document of [attendanceSchema]. *)
Record t := {
  _id : ObjectId;
  studentId : ObjectId;
  classId : ObjectId;
  date : Time;
  type : AttendanceType;
  period : option nat;
  status : Status;
  mode : option Mode;
  location : option Location;
  deviceId : option string;
  markedBy : option ObjectId;
  reason : option string;
  createdAt : Time
}.

(** The key the specification calls unique. *)
Definition key (e : t) : ObjectId * Time * AttendanceType * option nat :=
  (studentId e, date e, type e, period e).

(** The same key with the date cut to its day. *)
Definition day_key (e : t) : ObjectId * Time * AttendanceType * option nat :=
  (studentId e, setHours0 (date e), type e, period e).

Definition set_reason (r : option string) (e : t) : t :=
  {| _id := _id e; studentId := studentId e; classId := classId e;
     date := date e; type := type e; period := period e;
     status := status e; mode := mode e; location := location e;
     deviceId := deviceId e; markedBy := markedBy e; reason := r;
     createdAt := createdAt e |}.
End Attendance.

Module Session.
(** A stored document of [sessionSchema]. *)
Record t := {
  _id : ObjectId;
  classId : ObjectId;
  teacherId : ObjectId;
  date : Time;
  period : nat;
  mode : Mode;
  token : string;
  code : option string;
  ssid : option string;
  isActive : bool;
  expiresAt : Time;
  presentStudents : list ObjectId;
  createdAt : Time
}.

Definition set_isActive (b : bool) (s : t) : t :=
  {| _id := _id s; classId := classId s; teacherId := teacherId s;
     date := date s; period := period s; mode := mode s; token := token s;
     code := code s; ssid := ssid s; isActive := b;
     expiresAt := expiresAt s; presentStudents := presentStudents s;
     createdAt := createdAt s |}.

Definition set_presentStudents (l : list ObjectId) (s : t) : t :=
  {| _id := _id s; classId := classId s; teacherId := teacherId s;
     date := date s; period := period s; mode := mode s; token := token s;
     code := code s; ssid := ssid s; isActive := isActive s;
     expiresAt := expiresAt s; presentStudents := l;
     createdAt := createdAt s |}.
End Session.

Module Holiday.
Record t := {
  name : string;
  startDate : Time;
  endDate : Time;
  type : HolidayType;
  mappedDay : option string
}.
End Holiday.

Module Request.
Record t := {
  _id : ObjectId;
  studentId : ObjectId;
  type : RequestType;
  date : Time;
  period : option nat;
  reason : string;
  status : RequestStatus;
  reviewedBy : option ObjectId;
  reviewNote : option string
}.

Definition review (st : RequestStatus) (note : option string)
    (by_ : ObjectId) (r : t) : t :=
  {| _id := _id r; studentId := studentId r; type := type r;
     date := date r; period := period r; reason := reason r;
     status := st; reviewedBy := Some by_; reviewNote := note |}.
End Request.

(** ** The store *)

Record DB := {
  attendances : list Attendance.t;
  sessions : list Session.t;
  students : list Student.t;
  holidays : list Holiday.t;
  requests : list Request.t;
  nextId : ObjectId
}.

Definition empty_db : DB :=
  {| attendances := []; sessions := []; students := []; holidays := [];
     requests := []; nextId := 0%nat |}.

Definition with_attendances (l : list Attendance.t) (d : DB) : DB :=
  {| attendances := l; sessions := sessions d; students := students d;
     holidays := holidays d; requests := requests d; nextId := nextId d |}.

Definition with_sessions (l : list Session.t) (d : DB) : DB :=
  {| attendances := attendances d; sessions := l; students := students d;
     holidays := holidays d; requests := requests d; nextId := nextId d |}.

Definition with_requests (l : list Request.t) (d : DB) : DB :=
  {| attendances := attendances d; sessions := sessions d;
     students := students d; holidays := holidays d; requests := l;
     nextId := nextId d |}.

Definition with_nextId (n : ObjectId) (d : DB) : DB :=
  {| attendances := attendances d; sessions := sessions d;
     students := students d; holidays := holidays d;
     requests := requests d; nextId := n |}.

(** ** The monad of asynchronous handlers *)

Inductive Result (A : Type) : Type :=
| Return (a : A)
| Throw (message : string).
Arguments Return {A} a.
Arguments Throw {A} message.

Definition Clock := nat -> Time.

(** A computation reads the clock, counts its readings, and transforms
    the store. *)
Definition M (A : Type) : Type := Clock -> nat -> DB -> Result A * nat * DB.

Definition ret {A} (a : A) : M A := fun _ n d => (Return a, n, d).

Definition throw {A} (message : string) : M A :=
  fun _ n d => (Throw message, n, d).

Definition bind {A B} (m : M A) (f : A -> M B) : M B :=
  fun clk n d =>
    match m clk n d with
    | (Return a, n', d') => f a clk n' d'
    | (Throw e, n', d') => (Throw e, n', d')
    end.

Notation "x <- m ;; k" := (bind m (fun x => k))
  (at level 61, m at next level, right associativity).
Notation "m ;;; k" := (bind m (fun _ => k))
  (at level 61, right associativity).

(** [new Date()] and [Date.now()]. *)
Definition Date_now : M Time := fun clk n d => (Return (clk n), S n, d).

Definition get_db : M DB := fun _ n d => (Return d, n, d).
Definition put_db (d : DB) : M unit := fun _ n _ => (Return tt, n, d).

(** An ObjectId for a new document. *)
Definition fresh_id : M ObjectId :=
  fun _ n d => (Return (nextId d), n, with_nextId (S (nextId d)) d).

(** Runs a handler from its first clock reading. *)
Definition run {A} (m : M A) (clk : Clock) (d : DB) : Result A * DB :=
  let '(r, _, d') := m clk 0%nat d in (r, d').


(** [try { ... } catch (error) { ... }]. *)
Definition catch {A} (m : M A) (handler : string -> M A) : M A :=
  fun clk n d =>
    match m clk n d with
    | (Return a, n', d') => (Return a, n', d')
    | (Throw e, n', d') => handler e clk n' d'
    end.

(** ** Collections *)

Definition period_valid (p : nat) : bool := (1 <=? p)%nat && (p <=? 8)%nat.

Definition Attendance_findOne (query : Attendance.t -> bool)
    : M (option Attendance.t) :=
  d <- get_db ;; ret (find query (attendances d)).

Definition Attendance_find (query : Attendance.t -> bool)
    : M (list Attendance.t) :=
  d <- get_db ;; ret (filter query (attendances d)).

(** [Attendance.create(doc)]: the document is constructed (its [_id], the
    [createdAt] and [status] defaults), validated against the schema
    ([period] between 1 and 8 when present) and appended.  The schema
    declares no index, so nothing else can reject the insert. *)
Definition Attendance_create (doc : Attendance.doc) : M Attendance.t :=
  id <- fresh_id ;;
  created <- Date_now ;;
  let e :=
    {| Attendance._id := id;
       Attendance.studentId := Attendance.d_studentId doc;
       Attendance.classId := Attendance.d_classId doc;
       Attendance.date := Attendance.d_date doc;
       Attendance.type := Attendance.d_type doc;
       Attendance.period := Attendance.d_period doc;
       Attendance.status :=
         match Attendance.d_status doc with Some s => s | None => ABSENT end;
       Attendance.mode := Attendance.d_mode doc;
       Attendance.location := Attendance.d_location doc;
       Attendance.deviceId := Attendance.d_deviceId doc;
       Attendance.markedBy := Attendance.d_markedBy doc;
       Attendance.reason := Attendance.d_reason doc;
       Attendance.createdAt := created |} in
  match Attendance.d_period doc with
  | Some p =>
      if period_valid p then
        d <- get_db ;;
        put_db (with_attendances (attendances d ++ [e]) d) ;;; ret e
      else throw "Attendance validation failed"
  | None =>
      d <- get_db ;;
      put_db (with_attendances (attendances d ++ [e]) d) ;;; ret e
  end.

(** [Attendance.updateMany(query, { reason })]. *)
Definition Attendance_updateMany_reason (query : Attendance.t -> bool)
    (reason : string) : M unit :=
  d <- get_db ;;
  put_db (with_attendances
            (map (fun e => if query e
                           then Attendance.set_reason (Some reason) e else e)
                 (attendances d)) d).

Definition Session_findById (id : ObjectId) : M (option Session.t) :=
  d <- get_db ;; ret (find (fun s => Session._id s =? id)%nat (sessions d)).

Definition Session_findOne (query : Session.t -> bool)
    : M (option Session.t) :=
  d <- get_db ;; ret (find query (sessions d)).

Definition session_mode_valid (m : Mode) : bool :=
  match m with BLE | WIFI | INTERNET => true | _ => false end.

(** [Session.create(doc)]: [isActive] and [createdAt] take their defaults,
    [presentStudents] starts empty; [period] and [mode] are validated, and
    [token] carries the only unique index of the schema. *)
Definition Session_create (classId teacherId : ObjectId) (date : Time)
    (period : nat) (mode : Mode) (token : string) (code ssid : option string)
    (expiresAt : Time) : M Session.t :=
  id <- fresh_id ;;
  created <- Date_now ;;
  let s :=
    {| Session._id := id; Session.classId := classId;
       Session.teacherId := teacherId; Session.date := date;
       Session.period := period; Session.mode := mode;
       Session.token := token; Session.code := code; Session.ssid := ssid;
       Session.isActive := true; Session.expiresAt := expiresAt;
       Session.presentStudents := []; Session.createdAt := created |} in
  if period_valid period && session_mode_valid mode then
    d <- get_db ;;
    if existsb (fun s' => String.eqb (Session.token s') token) (sessions d)
    then throw "E11000 duplicate key error"
    else put_db (with_sessions (sessions d ++ [s]) d) ;;; ret s
  else throw "Session validation failed".

(** [session.presentStudents.push(studentId); session.save()]. *)
Definition Session_push_presentStudent (id studentId : ObjectId) : M unit :=
  d <- get_db ;;
  put_db (with_sessions
            (map (fun s => if (Session._id s =? id)%nat
                           then Session.set_presentStudents
                                  (Session.presentStudents s ++ [studentId]) s
                           else s)
                 (sessions d)) d).

(** [Session.updateMany(query, { isActive: false })]. *)
Definition Session_updateMany_inactive (query : Session.t -> bool) : M unit :=
  d <- get_db ;;
  put_db (with_sessions
            (map (fun s => if query s then Session.set_isActive false s
                           else s)
                 (sessions d)) d).

Definition Student_findById (id : ObjectId) : M (option Student.t) :=
  d <- get_db ;; ret (find (fun s => Student._id s =? id)%nat (students d)).

Definition Student_find (query : Student.t -> bool) : M (list Student.t) :=
  d <- get_db ;; ret (filter query (students d)).

Definition Holiday_findOne (query : Holiday.t -> bool)
    : M (option Holiday.t) :=
  d <- get_db ;; ret (find query (holidays d)).

(** [Request.findByIdAndUpdate(id, update, { new: true })]. *)
Definition Request_findByIdAndUpdate (id : ObjectId)
    (update : Request.t -> Request.t) : M (option Request.t) :=
  d <- get_db ;;
  match find (fun r => Request._id r =? id)%nat (requests d) with
  | Some r =>
      put_db (with_requests
                (map (fun r' => if (Request._id r' =? id)%nat
                                then update r' else r')
                     (requests d)) d) ;;;
      ret (Some (update r))
  | None => ret None
  end.

(** ** The numbers of JavaScript *)

(** The transcendental functions of [Math], which the engine supplies. *)
Record MathLib := {
  Math_sin : float -> float;
  Math_cos : float -> float;
  Math_atan2 : float -> float -> float
}.

Definition Math_PI : float := 0x1.921fb54442d18p+1%float.

Definition Number_of_nat (n : nat) : float :=
  PrimFloat.of_uint63 (Uint63.of_Z (Z.of_nat n)).

(** [Math.round] of a finite double, as an integer: the nearest integer,
    a tie going up.  The argument is [(-1)^s * m * 2^e]. *)
Definition Math_round (x : float) : Z :=
  match Prim2SF x with
  | S754_finite s m e =>
      let num := if (0 <=? e)%Z then Z.pos m * 2 ^ e else Z.pos m in
      let den := if (0 <=? e)%Z then 1 else 2 ^ (- e) in
      if s then (- (2 * num) + den) / (2 * den)
      else (2 * num + den) / (2 * den)
  | _ => 0
  end.

(** ** HTTP responses *)

Inductive Response (A : Type) : Type :=
| res_json (body : A)
| res_error (status : nat) (error : string)
| res_invalid (errors : list string).
Arguments res_json {A} body.
Arguments res_error {A} status error.
Arguments res_invalid {A} errors.

(** The result object of [AttendanceService.isHoliday]; a field the code
    leaves out is [None]. *)
Record HolidayStatus := {
  isHoliday_ : bool;
  isWorkingDay : option bool;
  mappedDay : option string;
  reason : option string
}.

(** One row of the attendance report. *)
Record Stat := {
  stat_name : string;
  stat_rollNumber : string;
  totalClasses : nat;
  present : nat;
  absent : nat;
  percentage : Z
}.

Set Warnings "-inexact-float".

Section Engine.

Variable Math : MathLib.

(** *** AttendanceService *)

Definition CAMPUS_CENTER_lat : float := 13.0827%float.
Definition CAMPUS_CENTER_lng : float := 80.2707%float.
Definition CAMPUS_RADIUS : float := 500%float.

(** [AttendanceService.calculateDistance]: the haversine distance. *)
Definition calculateDistance (lat1 lon1 lat2 lon2 : float) : float :=
  let R := 6371000%float in
  let phi1 := (lat1 * Math_PI / 180)%float in
  let phi2 := (lat2 * Math_PI / 180)%float in
  let dphi := ((lat2 - lat1) * Math_PI / 180)%float in
  let dlambda := ((lon2 - lon1) * Math_PI / 180)%float in
  let a :=
    (Math_sin Math (dphi / 2) * Math_sin Math (dphi / 2)
     + Math_cos Math phi1 * Math_cos Math phi2
       * Math_sin Math (dlambda / 2) * Math_sin Math (dlambda / 2))%float in
  let c :=
    (2 * Math_atan2 Math (PrimFloat.sqrt a) (PrimFloat.sqrt (1 - a)))%float in
  (R * c)%float.

(** [AttendanceService.isWithinCampus]. *)
Definition isWithinCampus (latitude longitude : float) : bool :=
  let distance :=
    calculateDistance CAMPUS_CENTER_lat CAMPUS_CENTER_lng latitude longitude in
  PrimFloat.leb distance CAMPUS_RADIUS.

(** [AttendanceService.createSession].  [token] and [shortCode] are what
    [generateToken()] and [generateCode()] return in this invocation. *)
Definition createSession (token shortCode : string)
    (classId teacherId : ObjectId) (period : nat) (mode : Mode)
    : M Session.t :=
  let code := match mode with INTERNET => Some shortCode | _ => None end in
  let ssid :=
    match mode with
    | WIFI => Some ("SmartAttend_" ++ String.substring 0 8 token)
    | _ => None
    end in
  date <- Date_now ;;
  now <- Date_now ;;
  Session_create classId teacherId date period mode token code ssid
    (now + 15 * 60 * 1000).

(** [AttendanceService.markAttendance]. *)
Definition markAttendance (sessionId studentId : ObjectId)
    (deviceId : option string) (location : option Location)
    : M Attendance.t :=
  found <- Session_findById sessionId ;;
  match found with
  | None => throw "Invalid or expired session"
  | Some session =>
      if negb (Session.isActive session)
      then throw "Invalid or expired session"
      else
        now <- Date_now ;;
        if Session.expiresAt session <? now
        then throw "Invalid or expired session"
        else
          today <- Date_now ;;
          existing <- Attendance_findOne (fun e =>
            (Attendance.studentId e =? studentId)%nat
            && (Attendance.classId e =? Session.classId session)%nat
            && (Attendance.date e =? setHours0 today)
            && option_eqb Nat.eqb (Attendance.period e)
                 (Some (Session.period session))) ;;
          match existing with
          | Some _ => throw "Attendance already marked"
          | None =>
              date <- Date_now ;;
              attendance <- Attendance_create
                {| Attendance.d_studentId := studentId;
                   Attendance.d_classId := Session.classId session;
                   Attendance.d_date := date;
                   Attendance.d_type := CLASS;
                   Attendance.d_period := Some (Session.period session);
                   Attendance.d_status := Some PRESENT;
                   Attendance.d_mode := Some (Session.mode session);
                   Attendance.d_location := location;
                   Attendance.d_deviceId := deviceId;
                   Attendance.d_markedBy := Some (Session.teacherId session);
                   Attendance.d_reason := None |} ;;
              Session_push_presentStudent (Session._id session) studentId ;;;
              ret attendance
          end
  end.

(** [AttendanceService.markCampusAttendance]. *)
Definition markCampusAttendance (studentId : ObjectId) (location : Location)
    (deviceId : option string) : M Attendance.t :=
  t <- Date_now ;;
  let today := setHours0 t in
  existing <- Attendance_findOne (fun e =>
    (Attendance.studentId e =? studentId)%nat
    && (Attendance.date e =? today)
    && AttendanceType_eqb (Attendance.type e) CAMPUS) ;;
  match existing with
  | Some e => ret e
  | None =>
      now <- Date_now ;;
      if 11 <=? getHours now
      then throw "Campus attendance closed after 11:00 AM"
      else if negb (isWithinCampus (latitude location) (longitude location))
      then throw "Not within campus bounds"
      else
        found <- Student_findById studentId ;;
        match found with
        | None => throw "Cannot read properties of null (reading 'classId')"
        | Some student =>
            date <- Date_now ;;
            Attendance_create
              {| Attendance.d_studentId := studentId;
                 Attendance.d_classId := Student.classId student;
                 Attendance.d_date := date;
                 Attendance.d_type := CAMPUS;
                 Attendance.d_period := None;
                 Attendance.d_status := Some PRESENT;
                 Attendance.d_mode := Some GPS;
                 Attendance.d_location := Some location;
                 Attendance.d_deviceId := deviceId;
                 Attendance.d_markedBy := None;
                 Attendance.d_reason := None |}
        end
  end.

(** [AttendanceService.isHoliday]. *)
Definition isHoliday (date : Time) : M HolidayStatus :=
  let dayOfWeek := getDay date in
  if dayOfWeek =? 0
  then ret {| isHoliday_ := true; isWorkingDay := None; mappedDay := None;
              reason := Some "Sunday" |}
  else
    let checkDate := setHours0 date in
    holiday <- Holiday_findOne (fun h =>
      (Holiday.startDate h <=? checkDate)
      && (checkDate <=? Holiday.endDate h)) ;;
    let by_default :=
      if dayOfWeek =? 6
      then {| isHoliday_ := true; isWorkingDay := None; mappedDay := None;
              reason := Some "Saturday" |}
      else {| isHoliday_ := false; isWorkingDay := None; mappedDay := None;
              reason := None |} in
    match holiday with
    | Some h =>
        match Holiday.type h with
        | SPECIAL =>
            ret {| isHoliday_ := true; isWorkingDay := None;
                   mappedDay := None; reason := Some (Holiday.name h) |}
        | SATURDAY_WORKING =>
            if dayOfWeek =? 6
            then ret {| isHoliday_ := false; isWorkingDay := Some true;
                        mappedDay := Holiday.mappedDay h;
                        reason := Some "Working Saturday" |}
            else ret by_default
        end
    | None => ret by_default
    end.

(** *** ReportService *)

(** [.sort(...)] of a query: insertion into a list ordered by [leb]. *)
Fixpoint sort_insert {A} (leb : A -> A -> bool) (x : A) (l : list A)
    : list A :=
  match l with
  | [] => [x]
  | y :: l' => if leb x y then x :: l else y :: sort_insert leb x l'
  end.

Definition sort_by {A} (leb : A -> A -> bool) (l : list A) : list A :=
  fold_right (sort_insert leb) [] l.

(** [{ date: -1, period: 1 }]: latest date first, then ascending period, a
    missing period before any number. *)
Definition by_date_desc_period (a b : Attendance.t) : bool :=
  if Attendance.date b <? Attendance.date a then true
  else if Attendance.date a <? Attendance.date b then false
  else match Attendance.period a, Attendance.period b with
       | None, _ => true
       | Some _, None => false
       | Some p, Some q => (p <=? q)%nat
       end.

Definition by_rollNumber (a b : Student.t) : bool :=
  String.leb (Student.rollNumber a) (Student.rollNumber b).

(** The [stats] object: its properties in insertion order. *)
Definition Stats := list (ObjectId * Stat).

Fixpoint stats_get (k : ObjectId) (stats : Stats) : option Stat :=
  match stats with
  | [] => None
  | (k', v) :: rest => if (k' =? k)%nat then Some v else stats_get k rest
  end.

(** [stats[k] = v]: an existing property keeps its place. *)
Fixpoint stats_set (k : ObjectId) (v : Stat) (stats : Stats) : Stats :=
  match stats with
  | [] => [(k, v)]
  | (k', v') :: rest =>
      if (k' =? k)%nat then (k, v) :: rest
      else (k', v') :: stats_set k v rest
  end.

Definition stat_init (student : Student.t) : Stat :=
  {| stat_name := Student.name student;
     stat_rollNumber := Student.rollNumber student;
     totalClasses := 0; present := 0; absent := 0; percentage := 0 |}.

(** The body of [attendances.forEach]: one record added to the row [st]. *)
Definition stat_count (status : Status) (st : Stat) : Stat :=
  {| stat_name := stat_name st; stat_rollNumber := stat_rollNumber st;
     totalClasses := S (totalClasses st);
     present := if Status_eqb status PRESENT
                then S (present st) else present st;
     absent := if Status_eqb status PRESENT
               then absent st else S (absent st);
     percentage := percentage st |}.

Definition percent (present total : nat) : Z :=
  Math_round (Number_of_nat present / Number_of_nat total * 100)%float.

Definition stat_percentage (st : Stat) : Stat :=
  {| stat_name := stat_name st; stat_rollNumber := stat_rollNumber st;
     totalClasses := totalClasses st; present := present st;
     absent := absent st;
     percentage := if (0 <? totalClasses st)%nat
                   then percent (present st) (totalClasses st)
                   else percentage st |}.

(** [.populate("studentId", ...)] followed by [record.studentId._id]: the
    id of the referenced student, or nothing when it no longer exists. *)
Definition populated_id (all : list Student.t) (record : Attendance.t)
    : option ObjectId :=
  match find (fun s => (Student._id s =? Attendance.studentId record)%nat)
             all with
  | Some s => Some (Student._id s)
  | None => None
  end.

Fixpoint tally (all : list Student.t) (records : list Attendance.t)
    (stats : Stats) : Result Stats :=
  match records with
  | [] => Return stats
  | record :: rest =>
      match populated_id all record with
      | None => Throw "Cannot read properties of null (reading '_id')"
      | Some studentId =>
          match stats_get studentId stats with
          | Some st =>
              tally all rest
                (stats_set studentId
                   (stat_count (Attendance.status record) st) stats)
          | None => tally all rest stats
          end
      end
  end.

(** [ReportService.generateAttendanceReport] with [format = "json"]. *)
Definition generateAttendanceReport (classId : ObjectId)
    (startDate endDate : Time) : M (list Stat) :=
  found <- Attendance_find (fun e =>
    (Attendance.classId e =? classId)%nat
    && (startDate <=? Attendance.date e)
    && (Attendance.date e <=? endDate)) ;;
  let attendances := sort_by by_date_desc_period found in
  enrolled <- Student_find (fun s => (Student.classId s =? classId)%nat) ;;
  let students := sort_by by_rollNumber enrolled in
  all <- Student_find (fun _ => true) ;;
  let stats :=
    fold_left (fun stats student =>
                 stats_set (Student._id student) (stat_init student) stats)
              students [] in
  match tally all attendances stats with
  | Throw e => throw e
  | Return stats' => ret (map (fun kv => stat_percentage (snd kv)) stats')
  end.

(** *** Routes of [server.js] *)

(** [POST /api/attendance/session/start], for the authenticated teacher
    [teacherId].  The body of the answer is the created session. *)
Definition post_session_start (teacherId : ObjectId)
    (token shortCode : string) (classId : ObjectId) (period : nat)
    (mode : Mode) : M (Response Session.t) :=
  if negb (period_valid period) then ret (res_invalid ["period"])
  else if negb (session_mode_valid mode) then ret (res_invalid ["mode"])
  else
    catch
      (now <- Date_now ;;
       holidayStatus <- isHoliday now ;;
       if isHoliday_ holidayStatus
       then ret (res_error 400
                   ("Cannot take attendance on "
                    ++ match reason holidayStatus with
                       | Some r => r
                       | None => "undefined"
                       end))
       else
         today <- Date_now ;;
         existingSession <- Session_findOne (fun s =>
           (Session.classId s =? classId)%nat
           && (Session.date s =? setHours0 today)
           && (Session.period s =? period)%nat
           && Session.isActive s) ;;
         match existingSession with
         | Some _ =>
             ret (res_error 400 "Session already active for this period")
         | None =>
             session <- createSession token shortCode classId teacherId
                          period mode ;;
             ret (res_json session)
         end)
      (fun message => ret (res_error 500 message)).

(** [POST /api/attendance/mark], for the authenticated principal [user]. *)
Definition post_attendance_mark (user : Student.t) (sessionId : ObjectId)
    (token : string) (location : option Location)
    (deviceId : option string) : M (Response Attendance.t) :=
  if String.eqb token "" then ret (res_invalid ["token"])
  else
    catch
      (found <- Session_findById sessionId ;;
       match found with
       | None => ret (res_error 400 "Invalid session or token")
       | Some session =>
           if negb (String.eqb (Session.token session) token)
           then ret (res_error 400 "Invalid session or token")
           else
             attendance <- markAttendance sessionId (Student._id user)
                             deviceId location ;;
             ret (res_json attendance)
       end)
      (fun message => ret (res_error 500 message)).

(** [POST /api/attendance/campus]. *)
Definition post_attendance_campus (user : Student.t) (location : Location)
    (deviceId : option string) : M (Response Attendance.t) :=
  catch
    (attendance <- markCampusAttendance (Student._id user) location
                     deviceId ;;
     ret (res_json attendance))
    (fun message => ret (res_error 500 message)).

(** [PUT /api/requests/:id/review], for the authenticated teacher. *)
Definition put_request_review (teacherId id : ObjectId)
    (status : RequestStatus) (reviewNote : option string)
    : M (Response Request.t) :=
  match status with
  | PENDING => ret (res_invalid ["status"])
  | _ =>
      catch
        (updated <- Request_findByIdAndUpdate id
                      (Request.review status reviewNote teacherId) ;;
         match updated with
         | None => throw "Cannot read properties of null"
         | Some request =>
             populated <- Student_findById (Request.studentId request) ;;
             match populated with
             | None => throw "Cannot read properties of null (reading '_id')"
             | Some student =>
                 match status, Request.type request with
                 | APPROVED, MANUAL_ATTENDANCE =>
                     Attendance_create
                       {| Attendance.d_studentId := Student._id student;
                          Attendance.d_classId := Student.classId student;
                          Attendance.d_date := Request.date request;
                          Attendance.d_type :=
                            match Request.period request with
                            | Some (S _) => CLASS
                            | _ => CAMPUS
                            end;
                          Attendance.d_period := Request.period request;
                          Attendance.d_status := Some PRESENT;
                          Attendance.d_mode := Some MANUAL;
                          Attendance.d_location := None;
                          Attendance.d_deviceId := None;
                          Attendance.d_markedBy := Some teacherId;
                          Attendance.d_reason :=
                            Some (Request.reason request) |} ;;;
                     ret (res_json request)
                 | _, _ => ret (res_json request)
                 end
             end
         end)
        (fun message => ret (res_error 500 message))
  end.

(** [POST /api/attendance/absence-reason]; [date] is the parsed body date. *)
Definition post_absence_reason (user : Student.t) (date : Time)
    (reason : string) : M (Response unit) :=
  catch
    (Attendance_updateMany_reason (fun e =>
       (Attendance.studentId e =? Student._id user)%nat
       && (Attendance.date e =? setHours0 date)
       && Status_eqb (Attendance.status e) ABSENT) reason ;;;
     ret (res_json tt))
    (fun message => ret (res_error 500 message)).

(** *** Scheduled tasks *)

Fixpoint for_each {A} (l : list A) (body : A -> M unit) : M unit :=
  match l with
  | [] => ret tt
  | x :: rest => body x ;;; for_each rest body
  end.

(** [cron.schedule("0 11 * * 1-6", ...)]: the auto-absent sweep. *)
Definition cron_auto_absent : M unit :=
  catch
    (t <- Date_now ;;
     let today := setHours0 t in
     now <- Date_now ;;
     holidayStatus <- isHoliday now ;;
     if isHoliday_ holidayStatus then ret tt
     else
       active <- Student_find Student.isActive ;;
       for_each active (fun student =>
         campusAttendance <- Attendance_findOne (fun e =>
           (Attendance.studentId e =? Student._id student)%nat
           && (Attendance.date e =? today)
           && AttendanceType_eqb (Attendance.type e) CAMPUS) ;;
         match campusAttendance with
         | Some _ => ret tt
         | None =>
             date <- Date_now ;;
             Attendance_create
               {| Attendance.d_studentId := Student._id student;
                  Attendance.d_classId := Student.classId student;
                  Attendance.d_date := date;
                  Attendance.d_type := CAMPUS;
                  Attendance.d_period := None;
                  Attendance.d_status := Some ABSENT;
                  Attendance.d_mode := None;
                  Attendance.d_location := None;
                  Attendance.d_deviceId := None;
                  Attendance.d_markedBy := None;
                  Attendance.d_reason := None |} ;;;
             ret tt
         end))
    (fun _ => ret tt).

(** [cron.schedule("0 * * * *", ...)]: the expired-session clean-up. *)
Definition cron_session_cleanup : M unit :=
  catch
    (now <- Date_now ;;
     Session_updateMany_inactive (fun s =>
       Session.isActive s && (Session.expiresAt s <? now)))
    (fun _ => ret tt).

(** *** Histories of the store *)

(** One invocation of a handler or of a scheduled task. *)
Inductive Op :=
| SessionStart (teacherId : ObjectId) (token shortCode : string)
    (classId : ObjectId) (period : nat) (mode : Mode)
| Mark (user : Student.t) (sessionId : ObjectId) (token : string)
    (location : option Location) (deviceId : option string)
| Campus (user : Student.t) (location : Location) (deviceId : option string)
| Review (teacherId id : ObjectId) (status : RequestStatus)
    (reviewNote : option string)
| AbsenceReason (user : Student.t) (date : Time) (reason : string)
| AutoAbsent
| SessionCleanup.

(** The store after one invocation run under the clock [clk]. *)
Definition exec (op : Op) (clk : Clock) (d : DB) : DB :=
  match op with
  | SessionStart teacherId token shortCode classId period mode =>
      snd (run (post_session_start teacherId token shortCode classId period
                  mode) clk d)
  | Mark user sessionId token location deviceId =>
      snd (run (post_attendance_mark user sessionId token location deviceId)
             clk d)
  | Campus user location deviceId =>
      snd (run (post_attendance_campus user location deviceId) clk d)
  | Review teacherId id status reviewNote =>
      snd (run (put_request_review teacherId id status reviewNote) clk d)
  | AbsenceReason user date reason =>
      snd (run (post_absence_reason user date reason) clk d)
  | AutoAbsent => snd (run cron_auto_absent clk d)
  | SessionCleanup => snd (run cron_session_cleanup clk d)
  end.

(** The store after a history of invocations, each under its own clock. *)
Fixpoint exec_all (history : list (Op * Clock)) (d : DB) : DB :=
  match history with
  | [] => d
  | (op, clk) :: rest => exec_all rest (exec op clk d)
  end.

End Engine.

(** * Statements checked against the engine *)

(** ** Calendar *)

(** The query of [isHoliday]: the rule's range contains the midnight of
    [date]. *)
Definition covers (date : Time) (h : Holiday.t) : bool :=
  (Holiday.startDate h <=? setHours0 date)
  && (setHours0 date <=? Holiday.endDate h).

(** The precedence the calendar resolution is said to follow: a SPECIAL
    rule that contains a date other than a Sunday makes it a holiday,
    whatever other rules contain the date. *)
Definition special_takes_precedence : Prop :=
  forall (d : DB) (clk : Clock) (date : Time) (h : Holiday.t),
    getDay date <> 0 ->
    In h (holidays d) ->
    Holiday.type h = SPECIAL ->
    covers date h = true ->
    exists res,
      fst (run (isHoliday date) clk d) = Return res
      /\ isHoliday_ res = true /\ reason res = Some (Holiday.name h).

(** ** Class marking *)

(** The duplicate query of [markAttendance], [today] being the clock
    reading the query is built from. *)
Definition already_marked (studentId : ObjectId) (session : Session.t)
    (today : Time) (e : Attendance.t) : bool :=
  (Attendance.studentId e =? studentId)%nat
  && (Attendance.classId e =? Session.classId session)%nat
  && (Attendance.date e =? setHours0 today)
  && option_eqb Nat.eqb (Attendance.period e) (Some (Session.period session)).

(** The event a successful class mark stores. *)
Definition class_event (d : DB) (clk : Clock) (studentId : ObjectId)
    (session : Session.t) (location : option Location)
    (deviceId : option string) : Attendance.t :=
  {| Attendance._id := nextId d;
     Attendance.studentId := studentId;
     Attendance.classId := Session.classId session;
     Attendance.date := clk 2%nat;
     Attendance.type := CLASS;
     Attendance.period := Some (Session.period session);
     Attendance.status := PRESENT;
     Attendance.mode := Some (Session.mode session);
     Attendance.location := location;
     Attendance.deviceId := deviceId;
     Attendance.markedBy := Some (Session.teacherId session);
     Attendance.reason := None;
     Attendance.createdAt := clk 3%nat |}.

(** The typed outcomes of the specification. *)
Inductive Outcome :=
| NotFound
| Expired
| Forbidden (cause : string)
| Conflict (cause : string)
| Inserted.

(** Class marking as the specification words it: the four checks in the
    stated order, each with an outcome of its own. *)
Definition markClassAttendance_spec (d : DB) (now : Time)
    (sessionId studentId : ObjectId) (credential : string) : Outcome :=
  match find (fun s => (Session._id s =? sessionId)%nat) (sessions d) with
  | None => NotFound
  | Some session =>
      if negb (Session.isActive session && (now <? Session.expiresAt session))
      then Expired
      else if negb (String.eqb credential (Session.token session))
      then Forbidden "token mismatch"
      else if existsb (fun e =>
                 (Attendance.studentId e =? studentId)%nat
                 && (setHours0 (Attendance.date e) =? setHours0 now)
                 && AttendanceType_eqb (Attendance.type e) CLASS
                 && option_eqb Nat.eqb (Attendance.period e)
                      (Some (Session.period session)))
              (attendances d)
      then Conflict "already marked"
      else Inserted
  end.

(** The answers of the route can be read as these typed outcomes: some
    reading [kind] of the answers agrees with the specification on every
    request, at every instant [now] of a handler whose clock stands
    still. *)
Definition typed_outcomes_claim : Prop :=
  exists kind : Response Attendance.t -> Outcome,
    forall (d : DB) (now : Time) (user : Student.t) (sessionId : ObjectId)
           (token : string) (location : option Location)
           (deviceId : option string) (answer : Response Attendance.t),
      token <> "" ->
      fst (run (post_attendance_mark user sessionId token location deviceId)
             (fun _ => now) d) = Return answer ->
      kind answer
      = markClassAttendance_spec d now sessionId (Student._id user) token.

(** ** Fixtures *)

(** A stand-in for [Math] good for small angles, used to run examples. *)
Definition taylorMath : MathLib :=
  {| Math_sin := fun x => (x - x * x * x / 6)%float;
     Math_cos := fun x => (1 - x * x / 2 + x * x * x * x / 24)%float;
     Math_atan2 := fun y x =>
       let t := (y / x)%float in (t - t * t * t / 3)%float |}.

(** Days since the epoch: Monday 1 January 2024 and the following
    Saturday and Sunday. *)
Definition monday : Z := 19723.
Definition saturday : Z := 19728.
Definition sunday : Z := 19729.

(** A clock that stands still during an invocation, and one that
    advances by a millisecond at each reading. *)
Definition const_clock (t : Time) : Clock := fun _ => t.
Definition ticking_clock (t : Time) : Clock := fun k => t + Z.of_nat k.

Definition alice : Student.t :=
  {| Student._id := 101; Student.rollNumber := "CSE202100001";
     Student.name := "Alice Johnson"; Student.classId := 1;
     Student.isActive := true |}.

Definition bob : Student.t :=
  {| Student._id := 102; Student.rollNumber := "CSE202100002";
     Student.name := "Bob Wilson"; Student.classId := 1;
     Student.isActive := true |}.

Definition charlie : Student.t :=
  {| Student._id := 103; Student.rollNumber := "CSE202100003";
     Student.name := "Charlie Brown"; Student.classId := 2;
     Student.isActive := true |}.

(** A store with three students and nothing else. *)
Definition school : DB :=
  {| attendances := []; sessions := []; students := [alice; bob; charlie];
     holidays := []; requests := []; nextId := 200 |}.

Definition working_saturday : Holiday.t :=
  {| Holiday.name := "Compensation day";
     Holiday.startDate := at_time saturday 0 0;
     Holiday.endDate := at_time saturday 0 0;
     Holiday.type := SATURDAY_WORKING;
     Holiday.mappedDay := Some "monday" |}.

Definition founders_day : Holiday.t :=
  {| Holiday.name := "Founders day";
     Holiday.startDate := at_time saturday 0 0;
     Holiday.endDate := at_time saturday 0 0;
     Holiday.type := SPECIAL;
     Holiday.mappedDay := None |}.

Definition with_holidays (l : list Holiday.t) (d : DB) : DB :=
  {| attendances := attendances d; sessions := sessions d;
     students := students d; holidays := l; requests := requests d;
     nextId := nextId d |}.

(** A live BLE session of class 1, period 3, opened at 09:00. *)
Definition session_0900 : Session.t :=
  {| Session._id := 200; Session.classId := 1; Session.teacherId := 7;
     Session.date := at_time monday 9 0; Session.period := 3;
     Session.mode := BLE; Session.token := "T"; Session.code := None;
     Session.ssid := None; Session.isActive := true;
     Session.expiresAt := at_time monday 9 15;
     Session.presentStudents := [];
     Session.createdAt := at_time monday 9 0 |}.

(** The store after a successful class mark: the event appended, the
    student pushed onto the session's [presentStudents]. *)
Definition after_class_mark (d : DB) (e : Attendance.t) (session : Session.t)
    (studentId : ObjectId) : DB :=
  let d1 := with_attendances (attendances d ++ [e])
              (with_nextId (S (nextId d)) d) in
  with_sessions
    (map (fun s => if (Session._id s =? Session._id session)%nat
                   then Session.set_presentStudents
                          (Session.presentStudents s ++ [studentId]) s
                   else s)
         (sessions d1)) d1.

(** The store of the fixtures with the 09:00 session open. *)
Definition live : DB := with_sessions [session_0900] school.

(** ** Campus marking *)

(** The query of [markCampusAttendance] and of the auto-absent sweep,
    [t] being the clock reading [today] is computed from. *)
Definition campus_marked (studentId : ObjectId) (t : Time)
    (e : Attendance.t) : bool :=
  (Attendance.studentId e =? studentId)%nat
  && (Attendance.date e =? setHours0 t)
  && AttendanceType_eqb (Attendance.type e) CAMPUS.

(** The event a successful campus mark stores. *)
Definition campus_event (d : DB) (clk : Clock) (studentId classId : ObjectId)
    (location : Location) (deviceId : option string) : Attendance.t :=
  {| Attendance._id := nextId d;
     Attendance.studentId := studentId;
     Attendance.classId := classId;
     Attendance.date := clk 2%nat;
     Attendance.type := CAMPUS;
     Attendance.period := None;
     Attendance.status := PRESENT;
     Attendance.mode := Some GPS;
     Attendance.location := Some location;
     Attendance.deviceId := deviceId;
     Attendance.markedBy := None;
     Attendance.reason := None;
     Attendance.createdAt := clk 3%nat |}.

(** The campus center, and a point 400 m north of it. *)
Definition campus_center : Location :=
  {| latitude := 13.0827%float; longitude := 80.2707%float |}.
Definition north_400m : Location :=
  {| latitude := 13.0862973%float; longitude := 80.2707%float |}.

(** ** Uniqueness of events and of active sessions *)

(** Two stored events are one determination twice: distinct documents
    for the same student, day, type and period. *)
Definition duplicate_events (e1 e2 : Attendance.t) : Prop :=
  Attendance._id e1 <> Attendance._id e2
  /\ Attendance.day_key e1 = Attendance.day_key e2.

Definition same_slot (s1 s2 : Session.t) : Prop :=
  Session.classId s1 = Session.classId s2
  /\ setHours0 (Session.date s1) = setHours0 (Session.date s2)
  /\ Session.period s1 = Session.period s2.

(** At most one active session for a class, day and period. *)
Definition one_active_session (d : DB) : Prop :=
  forall s1 s2,
    In s1 (sessions d) -> In s2 (sessions d) ->
    Session.isActive s1 = true -> Session.isActive s2 = true ->
    same_slot s1 s2 ->
    Session._id s1 = Session._id s2.

(** The invariant said to hold at every instant: no history of
    invocations breaks it. *)
Definition active_session_claim : Prop :=
  forall (Math : MathLib) (history : list (Op * Clock)) (d : DB),
    one_active_session d ->
    one_active_session (exec_all Math history d).

(** The two steps of [POST /api/attendance/session/start] between which
    the handler awaits the database: the checks, which answer early or
    let the request through, and the insert. *)
Definition session_start_check (classId : ObjectId) (period : nat)
    : M (option (Response Session.t)) :=
  now <- Date_now ;;
  holidayStatus <- isHoliday now ;;
  if isHoliday_ holidayStatus
  then ret (Some (res_error 400
                    ("Cannot take attendance on "
                     ++ match reason holidayStatus with
                        | Some r => r
                        | None => "undefined"
                        end)))
  else
    today <- Date_now ;;
    existingSession <- Session_findOne (fun s =>
      (Session.classId s =? classId)%nat
      && (Session.date s =? setHours0 today)
      && (Session.period s =? period)%nat
      && Session.isActive s) ;;
    match existingSession with
    | Some _ =>
        ret (Some (res_error 400 "Session already active for this period"))
    | None => ret None
    end.

Definition session_start_insert (teacherId : ObjectId)
    (token shortCode : string) (classId : ObjectId) (period : nat)
    (mode : Mode) : M (Response Session.t) :=
  session <- createSession token shortCode classId teacherId period mode ;;
  ret (res_json session).

(** The query of the active-session check. *)
Definition session_active (classId : ObjectId) (period : nat) (today : Time)
    (s : Session.t) : bool :=
  (Session.classId s =? classId)%nat
  && (Session.date s =? setHours0 today)
  && (Session.period s =? period)%nat
  && Session.isActive s.

(** A pending request of Alice for manual attendance in period 3. *)
Definition manual_request : Request.t :=
  {| Request._id := 300; Request.studentId := 101;
     Request.type := MANUAL_ATTENDANCE;
     Request.date := at_time monday 0 0; Request.period := Some 3%nat;
     Request.reason := "Bluetooth did not pair in class";
     Request.status := PENDING; Request.reviewedBy := None;
     Request.reviewNote := None |}.

Definition with_manual_request : DB :=
  {| attendances := []; sessions := []; students := [alice; bob; charlie];
     holidays := []; requests := [manual_request]; nextId := 400 |}.

(** The 09:00 session opened, then Alice marking at 09:05 and 09:06. *)
Definition marked_twice : DB :=
  exec_all taylorMath
    [(SessionStart 7 "T" "A1B2C3" 1 3 BLE, const_clock (at_time monday 9 0));
     (Mark alice 200 "T" None None, const_clock (at_time monday 9 5));
     (Mark alice 200 "T" None None, const_clock (at_time monday 9 6))]
    school.

(** One request approved twice. *)
Definition approved_twice : DB :=
  exec_all taylorMath
    [(Review 7 300 APPROVED None, const_clock (at_time monday 16 0));
     (Review 7 300 APPROVED None, const_clock (at_time monday 16 1))]
    with_manual_request.

(** The auto-absent sweep run twice on the Monday. *)
Definition swept_once : DB :=
  exec taylorMath AutoAbsent (ticking_clock (at_time monday 11 0)) school.
Definition swept_twice : DB :=
  exec taylorMath AutoAbsent (ticking_clock (at_time monday 11 1)) swept_once.

(** ** The expiry window of a session *)

(** What is said of every session [createSession] makes. *)
Definition expiry_window_claim : Prop :=
  forall (token shortCode : string) (classId teacherId : ObjectId)
         (period : nat) (mode : Mode) (clk : Clock) (d d' : DB)
         (s : Session.t),
    run (createSession token shortCode classId teacherId period mode) clk d
    = (Return s, d') ->
    Session.expiresAt s = Session.createdAt s + 15 * 60 * 1000.

(** The fields of a session that fix its window. *)
Definition window (s : Session.t) : ObjectId * Time * Time :=
  (Session._id s, Session.createdAt s, Session.expiresAt s).

(** From [d] to [d'] the stored sessions keep their windows, in place;
    sessions may have been added behind them. *)
Definition sessions_extend (d d' : DB) : Prop :=
  exists added,
    map window (sessions d') = (map window (sessions d) ++ added)%list.

(** A computation that only ever extends the sessions this way. *)
Definition keeps_windows {A} (m : M A) : Prop :=
  forall clk n d, sessions_extend d (snd (m clk n d)).

(** A session opened on the stroke of midnight: the one kind of session
    whose stored date is the midnight of its day. *)
Definition session_midnight : Session.t :=
  {| Session._id := 200; Session.classId := 1; Session.teacherId := 7;
     Session.date := at_time monday 0 0; Session.period := 3;
     Session.mode := BLE; Session.token := "T"; Session.code := None;
     Session.ssid := None; Session.isActive := true;
     Session.expiresAt := at_time monday 0 15;
     Session.presentStudents := [];
     Session.createdAt := at_time monday 0 0 |}.

(** ** The attendance report *)

(** The records of a student the report query selects: those of the
    class, dated within the range. *)
Definition in_report (classId : ObjectId) (startDate endDate : Time)
    (studentId : ObjectId) (e : Attendance.t) : bool :=
  (Attendance.classId e =? classId)%nat
  && (startDate <=? Attendance.date e)
  && (Attendance.date e <=? endDate)
  && (Attendance.studentId e =? studentId)%nat.

(** The row of a student computed from the events counted for him. *)
Definition report_row (student : Student.t) (events : list Attendance.t)
    : Stat :=
  let total := List.length events in
  let attended :=
    List.length
      (filter (fun e => Status_eqb (Attendance.status e) PRESENT) events) in
  {| stat_name := Student.name student;
     stat_rollNumber := Student.rollNumber student;
     totalClasses := total;
     present := attended;
     absent := total - attended;
     percentage := if (0 <? total)%nat then percent attended total else 0 |}.

(** The students of a class in the order of the report. *)
Definition enrolled (classId : ObjectId) (d : DB) : list Student.t :=
  sort_by by_rollNumber
    (filter (fun s => (Student.classId s =? classId)%nat) (students d)).

(** The report as the specification words it: for each student of the
    class, the CLASS events in range. *)
Definition class_only_report_claim : Prop :=
  forall (d : DB) (clk : Clock) (classId : ObjectId)
         (startDate endDate : Time) (rows : list Stat),
    fst (run (generateAttendanceReport classId startDate endDate) clk d)
    = Return rows ->
    rows
    = map (fun student =>
             report_row student
               (filter (fun e =>
                          in_report classId startDate endDate
                            (Student._id student) e
                          && AttendanceType_eqb (Attendance.type e) CLASS)
                       (attendances d)))
          (enrolled classId d).

(** Alice present on campus, and absent from the class of period 1, on
    the Monday. *)
Definition alice_campus : Attendance.t :=
  {| Attendance._id := 500; Attendance.studentId := 101;
     Attendance.classId := 1; Attendance.date := at_time monday 8 30;
     Attendance.type := CAMPUS; Attendance.period := None;
     Attendance.status := PRESENT; Attendance.mode := Some GPS;
     Attendance.location := Some campus_center;
     Attendance.deviceId := None; Attendance.markedBy := None;
     Attendance.reason := None; Attendance.createdAt := at_time monday 8 30 |}.

Definition with_alice_campus : DB := with_attendances [alice_campus] school.

(** Ten CLASS events of Alice, the first eight PRESENT, the last two
    ABSENT, in periods 1 to 5 of the Monday and of the Tuesday. *)
Definition ten_classes : list Attendance.t :=
  map (fun i =>
         {| Attendance._id := 600 + i; Attendance.studentId := 101;
            Attendance.classId := 1;
            Attendance.date := at_time (monday + Z.of_nat (i / 5)) 9 0;
            Attendance.type := CLASS;
            Attendance.period := Some (S (i mod 5));
            Attendance.status := if (i <? 8)%nat then PRESENT else ABSENT;
            Attendance.mode := Some BLE; Attendance.location := None;
            Attendance.deviceId := None; Attendance.markedBy := Some 7%nat;
            Attendance.reason := None;
            Attendance.createdAt := at_time (monday + Z.of_nat (i / 5)) 9 0 |})
      (seq 0 10).

(** One record of the tally added to the row it belongs to, and no
    other. *)
Definition count_record (record : Attendance.t) (kv : ObjectId * Stat)
    : ObjectId * Stat :=
  if (fst kv =? Attendance.studentId record)%nat
  then (fst kv, stat_count (Attendance.status record) (snd kv))
  else kv.

(** * Further statements about the engine *)

(** ** What handlers may do to the store *)

(** A computation whose every run relates the store it starts from to
    the store it leaves by [R]. *)
Definition preserves (R : DB -> DB -> Prop) {A} (m : M A) : Prop :=
  forall clk n d, R d (snd (m clk n d)).

(** The documents the handlers hand to [Attendance.create]: a CLASS
    document has a period; a CAMPUS document has none, or one the schema
    refuses. *)
Definition doc_ok (doc : Attendance.doc) : Prop :=
  match Attendance.d_type doc, Attendance.d_period doc with
  | CLASS, Some _ => True
  | CLASS, None => False
  | CAMPUS, None => True
  | CAMPUS, Some p => period_valid p = false
  end.

(** The fields of a session no code path assigns after creation. *)
Definition session_fixed (s : Session.t) :=
  (Session._id s, Session.classId s, Session.teacherId s, Session.date s,
   Session.period s, Session.mode s, Session.token s, Session.code s,
   Session.ssid s, Session.expiresAt s, Session.createdAt s).

(** A stored session [s] and what it may have become, [s']. *)
Definition session_step (s s' : Session.t) : Prop :=
  session_fixed s' = session_fixed s
  /\ (Session.isActive s' = true -> Session.isActive s = true)
  /\ exists more,
       Session.presentStudents s'
       = (Session.presentStudents s ++ more)%list.

(** A stored event and what it may have become: itself, but for its
    reason. *)
Definition event_step (e e' : Attendance.t) : Prop :=
  Attendance.set_reason None e' = Attendance.set_reason None e.

(** Lists that keep their elements in place, up to [P], and grow at the
    end. *)
Definition grows {A} (P : A -> A -> Prop) (l l' : list A) : Prop :=
  exists kept added, l' = (kept ++ added)%list /\ Forall2 P l kept.

(** From [d] to [d']: sessions and events stay in place, changed at
    most as above, with new ones behind them; students and holiday
    rules are the same. *)
Definition evolves (d d' : DB) : Prop :=
  grows session_step (sessions d) (sessions d')
  /\ grows event_step (attendances d) (attendances d')
  /\ students d' = students d
  /\ holidays d' = holidays d.

(** A CLASS event has a period between 1 and 8, a CAMPUS event none. *)
Definition event_wf (e : Attendance.t) : Prop :=
  match Attendance.type e, Attendance.period e with
  | CLASS, Some p => period_valid p = true
  | CAMPUS, None => True
  | _, _ => False
  end.

(** A session within its schema. *)
Definition session_wf (s : Session.t) : Prop :=
  period_valid (Session.period s) = true
  /\ session_mode_valid (Session.mode s) = true.

(** A history on the store with the 09:00 session open: Alice marks at
    09:05, the clean-up runs at 09:20, the sweep at 11:00. *)
Definition monday_morning : list (Op * Clock) :=
  [(Mark alice 200 "T" None None, ticking_clock (at_time monday 9 5));
   (SessionCleanup, ticking_clock (at_time monday 9 20));
   (AutoAbsent, ticking_clock (at_time monday 11 0))].

(** [P] holds of the store a computation leaves whenever it held of the
    store it started from. *)
Definition keeps (P : DB -> Prop) (d d' : DB) : Prop := P d -> P d'.

Definition tokens_distinct (d : DB) : Prop :=
  NoDup (map Session.token (sessions d)).

Definition sessions_wf (d : DB) : Prop := Forall session_wf (sessions d).

Definition events_wf (d : DB) : Prop := Forall event_wf (attendances d).

(** ** The auto-absent sweep *)

(** The body of the loop of the sweep, for the [today] it computed. *)
Definition auto_absent_body (today : Time) (student : Student.t) : M unit :=
  campusAttendance <- Attendance_findOne (fun e =>
    (Attendance.studentId e =? Student._id student)%nat
    && (Attendance.date e =? today)
    && AttendanceType_eqb (Attendance.type e) CAMPUS) ;;
  match campusAttendance with
  | Some _ => ret tt
  | None =>
      date <- Date_now ;;
      Attendance_create
        {| Attendance.d_studentId := Student._id student;
           Attendance.d_classId := Student.classId student;
           Attendance.d_date := date;
           Attendance.d_type := CAMPUS;
           Attendance.d_period := None;
           Attendance.d_status := Some ABSENT;
           Attendance.d_mode := None;
           Attendance.d_location := None;
           Attendance.d_deviceId := None;
           Attendance.d_markedBy := None;
           Attendance.d_reason := None |} ;;;
      ret tt
  end.

(** An event the sweep stores for one of the students [studs]. *)
Definition absent_mark (studs : list Student.t) (e : Attendance.t) : Prop :=
  Attendance.type e = CAMPUS
  /\ Attendance.status e = ABSENT
  /\ Attendance.period e = None
  /\ Attendance.mode e = None
  /\ exists s, In s studs
               /\ Attendance.studentId e = Student._id s
               /\ Attendance.classId e = Student.classId s.

(** The campus query of the sweep finds nothing for the student. *)
Definition unmarked (d : DB) (t : Time) (s : Student.t) : bool :=
  match find (campus_marked (Student._id s) t) (attendances d) with
  | Some _ => false
  | None => true
  end.

(** The store after the loop has appended [added]. *)
Definition with_added (added : list Attendance.t) (d : DB) : DB :=
  {| attendances := attendances d ++ added; sessions := sessions d;
     students := students d; holidays := holidays d;
     requests := requests d;
     nextId := nextId d + List.length added |}.

(** A CAMPUS event of Alice dated at the midnight of the Monday, as the
    approval of a request for that day stores it. *)
Definition alice_manual_campus : Attendance.t :=
  {| Attendance._id := 501; Attendance.studentId := 101;
     Attendance.classId := 1; Attendance.date := at_time monday 0 0;
     Attendance.type := CAMPUS; Attendance.period := None;
     Attendance.status := PRESENT; Attendance.mode := Some MANUAL;
     Attendance.location := None; Attendance.deviceId := None;
     Attendance.markedBy := Some 7%nat;
     Attendance.reason := Some "Gate scanner was down";
     Attendance.createdAt := at_time monday 16 0 |}.

(** The query of the loop, for the student with id [id]. *)
Definition absent_query (today : Time) (id : ObjectId) (e : Attendance.t)
    : bool :=
  (Attendance.studentId e =? id)%nat
  && (Attendance.date e =? today)
  && AttendanceType_eqb (Attendance.type e) CAMPUS.

(** ** Reviews of requests *)



(** ** Starting a session *)

(** The session a successful [session/start] stores. *)
Definition started_session (d : DB) (clk : Clock) (teacherId : ObjectId)
    (token shortCode : string) (classId : ObjectId) (period : nat)
    (mode : Mode) : Session.t :=
  {| Session._id := nextId d;
     Session.classId := classId;
     Session.teacherId := teacherId;
     Session.date := clk 2%nat;
     Session.period := period;
     Session.mode := mode;
     Session.token := token;
     Session.code := match mode with INTERNET => Some shortCode | _ => None end;
     Session.ssid :=
       match mode with
       | WIFI => Some ("SmartAttend_" ++ String.substring 0 8 token)
       | _ => None
       end;
     Session.isActive := true;
     Session.expiresAt := clk 3%nat + 15 * 60 * 1000;
     Session.presentStudents := [];
     Session.createdAt := clk 4%nat |}.

(** ** Principals and further routes *)

Inductive Role := CC | STAFF.

Definition Role_eqb (a b : Role) : bool :=
  match a, b with CC, CC | STAFF, STAFF => true | _, _ => false end.

Module Teacher.
(** The fields of [teacherSchema] the routes below read. *)
Record t := {
  _id : ObjectId;
  role : Role;
  assignedPeriods : list (ObjectId * nat)
}.
End Teacher.

(** [req.user] with [req.userType], as [authenticate] sets them. *)
Inductive Principal :=
| TeacherUser (teacher : Teacher.t)
| StudentUser (student : Student.t).

(** An answer with its status code: [res.status(code).json(body)]. *)
Inductive Reply (A : Type) : Type :=
| reply_json (status : nat) (body : A)
| reply_error (status : nat) (error : string)
| reply_invalid (errors : list string).
Arguments reply_json {A} status body.
Arguments reply_error {A} status error.
Arguments reply_invalid {A} errors.

(** The middleware [authorize(roles)]: the refusal it sends, or nothing
    when it calls [next()]. *)
Definition authorize (roles : option (list Role)) (user : Principal)
    : option (nat * string) :=
  match user with
  | StudentUser _ => Some (403%nat, "Access denied. Teachers only.")
  | TeacherUser teacher =>
      match roles with
      | Some allowed =>
          if negb (existsb (Role_eqb (Teacher.role teacher)) allowed)
          then Some (403%nat, "Insufficient permissions")
          else None
      | None => None
      end
  end.

(** [GET /api/reports/attendance] with the default format, JSON. *)
Definition get_reports_attendance (user : Principal) (classId : ObjectId)
    (startDate endDate : Time) : M (Response (list Stat)) :=
  catch
    (match user with
     | StudentUser _ => ret (res_error 403 "Access denied")
     | TeacherUser teacher =>
         if Role_eqb (Teacher.role teacher) STAFF
            && negb (existsb (fun p => (fst p =? classId)%nat)
                       (Teacher.assignedPeriods teacher))
         then ret (res_error 403 "Access denied to this class")
         else
           report <- generateAttendanceReport classId startDate endDate ;;
           ret (res_json report)
     end)
    (fun message => ret (res_error 500 message)).

Module Summary.
(** The body of the answer of [GET /api/reports/student/:studentId]. *)
Record t := {
  total : nat;
  present : nat;
  absent : nat;
  percentage : Z;
  records : list Attendance.t
}.
End Summary.

(** [.sort("-date")]. *)
Definition by_date_desc (a b : Attendance.t) : bool :=
  Attendance.date b <=? Attendance.date a.

(** [GET /api/reports/student/:studentId]. *)
Definition get_reports_student (user : Principal) (studentId : ObjectId)
    : M (Response Summary.t) :=
  catch
    (if match user with
        | StudentUser student => negb (Student._id student =? studentId)%nat
        | TeacherUser _ => false
        end
     then ret (res_error 403 "Access denied")
     else
       found <- Student_findById studentId ;;
       match found with
       | None => ret (res_error 404 "Student not found")
       | Some _ =>
           mine <- Attendance_find (fun e =>
                     (Attendance.studentId e =? studentId)%nat) ;;
           let attendances := sort_by by_date_desc mine in
           let total := List.length attendances in
           let attended :=
             List.length
               (filter (fun a => Status_eqb (Attendance.status a) PRESENT)
                  attendances) in
           let missed :=
             List.length
               (filter (fun a => Status_eqb (Attendance.status a) ABSENT)
                  attendances) in
           ret (res_json
                  {| Summary.total := total;
                     Summary.present := attended;
                     Summary.absent := missed;
                     Summary.percentage :=
                       if (0 <? total)%nat then percent attended total
                       else 0;
                     Summary.records := attendances |})
       end)
    (fun message => ret (res_error 500 message)).

(** [Holiday.create(doc)]. *)
Definition Holiday_create (h : Holiday.t) : M Holiday.t :=
  d <- get_db ;;
  put_db (with_holidays (holidays d ++ [h]) d) ;;;
  ret h.

Definition weekday_name (s : string) : bool :=
  existsb (String.eqb s)
    ["monday"; "tuesday"; "wednesday"; "thursday"; "friday"].

(** [POST /api/holidays]; the dates are the parsed dates of the body. *)
Definition post_holidays (user : Principal) (name : string)
    (startDate endDate : Time) (type : HolidayType)
    (mappedDay : option string) : M (Reply Holiday.t) :=
  match authorize (Some [CC]) user with
  | Some (status, error) => ret (reply_error status error)
  | None =>
      let errors :=
        ((if String.eqb name "" then ["name"] else [])
         ++ (match mappedDay with
             | Some day => if weekday_name day then [] else ["mappedDay"]
             | None => []
             end))%list in
      match errors with
      | _ :: _ => ret (reply_invalid errors)
      | [] =>
          catch
            (holiday <- Holiday_create
                          {| Holiday.name := name;
                             Holiday.startDate := startDate;
                             Holiday.endDate := endDate;
                             Holiday.type := type;
                             Holiday.mappedDay := mappedDay |} ;;
             ret (reply_json 201 holiday))
            (fun message => ret (reply_error 500 message))
      end
  end.

(** A class coordinator, and a staff teacher assigned to period 3 of
    class 1. *)
Definition coordinator : Teacher.t :=
  {| Teacher._id := 7; Teacher.role := CC; Teacher.assignedPeriods := [] |}.
Definition john : Teacher.t :=
  {| Teacher._id := 8; Teacher.role := STAFF;
     Teacher.assignedPeriods := [(1%nat, 3%nat)] |}.

(** * Proofs *)

(** ** Running monadic code *)

Ltac unfold_m :=
  unfold run, bind, catch, ret, throw, get_db, put_db, Date_now, fresh_id.

(** ** Calendar resolution *)

(** C7 (as amended).  [isHoliday] reads the store only.  A Sunday is a
    holiday with reason "Sunday" whatever the rules.  Otherwise only the
    first rule in storage order whose range contains the midnight of the
    date is looked at: SPECIAL makes the date a holiday with the rule's
    name as reason; SATURDAY_WORKING on a Saturday makes it a working
    day, not a holiday, with the rule's [mappedDay]; failing both, a
    Saturday is a holiday with reason "Saturday" and any other day is
    not a holiday. *)
Theorem isHoliday_first_match :
  forall (d : DB) (clk : Clock) (date : Time),
    let first := find (covers date) (holidays d) in
    let r := run (isHoliday date) clk d in
    snd r = d
    /\ (getDay date = 0 ->
        fst r = Return {| isHoliday_ := true; isWorkingDay := None;
                          mappedDay := None; reason := Some "Sunday" |})
    /\ (getDay date <> 0 ->
        forall h, first = Some h -> Holiday.type h = SPECIAL ->
        fst r = Return {| isHoliday_ := true; isWorkingDay := None;
                          mappedDay := None;
                          reason := Some (Holiday.name h) |})
    /\ (getDay date = 6 ->
        forall h, first = Some h -> Holiday.type h = SATURDAY_WORKING ->
        fst r = Return {| isHoliday_ := false; isWorkingDay := Some true;
                          mappedDay := Holiday.mappedDay h;
                          reason := Some "Working Saturday" |})
    /\ (getDay date = 6 ->
        first = None ->
        fst r = Return {| isHoliday_ := true; isWorkingDay := None;
                          mappedDay := None; reason := Some "Saturday" |})
    /\ (getDay date <> 0 -> getDay date <> 6 ->
        (forall h, first = Some h -> Holiday.type h <> SPECIAL) ->
        fst r = Return {| isHoliday_ := false; isWorkingDay := None;
                          mappedDay := None; reason := None |}).
Proof.
  intros d clk date first r.
  subst first r. unfold isHoliday, covers. unfold_m.
  destruct (Z.eqb_spec (getDay date) 0) as [E0 | E0]; cbn.
  - repeat split; try reflexivity; intros; try contradiction.
    + rewrite E0 in *. discriminate.
    + rewrite E0 in *. discriminate.
  - unfold Holiday_findOne. unfold_m. cbn.
    destruct (find _ (holidays d)) as [h |] eqn:Ef; cbn.
    + destruct (Holiday.type h) eqn:Et; cbn.
      * repeat split; intros; try contradiction; try congruence.
        exfalso. eapply H1; eauto.
      * destruct (Z.eqb_spec (getDay date) 6) as [E6 | E6]; cbn;
          repeat split; intros; try contradiction; try congruence.
    + destruct (Z.eqb_spec (getDay date) 6) as [E6 | E6]; cbn;
        repeat split; intros; try contradiction; try congruence.
Qed.

(** C7 (counterexample).  A SATURDAY_WORKING rule stored before a SPECIAL
    rule for the same Saturday wins: the day is reported as a working
    day although a SPECIAL rule contains it. *)
Lemma special_rule_shadowed : ~ special_takes_precedence.
Proof.
  intros claim.
  destruct (claim (with_holidays [working_saturday; founders_day] school)
              (const_clock 0) (at_time saturday 10 0) founders_day)
    as (res & Hres & Hholiday & _).
  - vm_compute. discriminate.
  - right. left. reflexivity.
  - reflexivity.
  - reflexivity.
  - vm_compute in Hres. injection Hres as <-. discriminate Hholiday.
Qed.

(** ** Class marking *)

Ltac unfold_mark :=
  unfold post_attendance_mark, markAttendance, Session_findById,
    Attendance_findOne, Attendance_create, Session_push_presentStudent;
  unfold_m.

(** A mark that passes every check of the route and of the service. *)
Lemma post_attendance_mark_success :
  forall (d : DB) (clk : Clock) (user : Student.t) (sessionId : ObjectId)
         (token : string) (location : option Location)
         (deviceId : option string) (s : Session.t),
    token <> "" ->
    find (fun s => (Session._id s =? sessionId)%nat) (sessions d) = Some s ->
    Session.token s = token ->
    Session.isActive s = true ->
    clk 0%nat <= Session.expiresAt s ->
    find (already_marked (Student._id user) s (clk 1%nat)) (attendances d)
    = None ->
    period_valid (Session.period s) = true ->
    let e := class_event d clk (Student._id user) s location deviceId in
    run (post_attendance_mark user sessionId token location deviceId) clk d
    = (Return (res_json e), after_class_mark d e s (Student._id user)).
Proof.
  intros d clk user sessionId token location deviceId s
    Htoken Ef Et Ea Ex Ed Hvalid e.
  assert (Hne : String.eqb token "" = false)
    by (apply String.eqb_neq; exact Htoken).
  subst e. unfold_mark. rewrite Hne. cbn. rewrite Ef. cbn.
  rewrite Et, String.eqb_refl. cbn. rewrite Ef, Ea. cbn.
  destruct (Z.ltb_spec (Session.expiresAt s) (clk 0%nat)); [lia |]. cbn.
  fold (already_marked (Student._id user) s (clk 1%nat)).
  rewrite Ed. cbn. rewrite Hvalid. cbn. reflexivity.
Qed.

(** C3 (as amended).  The route validates in this order.  A session that
    is not found and a token that differs from the session's token get
    the same answer, 400 "Invalid session or token", before anything
    else is looked at.  Then an inactive session, or one whose expiry
    lies before the clock reading, gets 500 "Invalid or expired session".
    Then an event found by the duplicate query gets 500 "Attendance
    already marked".  Each of these leaves the store as it was.  Only
    past all of them is one PRESENT CLASS event appended. *)
Theorem post_attendance_mark_validation :
  forall (d : DB) (clk : Clock) (user : Student.t) (sessionId : ObjectId)
         (token : string) (location : option Location)
         (deviceId : option string),
    token <> "" ->
    let r := run (post_attendance_mark user sessionId token location
                    deviceId) clk d in
    let found :=
      find (fun s => (Session._id s =? sessionId)%nat) (sessions d) in
    (found = None ->
     r = (Return (res_error 400 "Invalid session or token"), d))
    /\ (forall s, found = Some s -> Session.token s <> token ->
        r = (Return (res_error 400 "Invalid session or token"), d))
    /\ (forall s, found = Some s -> Session.token s = token ->
        Session.isActive s = false \/ Session.expiresAt s < clk 0%nat ->
        r = (Return (res_error 500 "Invalid or expired session"), d))
    /\ (forall s e, found = Some s -> Session.token s = token ->
        Session.isActive s = true -> clk 0%nat <= Session.expiresAt s ->
        find (already_marked (Student._id user) s (clk 1%nat))
          (attendances d) = Some e ->
        r = (Return (res_error 500 "Attendance already marked"), d))
    /\ (forall s, found = Some s -> Session.token s = token ->
        Session.isActive s = true -> clk 0%nat <= Session.expiresAt s ->
        find (already_marked (Student._id user) s (clk 1%nat))
          (attendances d) = None ->
        period_valid (Session.period s) = true ->
        let e := class_event d clk (Student._id user) s location deviceId in
        fst r = Return (res_json e)
        /\ attendances (snd r) = (attendances d ++ [e])%list
        /\ Attendance.type e = CLASS /\ Attendance.status e = PRESENT).
Proof.
  intros d clk user sessionId token location deviceId Htoken r found.
  assert (Hne : String.eqb token "" = false)
    by (apply String.eqb_neq; exact Htoken).
  subst r found. unfold_mark. rewrite Hne. cbn.
  destruct (find _ (sessions d)) as [s |] eqn:Ef; cbn.
  2: { repeat apply conj; intros; try discriminate; reflexivity. }
  split; [intros; discriminate |].
  destruct (String.eqb_spec (Session.token s) token) as [Et | Et]; cbn.
  2: { repeat apply conj; intros s' **; replace s' with s in * by congruence;
       try contradiction; reflexivity. }
  split; [intros s' Hs' Hn; exfalso; apply Hn; congruence |].
  rewrite Ef.
  destruct (Session.isActive s) eqn:Ea; cbn.
  2: { repeat apply conj; intros s' **; replace s' with s in * by congruence;
       try congruence; reflexivity. }
  destruct (Z.ltb_spec (Session.expiresAt s) (clk 0%nat)) as [Ex | Ex]; cbn.
  { repeat apply conj; intros s' **; replace s' with s in * by congruence;
      try lia; reflexivity. }
  fold (already_marked (Student._id user) s (clk 1%nat)).
  destruct (find (already_marked _ _ _) (attendances d)) as [e0 |] eqn:Ed;
    cbn.
  { repeat apply conj; intros s' **; replace s' with s in * by congruence;
      try (destruct H1; [congruence | lia]); try congruence; reflexivity. }
  split.
  { intros s' Hs' _ [Hi | Hi]; replace s' with s in * by congruence;
      [congruence | lia]. }
  split.
  { intros s' e' Hs' **. replace s' with s in * by congruence. congruence. }
  intros s' Hs' _ _ _ _ Hvalid. replace s' with s in * by congruence.
  rewrite Hvalid. cbn. repeat apply conj; reflexivity.
Qed.

Lemma post_attendance_mark_validation_witness :
  "WRONG" <> ""
  /\ run (post_attendance_mark alice 200 "WRONG" None None)
       (const_clock (at_time monday 9 5)) live
     = (Return (res_error 400 "Invalid session or token"), live).
Proof.
  split; [discriminate |].
  refine (proj1 (proj2 (post_attendance_mark_validation live
            (const_clock (at_time monday 9 5)) alice 200 "WRONG" None None _))
            session_0900 _ _).
  - discriminate.
  - reflexivity.
  - discriminate.
Defined.

(** C3 (counterexample).  No reading of the route's answers as typed
    outcomes agrees with the stated order: a session that does not exist
    and a wrong token for a live session get one and the same answer,
    where the specification has NotFound for the first and Forbidden for
    the second. *)
Lemma missing_and_mismatch_share_answer : ~ typed_outcomes_claim.
Proof.
  intros [kind claim].
  assert (Hmissing : kind (res_error 400 "Invalid session or token")
                     = NotFound).
  { exact (claim live (at_time monday 9 5) alice 999%nat "T" None None
             (res_error 400 "Invalid session or token")
             ltac:(discriminate) eq_refl). }
  assert (Hwrong : kind (res_error 400 "Invalid session or token")
                   = Forbidden "token mismatch").
  { exact (claim live (at_time monday 9 5) alice 200%nat "WRONG" None None
             (res_error 400 "Invalid session or token")
             ltac:(discriminate) eq_refl). }
  congruence.
Qed.

(** C3 (the order, at one request).  For an expired session and a wrong
    token the route answers with the token error, the specification's
    order with Expired. *)
Example expired_session_wrong_token :
  run (post_attendance_mark alice 200 "WRONG" None None)
    (const_clock (at_time monday 9 30)) live
  = (Return (res_error 400 "Invalid session or token"), live)
  /\ markClassAttendance_spec live (at_time monday 9 30) 200 101 "WRONG"
     = Expired.
Proof. split; reflexivity. Qed.

(** C10.  The route never compares the student's class with the class
    of the session: whoever the authenticated student is, when the
    session is found, the token matches, the session is active and not
    past its expiry, and the duplicate query finds nothing, the mark
    succeeds and the stored event carries the student's id and the
    session's [classId]. *)
Theorem mark_ignores_student_class :
  forall (d : DB) (clk : Clock) (user : Student.t) (sessionId : ObjectId)
         (token : string) (location : option Location)
         (deviceId : option string) (s : Session.t),
    token <> "" ->
    find (fun s => (Session._id s =? sessionId)%nat) (sessions d) = Some s ->
    Session.token s = token ->
    Session.isActive s = true ->
    clk 0%nat <= Session.expiresAt s ->
    find (already_marked (Student._id user) s (clk 1%nat)) (attendances d)
    = None ->
    period_valid (Session.period s) = true ->
    exists e,
      fst (run (post_attendance_mark user sessionId token location deviceId)
             clk d) = Return (res_json e)
      /\ In e (attendances
                 (snd (run (post_attendance_mark user sessionId token
                              location deviceId) clk d)))
      /\ Attendance.studentId e = Student._id user
      /\ Attendance.classId e = Session.classId s
      /\ Attendance.type e = CLASS
      /\ Attendance.status e = PRESENT.
Proof.
  intros d clk user sessionId token location deviceId s
    Htoken Ef Et Ea Ex Ed Hvalid.
  exists (class_event d clk (Student._id user) s location deviceId).
  rewrite (post_attendance_mark_success d clk user sessionId token location
             deviceId s Htoken Ef Et Ea Ex Ed Hvalid).
  cbn. repeat apply conj; try reflexivity.
  apply in_or_app. right. left. reflexivity.
Qed.

(** Charlie, a student of class 2, marks in the session of class 1. *)
Lemma mark_ignores_student_class_witness :
  Student.classId charlie <> Session.classId session_0900
  /\ exists e,
       fst (run (post_attendance_mark charlie 200 "T" None None)
              (const_clock (at_time monday 9 5)) live) = Return (res_json e)
       /\ In e (attendances
                  (snd (run (post_attendance_mark charlie 200 "T" None None)
                          (const_clock (at_time monday 9 5)) live)))
       /\ Attendance.studentId e = Student._id charlie
       /\ Attendance.classId e = Session.classId session_0900
       /\ Attendance.type e = CLASS
       /\ Attendance.status e = PRESENT.
Proof.
  split; [discriminate |].
  apply (mark_ignores_student_class live (const_clock (at_time monday 9 5))
           charlie 200%nat "T" None None session_0900).
  - discriminate.
  - reflexivity.
  - reflexivity.
  - reflexivity.
  - vm_compute. discriminate.
  - reflexivity.
  - reflexivity.
Defined.

(** ** Stored dates and day-keyed queries *)

Lemma setHours0_midnight (t : Time) : setHours0 t mod MS_PER_DAY = 0.
Proof.
  unfold setHours0, MS_PER_DAY.
  rewrite Zminus_mod, Z.mod_mod, Z.sub_diag by lia. reflexivity.
Qed.

(** The duplicate query of class marking finds only events dated at a
    midnight. *)
Lemma already_marked_at_midnight studentId session today e :
  already_marked studentId session today e = true ->
  Attendance.date e mod MS_PER_DAY = 0.
Proof.
  unfold already_marked. intros H.
  repeat (apply andb_prop in H; destruct H as [H ?]).
  match goal with
  | Hd : (Attendance.date e =? _) = true |- _ =>
      apply Z.eqb_eq in Hd; rewrite Hd
  end.
  apply setHours0_midnight.
Qed.

(** So does the campus query. *)
Lemma campus_marked_at_midnight studentId today e :
  campus_marked studentId today e = true ->
  Attendance.date e mod MS_PER_DAY = 0.
Proof.
  unfold campus_marked. intros H.
  repeat (apply andb_prop in H; destruct H as [H ?]).
  match goal with
  | Hd : (Attendance.date e =? _) = true |- _ =>
      apply Z.eqb_eq in Hd; rewrite Hd
  end.
  apply setHours0_midnight.
Qed.

(** An event stored by a class mark carries the instant of the mark:
    unless that instant is a midnight, no duplicate query finds it, on
    whatever day the query is run. *)
Lemma stored_class_event_not_found :
  forall (d : DB) (clk : Clock) (studentId : ObjectId) (s : Session.t)
         (location : option Location) (deviceId : option string)
         (today : Time),
    clk 2%nat mod MS_PER_DAY <> 0 ->
    already_marked studentId s today
      (class_event d clk studentId s location deviceId) = false.
Proof.
  intros d clk studentId s location deviceId today Hnot.
  destruct (already_marked studentId s today _) eqn:E; [| reflexivity].
  apply already_marked_at_midnight in E. contradiction.
Qed.

(** Likewise for an event stored by a campus mark. *)
Lemma stored_campus_event_not_found :
  forall (d : DB) (clk : Clock) (studentId classId : ObjectId)
         (location : Location) (deviceId : option string) (today : Time),
    clk 2%nat mod MS_PER_DAY <> 0 ->
    campus_marked studentId today
      (campus_event d clk studentId classId location deviceId) = false.
Proof.
  intros d clk studentId classId location deviceId today Hnot.
  destruct (campus_marked studentId today _) eqn:E; [| reflexivity].
  apply campus_marked_at_midnight in E. contradiction.
Qed.

(** C6 (the code at a failing input).  The session opened at 09:00 and
    the event marked at 09:05 are stored with these instants as their
    dates, not with the midnight of the day; the day-keyed queries run
    later the same day therefore find neither. *)
Theorem stored_dates_keep_time_of_day :
  let d1 := exec taylorMath (SessionStart 7 "T" "A1B2C3" 1 3 BLE)
              (const_clock (at_time monday 9 0)) school in
  let d2 := exec taylorMath (Mark alice 200 "T" None None)
              (const_clock (at_time monday 9 5)) d1 in
  map Session.date (sessions d1) = [at_time monday 9 0]
  /\ map Attendance.date (attendances d2) = [at_time monday 9 5]
  /\ setHours0 (at_time monday 9 0) = at_time monday 0 0
  /\ setHours0 (at_time monday 9 5) = at_time monday 0 0
  /\ find (session_active 1 3 (at_time monday 9 1)) (sessions d1) = None
  /\ find (already_marked 101 session_0900 (at_time monday 9 6))
       (attendances d2) = None.
Proof. vm_compute. repeat apply conj; reflexivity. Qed.

(** C1 (the code at failing inputs).  Alice marking twice in one
    session leaves two CLASS events for her, that day and that period;
    one request approved twice leaves two events with the very same
    (studentId, date, type, period). *)
Theorem duplicate_events_stored :
  (exists e1 e2,
      In e1 (attendances marked_twice) /\ In e2 (attendances marked_twice)
      /\ duplicate_events e1 e2)
  /\ (exists e1 e2,
         In e1 (attendances approved_twice)
         /\ In e2 (attendances approved_twice)
         /\ Attendance._id e1 <> Attendance._id e2
         /\ Attendance.key e1 = Attendance.key e2).
Proof.
  split.
  - exists (nth 0 (attendances marked_twice)
              (class_event school (const_clock 0) 0 session_0900 None None)).
    exists (nth 1 (attendances marked_twice)
              (class_event school (const_clock 0) 0 session_0900 None None)).
    vm_compute. repeat apply conj; auto; discriminate.
  - exists (nth 0 (attendances approved_twice)
              (class_event school (const_clock 0) 0 session_0900 None None)).
    exists (nth 1 (attendances approved_twice)
              (class_event school (const_clock 0) 0 session_0900 None None)).
    vm_compute. repeat apply conj; auto; discriminate.
Qed.

(** C5 (the code at a failing input).  With three students without a
    CAMPUS event on a Monday that is no holiday, the first sweep stores
    three ABSENT CAMPUS events and the second sweep three more. *)
Theorem sweep_twice_doubles :
  let today := at_time monday 0 0 in
  List.length (attendances swept_once) = 3%nat
  /\ List.length (attendances swept_twice) = 6%nat
  /\ map (fun e => (Attendance.studentId e, Attendance.type e,
                    Attendance.status e, setHours0 (Attendance.date e)))
       (attendances swept_twice)
     = [(101%nat, CAMPUS, ABSENT, today); (102%nat, CAMPUS, ABSENT, today);
        (103%nat, CAMPUS, ABSENT, today); (101%nat, CAMPUS, ABSENT, today);
        (102%nat, CAMPUS, ABSENT, today); (103%nat, CAMPUS, ABSENT, today)].
Proof. vm_compute. repeat apply conj; reflexivity. Qed.

(** ** Campus marking *)

Arguments isWithinCampus : simpl never.

(** What [markCampusAttendance] does at each of its exits: an event
    found by the campus query is returned and nothing is written; else
    a clock reading at or after 11:00 and a position outside the radius
    throw, in this order, and nothing is written; else one PRESENT
    CAMPUS event with mode GPS is appended. *)
Lemma markCampusAttendance_cases :
  forall (Math : MathLib) (d : DB) (clk : Clock) (studentId : ObjectId)
         (location : Location) (deviceId : option string),
    let r := run (markCampusAttendance Math studentId location deviceId)
               clk d in
    let existing :=
      find (campus_marked studentId (clk 0%nat)) (attendances d) in
    let inside :=
      isWithinCampus Math (latitude location) (longitude location) in
    (forall e, existing = Some e -> r = (Return e, d))
    /\ (existing = None -> 11 <= getHours (clk 1%nat) ->
        r = (Throw "Campus attendance closed after 11:00 AM", d))
    /\ (existing = None -> getHours (clk 1%nat) < 11 -> inside = false ->
        r = (Throw "Not within campus bounds", d))
    /\ (forall student,
        existing = None -> getHours (clk 1%nat) < 11 -> inside = true ->
        find (fun s => (Student._id s =? studentId)%nat) (students d)
        = Some student ->
        let e := campus_event d clk studentId (Student.classId student)
                   location deviceId in
        r = (Return e,
             with_attendances (attendances d ++ [e])
               (with_nextId (S (nextId d)) d))).
Proof.
  intros Math d clk studentId location deviceId r existing inside.
  subst r existing inside.
  unfold markCampusAttendance, Attendance_findOne, Student_findById,
    Attendance_create.
  unfold_m. cbn.
  fold (campus_marked studentId (clk 0%nat)).
  destruct (find (campus_marked _ _) (attendances d)) as [e0 |] eqn:Ee; cbn.
  { repeat apply conj; intros; try discriminate; congruence. }
  split; [intros; discriminate |].
  destruct (Z.leb_spec 11 (getHours (clk 1%nat))) as [Eh | Eh]; cbn.
  { repeat apply conj; intros; try lia; reflexivity. }
  split; [intros; lia |].
  destruct (isWithinCampus Math (latitude location) (longitude location))
    eqn:Ew; cbn.
  2: { split; [reflexivity | intros; discriminate]. }
  split; [intros; discriminate |].
  intros student _ _ _ Es. rewrite Es. cbn. reflexivity.
Qed.

(** C4 (the code at a failing input).  Alice marks on campus at 09:00,
    400 m from the center: one PRESENT CAMPUS event of that Monday is
    stored.  She marks again at 09:30: the stored event is not returned;
    a second event is created and stored. *)
Theorem campus_mark_twice_inserts_twice :
  let d1 := exec taylorMath (Campus alice north_400m None)
              (const_clock (at_time monday 9 0)) school in
  let r2 := run (post_attendance_campus taylorMath alice north_400m None)
              (const_clock (at_time monday 9 30)) d1 in
  exists e1 e2,
    attendances d1 = [e1]
    /\ Attendance.studentId e1 = Student._id alice
    /\ Attendance.type e1 = CAMPUS
    /\ setHours0 (Attendance.date e1) = setHours0 (at_time monday 9 30)
    /\ fst r2 = Return (res_json e2)
    /\ Attendance._id e2 <> Attendance._id e1
    /\ attendances (snd r2) = [e1; e2].
Proof.
  intros d1 r2.
  pose (blank := campus_event school (const_clock 0) 0 0 campus_center None).
  exists (nth 0 (attendances d1) blank).
  exists (nth 1 (attendances (snd r2)) blank).
  vm_compute. repeat apply conj; try reflexivity. discriminate.
Qed.

(** The scenario of the specification: at 10:59, 400 m from the center,
    the mark succeeds; at 11:01, from the same place, it is refused. *)
Example campus_cutoff_scenario :
  (exists e,
      fst (run (post_attendance_campus taylorMath bob north_400m None)
             (const_clock (at_time monday 10 59)) school)
      = Return (res_json e)
      /\ Attendance.status e = PRESENT /\ Attendance.mode e = Some GPS)
  /\ run (post_attendance_campus taylorMath charlie north_400m None)
       (const_clock (at_time monday 11 1)) school
     = (Return (res_error 500 "Campus attendance closed after 11:00 AM"),
        school).
Proof.
  split.
  - exists (campus_event school (const_clock (at_time monday 10 59)) 102 1
              north_400m None).
    vm_compute. repeat apply conj; reflexivity.
  - vm_compute. reflexivity.
Qed.

(** ** Active sessions *)

(** [isHoliday] reads the rules and nothing else: its result depends
    neither on the clock nor on the readings taken so far, and the store
    stays as it was. *)
Lemma isHoliday_reads (date : Time) (d : DB) :
  exists status, forall clk n, isHoliday date clk n d = (Return status, n, d).
Proof.
  unfold isHoliday, Holiday_findOne. unfold_m.
  destruct (getDay date =? 0); [eexists; reflexivity |].
  destruct (find _ (holidays d)) as [h |]; [| eexists; reflexivity].
  destruct (Holiday.type h); [eexists; reflexivity |].
  destruct (getDay date =? 6); eexists; reflexivity.
Qed.

(** C2 (counterexample).  Two teachers open period 3 of class 1 at 09:00
    and at 09:01 of the same Monday: both requests are accepted and both
    sessions are active. *)
Lemma two_active_sessions_same_slot : ~ active_session_claim.
Proof.
  intros claim.
  pose (history :=
          [(SessionStart 7 "T1" "A1B2C3" 1 3 BLE,
            const_clock (at_time monday 9 0));
           (SessionStart 8 "T2" "D4E5F6" 1 3 BLE,
            const_clock (at_time monday 9 1))]).
  assert (Hschool : one_active_session school) by (intros s1 s2 []).
  pose proof (claim taylorMath history school Hschool) as Hafter.
  pose (blank := session_0900).
  specialize (Hafter (nth 0 (sessions (exec_all taylorMath history school))
                        blank)
                     (nth 1 (sessions (exec_all taylorMath history school))
                        blank)).
  vm_compute in Hafter.
  assert (200%nat = 201%nat) as Habs.
  { apply Hafter; auto. }
  discriminate Habs.
Qed.

(** The handler is its check followed by its insert. *)
Lemma post_session_start_steps :
  forall (teacherId : ObjectId) (token shortCode : string)
         (classId : ObjectId) (period : nat) (mode : Mode),
    period_valid period = true -> session_mode_valid mode = true ->
    forall clk n d,
      post_session_start teacherId token shortCode classId period mode
        clk n d
      = catch
          (checked <- session_start_check classId period ;;
           match checked with
           | Some answer => ret answer
           | None => session_start_insert teacherId token shortCode classId
                       period mode
           end)
          (fun message => ret (res_error 500 message)) clk n d.
Proof.
  intros teacherId token shortCode classId period mode Hp Hm clk n d.
  unfold post_session_start, session_start_check, session_start_insert.
  rewrite Hp, Hm. cbn [negb].
  unfold Session_findOne. unfold_m.
  destruct (isHoliday_reads (clk n) d) as [status Hstatus].
  rewrite !Hstatus.
  destruct (isHoliday_ status); [reflexivity |].
  destruct (find _ (sessions d)); reflexivity.
Qed.

(** The insert step stores an active session whatever sessions the
    store holds: only a token already in use stops it. *)
Lemma session_start_insert_runs :
  forall (teacherId : ObjectId) (token shortCode : string)
         (classId : ObjectId) (period : nat) (mode : Mode) (clk : Clock)
         (d : DB),
    period_valid period = true -> session_mode_valid mode = true ->
    existsb (fun s => String.eqb (Session.token s) token) (sessions d)
    = false ->
    exists s,
      run (session_start_insert teacherId token shortCode classId period
             mode) clk d
      = (Return (res_json s),
         with_sessions (sessions d ++ [s]) (with_nextId (S (nextId d)) d))
      /\ Session.isActive s = true
      /\ Session.classId s = classId
      /\ Session.period s = period
      /\ Session.date s = clk 0%nat.
Proof.
  intros teacherId token shortCode classId period mode clk d Hp Hm Hfree.
  unfold session_start_insert, createSession, Session_create. unfold_m.
  rewrite Hp, Hm. cbn. rewrite Hfree. cbn.
  eexists. repeat apply conj; reflexivity.
Qed.

(** C2 (as amended).  The handler of [session/start] is a check followed
    by an insert, two steps on the store.  The check refuses, with 400
    "Session already active for this period" and no write, a request
    for which the active-session query finds a session (on a day that is
    no holiday).  The insert does not look at the stored sessions again:
    run on any store in which the token is new, it stores an active
    session for the class and period asked for. *)
Theorem session_start_check_then_insert :
  forall (teacherId : ObjectId) (token shortCode : string)
         (classId : ObjectId) (period : nat) (mode : Mode),
    period_valid period = true -> session_mode_valid mode = true ->
    (forall clk n d,
        post_session_start teacherId token shortCode classId period mode
          clk n d
        = catch
            (checked <- session_start_check classId period ;;
             match checked with
             | Some answer => ret answer
             | None => session_start_insert teacherId token shortCode
                         classId period mode
             end)
            (fun message => ret (res_error 500 message)) clk n d)
    /\ (forall clk d status s,
           fst (run (isHoliday (clk 0%nat)) clk d) = Return status ->
           isHoliday_ status = false ->
           find (session_active classId period (clk 1%nat)) (sessions d)
           = Some s ->
           run (post_session_start teacherId token shortCode classId period
                  mode) clk d
           = (Return (res_error 400 "Session already active for this period"),
              d))
    /\ (forall clk d,
           existsb (fun s => String.eqb (Session.token s) token) (sessions d)
           = false ->
           exists s,
             run (session_start_insert teacherId token shortCode classId
                    period mode) clk d
             = (Return (res_json s),
                with_sessions (sessions d ++ [s])
                  (with_nextId (S (nextId d)) d))
             /\ Session.isActive s = true
             /\ Session.classId s = classId
             /\ Session.period s = period
             /\ Session.date s = clk 0%nat).
Proof.
  intros teacherId token shortCode classId period mode Hp Hm.
  split; [| split].
  - apply post_session_start_steps; assumption.
  - intros clk d status s Hstatus Hwork Hfound.
    unfold run in *. unfold post_session_start.
    rewrite Hp, Hm. cbn [negb].
    unfold Session_findOne. unfold_m.
    destruct (isHoliday_reads (clk 0%nat) d) as [status' Hstatus'].
    rewrite Hstatus' in Hstatus |- *. cbn in Hstatus.
    injection Hstatus as ->. rewrite Hwork.
    fold (session_active classId period (clk 1%nat)).
    cbn. rewrite Hfound. reflexivity.
  - intros clk d Hfree.
    apply session_start_insert_runs; assumption.
Qed.

Lemma session_start_check_then_insert_witness :
  period_valid 3 = true /\ session_mode_valid BLE = true
  /\ run (post_session_start 8 "T2" "D4E5F6" 1 3 BLE)
       (const_clock (at_time monday 0 5))
       (with_sessions [session_midnight] school)
     = (Return (res_error 400 "Session already active for this period"),
        with_sessions [session_midnight] school).
Proof.
  split; [reflexivity | split; [reflexivity |]].
  refine (proj1 (proj2 (session_start_check_then_insert 8 "T2" "D4E5F6" 1 3
                          BLE eq_refl eq_refl))
            (const_clock (at_time monday 0 5)) _
            {| isHoliday_ := false; isWorkingDay := None; mappedDay := None;
               reason := None |}
            session_midnight _ _ _); reflexivity.
Defined.

(** Two requests for the same class and period, interleaved: both pass
    the check before either inserts, and both sessions are stored
    active. *)
Example interleaved_session_starts :
  let clkA := const_clock (at_time monday 9 0) in
  let clkB := const_clock (at_time monday 9 0) in
  let d1 := snd (run (session_start_insert 7 "T1" "A1B2C3" 1 3 BLE) clkA
                   school) in
  let d2 := snd (run (session_start_insert 8 "T2" "D4E5F6" 1 3 BLE) clkB
                   d1) in
  run (session_start_check 1 3) clkA school = (Return None, school)
  /\ run (session_start_check 1 3) clkB school = (Return None, school)
  /\ map (fun s => (Session.classId s, Session.date s, Session.period s,
                    Session.isActive s)) (sessions d2)
     = [(1%nat, at_time monday 9 0, 3%nat, true);
        (1%nat, at_time monday 9 0, 3%nat, true)].
Proof. vm_compute. repeat apply conj; reflexivity. Qed.

(** ** The expiry window *)

Lemma sessions_extend_refl (d : DB) : sessions_extend d d.
Proof. exists []. rewrite app_nil_r. reflexivity. Qed.

Lemma sessions_extend_trans (d1 d2 d3 : DB) :
  sessions_extend d1 d2 -> sessions_extend d2 d3 -> sessions_extend d1 d3.
Proof.
  intros [a1 H1] [a2 H2]. exists (a1 ++ a2)%list.
  rewrite H2, H1, app_assoc. reflexivity.
Qed.

Lemma sessions_extend_same (d d' : DB) :
  map window (sessions d') = map window (sessions d) -> sessions_extend d d'.
Proof. intros H. exists []. rewrite app_nil_r. exact H. Qed.

Lemma keeps_ret {A} (a : A) : keeps_windows (ret a).
Proof. intros clk n d. apply sessions_extend_refl. Qed.

Lemma keeps_throw {A} (e : string) : keeps_windows (@throw A e).
Proof. intros clk n d. apply sessions_extend_refl. Qed.

Lemma keeps_bind {A B} (m : M A) (f : A -> M B) :
  keeps_windows m -> (forall a, keeps_windows (f a)) ->
  keeps_windows (bind m f).
Proof.
  intros Hm Hf clk n d. unfold bind.
  specialize (Hm clk n d).
  destruct (m clk n d) as [[[a | e] n'] d']; cbn in *.
  - eapply sessions_extend_trans; [exact Hm | apply Hf].
  - exact Hm.
Qed.

Lemma keeps_catch {A} (m : M A) (h : string -> M A) :
  keeps_windows m -> (forall e, keeps_windows (h e)) ->
  keeps_windows (catch m h).
Proof.
  intros Hm Hh clk n d. unfold catch.
  specialize (Hm clk n d).
  destruct (m clk n d) as [[[a | e] n'] d']; cbn in *.
  - exact Hm.
  - eapply sessions_extend_trans; [exact Hm | apply Hh].
Qed.

Lemma keeps_Date_now : keeps_windows Date_now.
Proof. intros clk n d. apply sessions_extend_refl. Qed.

Lemma keeps_get_db : keeps_windows get_db.
Proof. intros clk n d. apply sessions_extend_refl. Qed.

Lemma keeps_fresh_id : keeps_windows fresh_id.
Proof. intros clk n d. apply sessions_extend_same. reflexivity. Qed.

Lemma keeps_Attendance_findOne q : keeps_windows (Attendance_findOne q).
Proof. intros clk n d. apply sessions_extend_refl. Qed.

Lemma keeps_Session_findById id : keeps_windows (Session_findById id).
Proof. intros clk n d. apply sessions_extend_refl. Qed.

Lemma keeps_Session_findOne q : keeps_windows (Session_findOne q).
Proof. intros clk n d. apply sessions_extend_refl. Qed.

Lemma keeps_Student_findById id : keeps_windows (Student_findById id).
Proof. intros clk n d. apply sessions_extend_refl. Qed.

Lemma keeps_Student_find q : keeps_windows (Student_find q).
Proof. intros clk n d. apply sessions_extend_refl. Qed.

Lemma keeps_Attendance_create doc : keeps_windows (Attendance_create doc).
Proof.
  intros clk n d. unfold Attendance_create. unfold_m.
  destruct (Attendance.d_period doc) as [p |]; cbn;
    [destruct (period_valid p); cbn |];
    apply sessions_extend_same; reflexivity.
Qed.

Lemma keeps_Attendance_updateMany_reason q r :
  keeps_windows (Attendance_updateMany_reason q r).
Proof. intros clk n d. apply sessions_extend_same. reflexivity. Qed.

Lemma keeps_Request_findByIdAndUpdate id u :
  keeps_windows (Request_findByIdAndUpdate id u).
Proof.
  intros clk n d. unfold Request_findByIdAndUpdate. unfold_m.
  destruct (find _ (requests d)); cbn;
    apply sessions_extend_same; reflexivity.
Qed.

Lemma keeps_isHoliday date : keeps_windows (isHoliday date).
Proof.
  intros clk n d. destruct (isHoliday_reads date d) as [status H].
  rewrite H. apply sessions_extend_refl.
Qed.

(** Pushing a present student rewrites [presentStudents] only. *)
Lemma keeps_Session_push_presentStudent id studentId :
  keeps_windows (Session_push_presentStudent id studentId).
Proof.
  intros clk n d. unfold Session_push_presentStudent. unfold_m. cbn.
  apply sessions_extend_same. cbn. rewrite map_map. apply map_ext.
  intros s. destruct (Session._id s =? id)%nat; reflexivity.
Qed.

(** The clean-up rewrites [isActive] only. *)
Lemma keeps_Session_updateMany_inactive q :
  keeps_windows (Session_updateMany_inactive q).
Proof.
  intros clk n d. unfold Session_updateMany_inactive. unfold_m. cbn.
  apply sessions_extend_same. cbn. rewrite map_map. apply map_ext.
  intros s. destruct (q s); reflexivity.
Qed.

(** Creating a session appends it and touches no other. *)
Lemma keeps_Session_create classId teacherId date period mode token code
    ssid expiresAt :
  keeps_windows (Session_create classId teacherId date period mode token
                   code ssid expiresAt).
Proof.
  intros clk n d. unfold Session_create. unfold_m.
  destruct (period_valid period && session_mode_valid mode); cbn;
    [| apply sessions_extend_same; reflexivity].
  destruct (existsb _ (sessions d)); cbn;
    [apply sessions_extend_same; reflexivity |].
  eexists. cbn. rewrite map_app. reflexivity.
Qed.

Lemma keeps_for_each {A} (l : list A) (body : A -> M unit) :
  (forall x, keeps_windows (body x)) -> keeps_windows (for_each l body).
Proof.
  intros Hbody. induction l as [| x l IH]; cbn.
  - apply keeps_ret.
  - apply keeps_bind; [apply Hbody | intros _; exact IH].
Qed.

Ltac keeps_step :=
  lazymatch goal with
  | |- keeps_windows (bind _ _) => apply keeps_bind; [| intros]
  | |- keeps_windows (catch _ _) => apply keeps_catch; [| intros]
  | |- keeps_windows (ret _) => apply keeps_ret
  | |- keeps_windows (throw _) => apply keeps_throw
  | |- keeps_windows Date_now => apply keeps_Date_now
  | |- keeps_windows get_db => apply keeps_get_db
  | |- keeps_windows fresh_id => apply keeps_fresh_id
  | |- keeps_windows (Attendance_findOne _) => apply keeps_Attendance_findOne
  | |- keeps_windows (Session_findById _) => apply keeps_Session_findById
  | |- keeps_windows (Session_findOne _) => apply keeps_Session_findOne
  | |- keeps_windows (Student_findById _) => apply keeps_Student_findById
  | |- keeps_windows (Student_find _) => apply keeps_Student_find
  | |- keeps_windows (Attendance_create _) => apply keeps_Attendance_create
  | |- keeps_windows (Attendance_updateMany_reason _ _) =>
      apply keeps_Attendance_updateMany_reason
  | |- keeps_windows (Request_findByIdAndUpdate _ _) =>
      apply keeps_Request_findByIdAndUpdate
  | |- keeps_windows (isHoliday _) => apply keeps_isHoliday
  | |- keeps_windows (Session_push_presentStudent _ _) =>
      apply keeps_Session_push_presentStudent
  | |- keeps_windows (Session_updateMany_inactive _) =>
      apply keeps_Session_updateMany_inactive
  | |- keeps_windows (Session_create _ _ _ _ _ _ _ _ _) =>
      apply keeps_Session_create
  | |- keeps_windows (for_each _ _) => apply keeps_for_each; intros
  | |- keeps_windows (match ?x with _ => _ end) => destruct x
  end.

Ltac keeps_auto := repeat keeps_step.

Lemma keeps_createSession token shortCode classId teacherId period mode :
  keeps_windows (createSession token shortCode classId teacherId period mode).
Proof. unfold createSession. keeps_auto. Qed.

Lemma keeps_markAttendance sessionId studentId deviceId location :
  keeps_windows (markAttendance sessionId studentId deviceId location).
Proof. unfold markAttendance. keeps_auto. Qed.

Lemma keeps_markCampusAttendance Math studentId location deviceId :
  keeps_windows (markCampusAttendance Math studentId location deviceId).
Proof. unfold markCampusAttendance. keeps_auto. Qed.

(** Every handler and task keeps the window of every stored session. *)
Lemma exec_keeps_windows (Math : MathLib) (op : Op) (clk : Clock) (d : DB) :
  sessions_extend d (exec Math op clk d).
Proof.
  assert (Hrun : forall A (m : M A), keeps_windows m ->
                   sessions_extend d (snd (run m clk d))).
  { intros A m Hm. unfold run. specialize (Hm clk 0%nat d).
    destruct (m clk 0%nat d) as [[r n] d']. exact Hm. }
  destruct op; cbn [exec]; apply Hrun.
  - unfold post_session_start. keeps_auto. apply keeps_createSession.
  - unfold post_attendance_mark. keeps_auto. apply keeps_markAttendance.
  - unfold post_attendance_campus. keeps_auto.
    apply keeps_markCampusAttendance.
  - unfold put_request_review. keeps_auto.
  - unfold post_absence_reason. keeps_auto.
  - unfold cron_auto_absent. keeps_auto.
  - unfold cron_session_cleanup. keeps_auto.
Qed.

Lemma exec_all_keeps_windows (Math : MathLib) (history : list (Op * Clock))
    (d : DB) :
  sessions_extend d (exec_all Math history d).
Proof.
  revert d. induction history as [| [op clk] rest IH]; intros d; cbn.
  - apply sessions_extend_refl.
  - eapply sessions_extend_trans; [apply exec_keeps_windows | apply IH].
Qed.

(** What [createSession] stores, reading by reading. *)
Lemma createSession_stores :
  forall (token shortCode : string) (classId teacherId : ObjectId)
         (period : nat) (mode : Mode) (clk : Clock) (d d' : DB)
         (s : Session.t),
    run (createSession token shortCode classId teacherId period mode) clk d
    = (Return s, d') ->
    Session.date s = clk 0%nat
    /\ Session.expiresAt s = clk 1%nat + 15 * 60 * 1000
    /\ Session.createdAt s = clk 2%nat
    /\ Session.isActive s = true
    /\ sessions d' = (sessions d ++ [s])%list.
Proof.
  intros token shortCode classId teacherId period mode clk d d' s.
  unfold createSession, Session_create. unfold_m. cbn.
  destruct (period_valid period && session_mode_valid mode); cbn;
    [| discriminate].
  destruct (existsb _ (sessions d)); cbn; [discriminate |].
  intros H. injection H as <- <-. cbn. repeat apply conj; reflexivity.
Qed.

(** C9 (counterexample).  Under a clock that advances by a millisecond
    at each reading, the session [createSession] stores expires one
    millisecond less than 15 minutes after its [createdAt]. *)
Lemma expiry_window_off_by_clock : ~ expiry_window_claim.
Proof.
  intros claim.
  pose (clk := ticking_clock (at_time monday 9 0)).
  pose (r := run (createSession "T" "A1B2C3" 1 7 3 BLE) clk school).
  assert (Hs : exists s, r = (Return s, snd r)
                         /\ Session.expiresAt s = at_time monday 9 15 + 1
                         /\ Session.createdAt s = at_time monday 9 0 + 2).
  { exists (nth 0 (sessions (snd r)) session_0900).
    vm_compute. repeat apply conj; reflexivity. }
  destruct Hs as (s & Hr & He & Hc).
  pose proof (claim "T" "A1B2C3" 1%nat 7%nat 3%nat BLE clk school (snd r) s
                Hr) as Hw.
  rewrite He, Hc in Hw. vm_compute in Hw. discriminate Hw.
Qed.

(** C9 (as amended).  [createSession] sets [expiresAt] to its own clock
    reading plus exactly 15 minutes; [createdAt] is a later reading, the
    default of the schema, so that [expiresAt] is at most
    [createdAt] + 15 minutes and equals it when the two readings
    coincide.  After creation no handler and no scheduled task changes
    the [expiresAt] or the [createdAt] of a stored session: along every
    history the stored sessions keep both, in place. *)
Theorem expiresAt_fixed_at_creation :
  (forall (token shortCode : string) (classId teacherId : ObjectId)
          (period : nat) (mode : Mode) (clk : Clock) (d d' : DB)
          (s : Session.t),
      run (createSession token shortCode classId teacherId period mode)
        clk d = (Return s, d') ->
      Session.expiresAt s = clk 1%nat + 15 * 60 * 1000
      /\ Session.createdAt s = clk 2%nat
      /\ (clk 1%nat <= clk 2%nat ->
          Session.expiresAt s <= Session.createdAt s + 15 * 60 * 1000)
      /\ (clk 1%nat = clk 2%nat ->
          Session.expiresAt s = Session.createdAt s + 15 * 60 * 1000))
  /\ (forall (Math : MathLib) (history : list (Op * Clock)) (d : DB),
         exists added,
           map window (sessions (exec_all Math history d))
           = (map window (sessions d) ++ added)%list).
Proof.
  split.
  - intros token shortCode classId teacherId period mode clk d d' s Hrun.
    destruct (createSession_stores _ _ _ _ _ _ _ _ _ _ Hrun)
      as (_ & He & Hc & _).
    rewrite He, Hc. repeat apply conj; try reflexivity; intros; lia.
  - intros Math history d. apply exec_all_keeps_windows.
Qed.

(** The scenario of the specification: a session opened at 09:00
    expires at 09:15, marks leave the expiry alone, and the clean-up of
    09:20 turns the session inactive. *)
Example session_expiry_scenario :
  let d := exec taylorMath SessionCleanup (const_clock (at_time monday 9 20))
             marked_twice in
  map (fun s => (Session.expiresAt s, Session.isActive s))
    (sessions marked_twice) = [(at_time monday 9 15, true)]
  /\ map (fun s => (Session.expiresAt s, Session.isActive s)) (sessions d)
     = [(at_time monday 9 15, false)].
Proof. vm_compute. split; reflexivity. Qed.

(** ** The attendance report *)

Lemma sort_insert_perm {A} (leb : A -> A -> bool) (x : A) (l : list A) :
  Permutation (sort_insert leb x l) (x :: l).
Proof.
  induction l as [| y l IH]; cbn.
  - apply Permutation_refl.
  - destruct (leb x y).
    + apply Permutation_refl.
    + eapply Permutation_trans; [apply perm_skip; exact IH | apply perm_swap].
Qed.

Lemma sort_by_perm {A} (leb : A -> A -> bool) (l : list A) :
  Permutation (sort_by leb l) l.
Proof.
  induction l as [| x l IH]; cbn.
  - apply Permutation_refl.
  - eapply Permutation_trans; [apply sort_insert_perm |].
    apply perm_skip. exact IH.
Qed.

Lemma filter_length_perm {A} (p : A -> bool) (l l' : list A) :
  Permutation l l' ->
  List.length (filter p l) = List.length (filter p l').
Proof.
  induction 1 as [| x l l' _ IH | x y l | l l' l'' _ IH1 _ IH2]; cbn.
  - reflexivity.
  - destruct (p x); cbn; congruence.
  - destruct (p x), (p y); reflexivity.
  - congruence.
Qed.

Lemma filter_true {A} (l : list A) : filter (fun _ => true) l = l.
Proof. induction l as [| x l IH]; cbn; congruence. Qed.

Lemma filter_split_length {A} (p : A -> bool) (l : list A) :
  (List.length (filter p l) + List.length (filter (fun x => negb (p x)) l)
   = List.length l)%nat.
Proof.
  induction l as [| x l IH]; cbn; [reflexivity |].
  destruct (p x); cbn; lia.
Qed.

(** *** The [stats] object *)

Lemma stats_set_new (k : ObjectId) (v : Stat) (stats : Stats) :
  ~ In k (map fst stats) -> stats_set k v stats = (stats ++ [(k, v)])%list.
Proof.
  induction stats as [| [k' v'] rest IH]; cbn; [reflexivity |].
  intros Hn. destruct (Nat.eqb_spec k' k) as [-> | Hk].
  - exfalso. apply Hn. left. reflexivity.
  - rewrite IH; [reflexivity |]. intros Hin. apply Hn. right. exact Hin.
Qed.

(** With distinct ids, initialising [stats] lists one fresh row per
    student, in order. *)
Lemma stats_init_rows (studs : list Student.t) (acc : Stats) :
  NoDup (map fst acc ++ map Student._id studs) ->
  fold_left (fun stats student =>
               stats_set (Student._id student) (stat_init student) stats)
            studs acc
  = (acc ++ map (fun s => (Student._id s, stat_init s)) studs)%list.
Proof.
  revert acc. induction studs as [| s studs IH]; intros acc Hnd; cbn.
  - rewrite app_nil_r. reflexivity.
  - rewrite stats_set_new.
    + rewrite IH.
      * rewrite <- app_assoc. reflexivity.
      * rewrite map_app. cbn. rewrite <- app_assoc. exact Hnd.
    + cbn in Hnd. apply NoDup_remove_2 in Hnd.
      intros Hin. apply Hnd. apply in_or_app. left. exact Hin.
Qed.

Lemma stats_count_step (record : Attendance.t) (stats : Stats) :
  NoDup (map fst stats) ->
  match stats_get (Attendance.studentId record) stats with
  | Some st =>
      stats_set (Attendance.studentId record)
        (stat_count (Attendance.status record) st) stats
  | None => stats
  end
  = map (count_record record) stats.
Proof.
  set (k := Attendance.studentId record).
  induction stats as [| [k' v] rest IH]; cbn; [reflexivity |].
  intros Hnd. inversion Hnd as [| ? ? Hnotin Hrest]; subst.
  unfold count_record at 1. cbn [fst snd]. fold k.
  destruct (Nat.eqb_spec k' k) as [-> | Hk].
  - f_equal. symmetry.
    rewrite <- (map_id rest) at 2. apply map_ext_in.
    intros [k2 v2] Hin. unfold count_record. cbn [fst snd]. fold k.
    destruct (Nat.eqb_spec k2 k) as [-> | _]; [| reflexivity].
    exfalso. apply Hnotin. apply (in_map fst) in Hin. exact Hin.
  - specialize (IH Hrest).
    destruct (stats_get k rest) as [st |]; cbn; rewrite <- IH; reflexivity.
Qed.

Lemma count_record_keys (record : Attendance.t) (stats : Stats) :
  map fst (map (count_record record) stats) = map fst stats.
Proof.
  rewrite map_map. apply map_ext. intros [k v]. unfold count_record.
  cbn [fst snd]. destruct (k =? _)%nat; reflexivity.
Qed.

(** The tally, when every record refers to a student that exists, maps
    each row through the records in turn. *)
Lemma tally_rows (all : list Student.t) (records : list Attendance.t) :
  (forall r, In r records -> populated_id all r
                             = Some (Attendance.studentId r)) ->
  forall stats,
    NoDup (map fst stats) ->
    tally all records stats
    = Return (map (fun kv => fold_left (fun kv r => count_record r kv)
                               records kv) stats).
Proof.
  induction records as [| r records IH]; intros Hpop stats Hnd; cbn.
  - rewrite map_id. reflexivity.
  - rewrite (Hpop r (or_introl eq_refl)).
    pose proof (stats_count_step r stats Hnd) as Hstep.
    assert (Hrest : forall r', In r' records ->
                      populated_id all r' = Some (Attendance.studentId r'))
      by (intros r' Hr'; apply Hpop; right; exact Hr').
    destruct (stats_get (Attendance.studentId r) stats) as [st |].
    + rewrite Hstep, (IH Hrest), map_map; [reflexivity |].
      rewrite count_record_keys. exact Hnd.
    + rewrite (IH Hrest stats Hnd). f_equal.
      rewrite Hstep at 1. rewrite map_map. reflexivity.
Qed.

(** A row after the records have been counted into it. *)
Lemma count_records_row (k : ObjectId) (records : list Attendance.t) :
  forall st,
    fold_left (fun kv r => count_record r kv) records (k, st)
    = (k,
       {| stat_name := stat_name st;
          stat_rollNumber := stat_rollNumber st;
          totalClasses :=
            totalClasses st
            + List.length
                (filter (fun r => (Attendance.studentId r =? k)%nat) records);
          present :=
            present st
            + List.length
                (filter (fun r => (Attendance.studentId r =? k)%nat
                                  && Status_eqb (Attendance.status r) PRESENT)
                   records);
          absent :=
            absent st
            + List.length
                (filter (fun r => (Attendance.studentId r =? k)%nat
                                  && negb (Status_eqb (Attendance.status r)
                                             PRESENT))
                   records);
          percentage := percentage st |})%nat.
Proof.
  induction records as [| r records IH]; intros st; cbn.
  - rewrite !Nat.add_0_r. destruct st; reflexivity.
  - unfold count_record at 2. cbn [fst snd].
    rewrite (Nat.eqb_sym k (Attendance.studentId r)).
    destruct (Attendance.studentId r =? k)%nat; cbn.
    + rewrite IH. cbn.
      destruct (Status_eqb (Attendance.status r) PRESENT); cbn;
        f_equal; f_equal; lia.
    + apply IH.
Qed.

Lemma filter_and {A} (p q : A -> bool) (l : list A) :
  filter q (filter p l) = filter (fun x => p x && q x) l.
Proof.
  induction l as [| x l IH]; cbn; [reflexivity |].
  destruct (p x); cbn; [destruct (q x) |]; congruence.
Qed.

(** Selecting students keeps their ids distinct. *)
Lemma student_ids_distinct (query : Student.t -> bool)
    (studs : list Student.t) :
  NoDup (map Student._id studs) ->
  NoDup (map Student._id (filter query studs)).
Proof.
  induction studs as [| s studs IH]; cbn; intros Hnd; [constructor |].
  inversion Hnd as [| ? ? Hnotin Hrest]; subst.
  destruct (query s); cbn; [| apply IH; exact Hrest].
  constructor; [| apply IH; exact Hrest].
  intros Hin. apply Hnotin. apply in_map_iff in Hin.
  destruct Hin as (s' & Hs' & Hin). apply filter_In in Hin.
  rewrite <- Hs'. apply in_map. apply Hin.
Qed.

Lemma populated_id_found (all : list Student.t) (r : Attendance.t) :
  (exists s, In s all /\ Student._id s = Attendance.studentId r) ->
  populated_id all r = Some (Attendance.studentId r).
Proof.
  intros (s & Hin & Hid). unfold populated_id.
  destruct (find _ all) as [s' |] eqn:Ef.
  - apply find_some in Ef. destruct Ef as [_ He].
    apply Nat.eqb_eq in He. rewrite He. reflexivity.
  - exfalso. pose proof (find_none _ _ Ef s Hin) as Hn. cbn in Hn.
    rewrite Hid, Nat.eqb_refl in Hn. discriminate.
Qed.

(** C8 (as amended).  For a store whose students have distinct ids and
    whose attendance records refer to students that exist, the report
    of a class over a range of dates leaves the store as it was and
    has one row per student of the class, in the order of the roll
    numbers.  The row counts every record of the student that carries
    the class id and is dated in the range, of whatever type, CAMPUS as
    well as CLASS: [totalClasses] is their number, [present] the number
    of those with status PRESENT, [absent] is [totalClasses] minus
    [present], and [percentage] is [Math.round] of the double
    [present / totalClasses * 100], or 0 when there is none. *)
Theorem report_counts_every_type :
  forall (d : DB) (clk : Clock) (classId : ObjectId)
         (startDate endDate : Time),
    NoDup (map Student._id (students d)) ->
    (forall e, In e (attendances d) ->
               exists s, In s (students d)
                         /\ Student._id s = Attendance.studentId e) ->
    run (generateAttendanceReport classId startDate endDate) clk d
    = (Return
         (map (fun student =>
                 report_row student
                   (filter (in_report classId startDate endDate
                              (Student._id student))
                      (attendances d)))
              (enrolled classId d)),
       d).
Proof.
  intros d clk classId startDate endDate Hids Hrefs.
  unfold generateAttendanceReport, Attendance_find, Student_find, enrolled.
  unfold_m. cbn. rewrite filter_true.
  set (q := fun e : Attendance.t =>
              (Attendance.classId e =? classId)%nat
              && (startDate <=? Attendance.date e)
              && (Attendance.date e <=? endDate)).
  set (found := filter q (attendances d)).
  set (records := sort_by by_date_desc_period found).
  set (studs := sort_by by_rollNumber
                  (filter (fun s => (Student.classId s =? classId)%nat)
                     (students d))).
  assert (Hperm : Permutation records found) by apply sort_by_perm.
  assert (Hstuds : NoDup (map Student._id studs)).
  { eapply Permutation_NoDup.
    - apply Permutation_map. apply Permutation_sym. apply sort_by_perm.
    - apply student_ids_distinct. exact Hids. }
  rewrite (stats_init_rows studs []) by exact Hstuds. cbn [app].
  rewrite tally_rows.
  2: { intros r Hr. apply populated_id_found. apply Hrefs.
       apply (Permutation_in _ Hperm) in Hr.
       apply filter_In in Hr. apply Hr. }
  2: { rewrite map_map. cbn. exact Hstuds. }
  cbn. rewrite !map_map. f_equal. f_equal. apply map_ext.
  intros student. rewrite count_records_row. cbn.
  unfold stat_percentage, report_row. cbn.
  assert (Htotal :
    List.length
      (filter (fun r => (Attendance.studentId r =? Student._id student)%nat)
         records)
    = List.length
        (filter (in_report classId startDate endDate (Student._id student))
           (attendances d))).
  { rewrite (filter_length_perm _ _ _ Hperm). unfold found.
    rewrite filter_and. reflexivity. }
  assert (Hpresent :
    List.length
      (filter (fun r => (Attendance.studentId r =? Student._id student)%nat
                        && Status_eqb (Attendance.status r) PRESENT)
         records)
    = List.length
        (filter (fun e => Status_eqb (Attendance.status e) PRESENT)
           (filter (in_report classId startDate endDate
                      (Student._id student))
              (attendances d)))).
  { rewrite (filter_length_perm _ _ _ Hperm). unfold found.
    rewrite !filter_and. f_equal. apply filter_ext.
    intros e. unfold in_report. fold (q e). rewrite andb_assoc. reflexivity. }
  assert (Habsent :
    List.length
      (filter (fun r => (Attendance.studentId r =? Student._id student)%nat
                        && negb (Status_eqb (Attendance.status r) PRESENT))
         records)
    = (List.length
         (filter (in_report classId startDate endDate (Student._id student))
            (attendances d))
       - List.length
           (filter (fun e => Status_eqb (Attendance.status e) PRESENT)
              (filter (in_report classId startDate endDate
                         (Student._id student))
                 (attendances d))))%nat).
  { rewrite (filter_length_perm _ _ _ Hperm). unfold found.
    rewrite filter_and.
    pose proof (filter_split_length
                  (fun e => Status_eqb (Attendance.status e) PRESENT)
                  (filter (in_report classId startDate endDate
                             (Student._id student)) (attendances d)))
      as Hsplit.
    cbv beta in Hsplit.
    replace (filter (fun r => q r && ((Attendance.studentId r
                                       =? Student._id student)%nat
                              && negb (Status_eqb (Attendance.status r)
                                         PRESENT))) (attendances d))
      with (filter (fun e => negb (Status_eqb (Attendance.status e) PRESENT))
              (filter (in_report classId startDate endDate
                         (Student._id student)) (attendances d))).
    - lia.
    - rewrite filter_and. apply filter_ext. intros e. unfold in_report.
      fold (q e). rewrite andb_assoc. reflexivity. }
  rewrite Htotal, Hpresent, Habsent. reflexivity.
Qed.

(** The scenario of the specification: ten CLASS events of one student,
    eight PRESENT and two ABSENT, give 80 percent. *)
Lemma report_counts_every_type_witness :
  fst (run (generateAttendanceReport 1 (at_time monday 0 0)
              (at_time (monday + 6) 23 59))
         (const_clock 0) (with_attendances ten_classes school))
  = Return
      [ {| stat_name := "Alice Johnson"; stat_rollNumber := "CSE202100001";
           totalClasses := 10; present := 8; absent := 2;
           percentage := 80 |};
        {| stat_name := "Bob Wilson"; stat_rollNumber := "CSE202100002";
           totalClasses := 0; present := 0; absent := 0;
           percentage := 0 |} ].
Proof.
  rewrite (report_counts_every_type (with_attendances ten_classes school)
             (const_clock 0) 1%nat (at_time monday 0 0)
             (at_time (monday + 6) 23 59)).
  - reflexivity.
  - cbn. repeat constructor; cbn; intuition discriminate.
  - intros e He. exists alice. cbn in He.
    repeat (destruct He as [<- | He];
            [split; [left; reflexivity | reflexivity] |]).
    destruct He.
Defined.

(** C8 (counterexample).  Alice has one record in the range, her CAMPUS
    event of the Monday, stored under her class id: the report gives her
    one class, attended, where the CLASS events alone give none. *)
Lemma campus_events_counted : ~ class_only_report_claim.
Proof.
  intros claim.
  specialize (claim with_alice_campus (const_clock 0) 1%nat
                (at_time monday 0 0) (at_time monday 23 59)
                [ {| stat_name := "Alice Johnson";
                     stat_rollNumber := "CSE202100001";
                     totalClasses := 1; present := 1; absent := 0;
                     percentage := 100 |};
                  {| stat_name := "Bob Wilson";
                     stat_rollNumber := "CSE202100002";
                     totalClasses := 0; present := 0; absent := 0;
                     percentage := 0 |} ]
                eq_refl).
  vm_compute in claim. discriminate claim.
Qed.

(** The percentage is the rounding of a double: 29 present out of 200
    make 14.499999999999998, hence 14, and one out of eight makes 12.5,
    hence 13. *)
Example percent_rounds_the_double :
  percent 29 200 = 14 /\ percent 1 8 = 13 /\ percent 8 10 = 80.
Proof. vm_compute. repeat apply conj; reflexivity. Qed.

(** * Further proofs *)

(** ** Handlers and a relation on stores *)

Section Preservation.

Variable R : DB -> DB -> Prop.
Hypothesis R_refl : forall d, R d d.
Hypothesis R_trans : forall d1 d2 d3, R d1 d2 -> R d2 d3 -> R d1 d3.
Hypothesis R_Attendance_create :
  forall doc, doc_ok doc -> preserves R (Attendance_create doc).
Hypothesis R_Attendance_updateMany_reason :
  forall q r, preserves R (Attendance_updateMany_reason q r).
Hypothesis R_Session_create :
  forall classId teacherId date period mode token code ssid expiresAt,
    preserves R (Session_create classId teacherId date period mode token
                   code ssid expiresAt).
Hypothesis R_Session_push_presentStudent :
  forall id studentId, preserves R (Session_push_presentStudent id studentId).
Hypothesis R_Session_updateMany_inactive :
  forall q, preserves R (Session_updateMany_inactive q).
Hypothesis R_Request_findByIdAndUpdate :
  forall id u, preserves R (Request_findByIdAndUpdate id u).

Lemma preserves_ret {A} (a : A) : preserves R (ret a).
Proof. intros clk n d. apply R_refl. Qed.

Lemma preserves_throw {A} (e : string) : preserves R (@throw A e).
Proof. intros clk n d. apply R_refl. Qed.

Lemma preserves_bind {A B} (m : M A) (f : A -> M B) :
  preserves R m -> (forall a, preserves R (f a)) -> preserves R (bind m f).
Proof.
  intros Hm Hf clk n d. unfold bind.
  specialize (Hm clk n d).
  destruct (m clk n d) as [[[a | e] n'] d']; cbn in *.
  - eapply R_trans; [exact Hm | apply Hf].
  - exact Hm.
Qed.

Lemma preserves_catch {A} (m : M A) (h : string -> M A) :
  preserves R m -> (forall e, preserves R (h e)) -> preserves R (catch m h).
Proof.
  intros Hm Hh clk n d. unfold catch.
  specialize (Hm clk n d).
  destruct (m clk n d) as [[[a | e] n'] d']; cbn in *.
  - exact Hm.
  - eapply R_trans; [exact Hm | apply Hh].
Qed.

(** The reading primitives leave the store as it is. *)
Lemma preserves_reads :
  preserves R Date_now
  /\ (forall q, preserves R (Attendance_findOne q))
  /\ (forall id, preserves R (Session_findById id))
  /\ (forall q, preserves R (Session_findOne q))
  /\ (forall id, preserves R (Student_findById id))
  /\ (forall q, preserves R (Student_find q))
  /\ (forall date, preserves R (isHoliday date)).
Proof.
  repeat apply conj; intros; intros clk n d; try apply R_refl.
  destruct (isHoliday_reads date d) as [status H]. rewrite H. apply R_refl.
Qed.

Lemma preserves_for_each {A} (l : list A) (body : A -> M unit) :
  (forall x, preserves R (body x)) -> preserves R (for_each l body).
Proof.
  intros Hbody. induction l as [| x l IH]; cbn.
  - apply preserves_ret.
  - apply preserves_bind; [apply Hbody | intros _; exact IH].
Qed.

Ltac preserves_step :=
  lazymatch goal with
  | |- preserves R (bind _ _) => apply preserves_bind; [| intros]
  | |- preserves R (catch _ _) => apply preserves_catch; [| intros]
  | |- preserves R (ret _) => apply preserves_ret
  | |- preserves R (throw _) => apply preserves_throw
  | |- preserves R Date_now => apply (proj1 preserves_reads)
  | |- preserves R (Attendance_findOne _) => apply preserves_reads
  | |- preserves R (Session_findById _) => apply preserves_reads
  | |- preserves R (Session_findOne _) => apply preserves_reads
  | |- preserves R (Student_findById _) => apply preserves_reads
  | |- preserves R (Student_find _) => apply preserves_reads
  | |- preserves R (isHoliday _) => apply preserves_reads
  | |- preserves R (Attendance_create _) =>
      apply R_Attendance_create; cbn; try exact I
  | |- preserves R (Attendance_updateMany_reason _ _) =>
      apply R_Attendance_updateMany_reason
  | |- preserves R (Request_findByIdAndUpdate _ _) =>
      apply R_Request_findByIdAndUpdate
  | |- preserves R (Session_push_presentStudent _ _) =>
      apply R_Session_push_presentStudent
  | |- preserves R (Session_updateMany_inactive _) =>
      apply R_Session_updateMany_inactive
  | |- preserves R (Session_create _ _ _ _ _ _ _ _ _) =>
      apply R_Session_create
  | |- preserves R (for_each _ _) => apply preserves_for_each; intros
  | |- preserves R (match ?x with _ => _ end) => destruct x eqn:?
  end.

Lemma preserves_createSession token shortCode classId teacherId period mode :
  preserves R (createSession token shortCode classId teacherId period mode).
Proof. unfold createSession. repeat preserves_step. Qed.

Lemma preserves_markAttendance sessionId studentId deviceId location :
  preserves R (markAttendance sessionId studentId deviceId location).
Proof. unfold markAttendance. repeat preserves_step. Qed.

Lemma preserves_markCampusAttendance Math studentId location deviceId :
  preserves R (markCampusAttendance Math studentId location deviceId).
Proof. unfold markCampusAttendance. repeat preserves_step. Qed.

Lemma preserves_review teacherId id status reviewNote :
  preserves R (put_request_review teacherId id status reviewNote).
Proof.
  unfold put_request_review. repeat preserves_step.
  unfold doc_ok. cbn.
  destruct (Request.period _) as [[| p] |]; cbn; trivial.
Qed.

(** Every handler and every scheduled task relates its stores by [R]. *)
Lemma exec_preserves (Math : MathLib) (op : Op) (clk : Clock) (d : DB) :
  R d (exec Math op clk d).
Proof.
  assert (Hrun : forall A (m : M A), preserves R m ->
                   R d (snd (run m clk d))).
  { intros A m Hm. unfold run. specialize (Hm clk 0%nat d).
    destruct (m clk 0%nat d) as [[r n] d']. exact Hm. }
  destruct op; cbn [exec]; apply Hrun.
  - unfold post_session_start. repeat preserves_step.
    apply preserves_createSession.
  - unfold post_attendance_mark. repeat preserves_step.
    apply preserves_markAttendance.
  - unfold post_attendance_campus. repeat preserves_step.
    apply preserves_markCampusAttendance.
  - apply preserves_review.
  - unfold post_absence_reason. repeat preserves_step.
  - unfold cron_auto_absent. repeat preserves_step.
  - unfold cron_session_cleanup. repeat preserves_step.
Qed.

Lemma exec_all_preserves (Math : MathLib) (history : list (Op * Clock))
    (d : DB) :
  R d (exec_all Math history d).
Proof.
  revert d. induction history as [| [op clk] rest IH]; intros d; cbn.
  - apply R_refl.
  - eapply R_trans; [apply exec_preserves | apply IH].
Qed.

End Preservation.

(** ** Stored sessions and events over a history *)

Lemma Forall2_map_self {A} (P : A -> A -> Prop) (f : A -> A) (l : list A) :
  (forall x, P x (f x)) -> Forall2 P l (map f l).
Proof. intros H. induction l; cbn; constructor; auto. Qed.

Lemma Forall2_compose {A} (P : A -> A -> Prop) :
  (forall x y z, P x y -> P y z -> P x z) ->
  forall l1 l2 l3, Forall2 P l1 l2 -> Forall2 P l2 l3 -> Forall2 P l1 l3.
Proof.
  intros Htrans l1 l2 l3 H12. revert l3.
  induction H12 as [| x y l1 l2 Hxy _ IH]; intros l3 H23.
  - inversion H23. constructor.
  - inversion H23 as [| ? z ? l3' Hyz Hrest]; subst.
    constructor; [eapply Htrans; eauto | apply IH; exact Hrest].
Qed.

Lemma grows_refl {A} (P : A -> A -> Prop) (l : list A) :
  (forall x, P x x) -> grows P l l.
Proof.
  intros Hrefl. exists l, []. rewrite app_nil_r. split; [reflexivity |].
  induction l; constructor; auto.
Qed.

Lemma grows_trans {A} (P : A -> A -> Prop) (l1 l2 l3 : list A) :
  (forall x y z, P x y -> P y z -> P x z) ->
  grows P l1 l2 -> grows P l2 l3 -> grows P l1 l3.
Proof.
  intros Htrans (k1 & a1 & -> & H1) (k2 & a2 & -> & H2).
  apply Forall2_app_inv_l in H2. destruct H2 as (k2' & a1' & Hk & _ & ->).
  exists k2', (a1' ++ a2)%list. split.
  - rewrite app_assoc. reflexivity.
  - eapply Forall2_compose; eauto.
Qed.

Lemma grows_map {A} (P : A -> A -> Prop) (f : A -> A) (l : list A) :
  (forall x, P x (f x)) -> grows P l (map f l).
Proof.
  intros H. exists (map f l), []. rewrite app_nil_r.
  split; [reflexivity | apply Forall2_map_self; exact H].
Qed.

Lemma grows_app {A} (P : A -> A -> Prop) (l added : list A) :
  (forall x, P x x) -> grows P l (l ++ added).
Proof.
  intros Hrefl. exists l, added. split; [reflexivity |].
  induction l; constructor; auto.
Qed.

Lemma session_step_refl (s : Session.t) : session_step s s.
Proof.
  repeat apply conj; auto. exists []. rewrite app_nil_r. reflexivity.
Qed.

Lemma session_step_trans (s1 s2 s3 : Session.t) :
  session_step s1 s2 -> session_step s2 s3 -> session_step s1 s3.
Proof.
  intros (F1 & A1 & m1 & P1) (F2 & A2 & m2 & P2).
  repeat apply conj.
  - congruence.
  - auto.
  - exists (m1 ++ m2)%list. rewrite P2, P1, app_assoc. reflexivity.
Qed.

Lemma event_step_refl (e : Attendance.t) : event_step e e.
Proof. reflexivity. Qed.

Lemma event_step_trans (e1 e2 e3 : Attendance.t) :
  event_step e1 e2 -> event_step e2 e3 -> event_step e1 e3.
Proof. unfold event_step. congruence. Qed.

Lemma evolves_refl (d : DB) : evolves d d.
Proof.
  repeat apply conj; try reflexivity.
  - apply (grows_refl session_step). apply session_step_refl.
  - apply (grows_refl event_step). apply event_step_refl.
Qed.

Lemma evolves_trans (d1 d2 d3 : DB) :
  evolves d1 d2 -> evolves d2 d3 -> evolves d1 d3.
Proof.
  intros (S1 & E1 & St1 & H1) (S2 & E2 & St2 & H2).
  repeat apply conj; try congruence.
  - exact (grows_trans session_step _ _ _ session_step_trans S1 S2).
  - exact (grows_trans event_step _ _ _ event_step_trans E1 E2).
Qed.

(** A store whose sessions and events are rewritten in place, or that
    gains some, has evolved. *)
Lemma evolves_intro (d d' : DB) :
  grows session_step (sessions d) (sessions d') ->
  grows event_step (attendances d) (attendances d') ->
  students d' = students d -> holidays d' = holidays d ->
  evolves d d'.
Proof. intros. repeat apply conj; assumption. Qed.

Lemma evolves_Attendance_create doc :
  preserves evolves (Attendance_create doc).
Proof.
  intros clk n d. unfold Attendance_create. unfold_m.
  destruct (Attendance.d_period doc) as [p |]; cbn;
    [destruct (period_valid p); cbn |];
    apply evolves_intro; cbn; try reflexivity;
    try (apply (grows_refl session_step); apply session_step_refl);
    try (apply (grows_refl event_step); apply event_step_refl);
    apply (grows_app event_step); apply event_step_refl.
Qed.

Lemma evolves_Attendance_updateMany_reason q r :
  preserves evolves (Attendance_updateMany_reason q r).
Proof.
  intros clk n d. unfold Attendance_updateMany_reason. unfold_m. cbn.
  apply evolves_intro; cbn; try reflexivity.
  - apply (grows_refl session_step). apply session_step_refl.
  - apply (grows_map event_step). intros e.
    destruct (q e); reflexivity.
Qed.

Lemma evolves_Session_create classId teacherId date period mode token code
    ssid expiresAt :
  preserves evolves (Session_create classId teacherId date period mode token
                       code ssid expiresAt).
Proof.
  intros clk n d. unfold Session_create. unfold_m.
  destruct (period_valid period && session_mode_valid mode); cbn;
    [destruct (existsb _ (sessions d)); cbn |];
    apply evolves_intro; cbn; try reflexivity;
    try (apply (grows_refl event_step); apply event_step_refl);
    try (apply (grows_refl session_step); apply session_step_refl).
  apply (grows_app session_step). apply session_step_refl.
Qed.

Lemma evolves_Session_push_presentStudent id studentId :
  preserves evolves (Session_push_presentStudent id studentId).
Proof.
  intros clk n d. unfold Session_push_presentStudent. unfold_m. cbn.
  apply evolves_intro; cbn; try reflexivity.
  - apply (grows_map session_step). intros s.
    destruct (Session._id s =? id)%nat; [| apply session_step_refl].
    repeat apply conj; auto. eexists. reflexivity.
  - apply (grows_refl event_step). apply event_step_refl.
Qed.

Lemma evolves_Session_updateMany_inactive q :
  preserves evolves (Session_updateMany_inactive q).
Proof.
  intros clk n d. unfold Session_updateMany_inactive. unfold_m. cbn.
  apply evolves_intro; cbn; try reflexivity.
  - apply (grows_map session_step). intros s.
    destruct (q s); [| apply session_step_refl].
    repeat apply conj; auto; [discriminate |].
    exists []. rewrite app_nil_r. reflexivity.
  - apply (grows_refl event_step). apply event_step_refl.
Qed.

Lemma evolves_Request_findByIdAndUpdate id u :
  preserves evolves (Request_findByIdAndUpdate id u).
Proof.
  intros clk n d. unfold Request_findByIdAndUpdate. unfold_m.
  destruct (find _ (requests d)); cbn; apply evolves_intro; cbn;
    try reflexivity;
    try (apply (grows_refl session_step); apply session_step_refl);
    apply (grows_refl event_step); apply event_step_refl.
Qed.

(** Along every history of handlers and tasks the store evolves. *)
Lemma exec_all_evolves (Math : MathLib) (history : list (Op * Clock))
    (d : DB) :
  evolves d (exec_all Math history d).
Proof.
  apply (exec_all_preserves evolves evolves_refl evolves_trans).
  - intros doc _. apply evolves_Attendance_create.
  - apply evolves_Attendance_updateMany_reason.
  - apply evolves_Session_create.
  - apply evolves_Session_push_presentStudent.
  - apply evolves_Session_updateMany_inactive.
  - apply evolves_Request_findByIdAndUpdate.
Qed.

Lemma grows_nth {A} (P : A -> A -> Prop) (l l' : list A) (i : nat) (x : A) :
  grows P l l' -> nth_error l i = Some x ->
  exists x', nth_error l' i = Some x' /\ P x x'.
Proof.
  intros (kept & added & -> & H). revert i.
  induction H as [| y y' l kept Hy _ IH]; intros i Hi.
  - destruct i; discriminate.
  - destruct i as [| i]; cbn in *.
    + injection Hi as <-. exists y'. split; [reflexivity | exact Hy].
    + apply IH. exact Hi.
Qed.

(** X1.  No handler and no scheduled task deletes or moves a stored
    session, or assigns any of its fields other than [isActive] and
    [presentStudents]: after any history the session is found at its
    place with the same id, class, teacher, date, period, mode, token,
    code, ssid, expiry and creation time. *)
Theorem session_fields_never_reassigned :
  forall (Math : MathLib) (history : list (Op * Clock)) (d : DB) (i : nat)
         (s : Session.t),
    nth_error (sessions d) i = Some s ->
    exists s',
      nth_error (sessions (exec_all Math history d)) i = Some s'
      /\ session_fixed s' = session_fixed s.
Proof.
  intros Math history d i s Hs.
  destruct (exec_all_evolves Math history d) as (Hsessions & _).
  destruct (grows_nth _ _ _ i s Hsessions Hs) as (s' & Hs' & Hfixed & _).
  exists s'. split; assumption.
Qed.

Lemma session_fields_never_reassigned_witness :
  exists s',
    nth_error (sessions (exec_all taylorMath monday_morning live)) 0
    = Some s'
    /\ session_fixed s' = session_fixed session_0900.
Proof.
  apply (session_fields_never_reassigned taylorMath monday_morning live
           0%nat session_0900).
  reflexivity.
Defined.

(** X2.  A session is never reactivated: once [isActive] is false it is
    false after every history of handlers and tasks. *)
Theorem inactive_session_stays_inactive :
  forall (Math : MathLib) (history : list (Op * Clock)) (d : DB) (i : nat)
         (s : Session.t),
    nth_error (sessions d) i = Some s ->
    Session.isActive s = false ->
    exists s',
      nth_error (sessions (exec_all Math history d)) i = Some s'
      /\ Session._id s' = Session._id s
      /\ Session.isActive s' = false.
Proof.
  intros Math history d i s Hs Hinactive.
  destruct (exec_all_evolves Math history d) as (Hsessions & _).
  destruct (grows_nth _ _ _ i s Hsessions Hs)
    as (s' & Hs' & Hfixed & Hactive & _).
  exists s'. repeat apply conj.
  - exact Hs'.
  - unfold session_fixed in Hfixed. congruence.
  - destruct (Session.isActive s'); [| reflexivity].
    rewrite Hactive in Hinactive by reflexivity. discriminate.
Qed.

Lemma inactive_session_stays_inactive_witness :
  exists s',
    nth_error
      (sessions
         (exec_all taylorMath
            [(SessionStart 7 "T2" "A1B2C3" 1 3 BLE,
              ticking_clock (at_time monday 10 0));
             (Mark alice 200 "T" None None,
              ticking_clock (at_time monday 10 1))]
            (exec taylorMath SessionCleanup
               (ticking_clock (at_time monday 9 20)) live))) 0
    = Some s'
    /\ Session._id s' = Session._id session_0900
    /\ Session.isActive s' = false.
Proof.
  apply (inactive_session_stays_inactive taylorMath _ _ 0%nat
           (Session.set_isActive false session_0900)); reflexivity.
Defined.

(** X3.  [presentStudents] only grows: after every history the list a
    session had is still there, in order, with further ids at most
    appended. *)
Theorem presentStudents_only_grows :
  forall (Math : MathLib) (history : list (Op * Clock)) (d : DB) (i : nat)
         (s : Session.t),
    nth_error (sessions d) i = Some s ->
    exists s' more,
      nth_error (sessions (exec_all Math history d)) i = Some s'
      /\ Session.presentStudents s'
         = (Session.presentStudents s ++ more)%list.
Proof.
  intros Math history d i s Hs.
  destruct (exec_all_evolves Math history d) as (Hsessions & _).
  destruct (grows_nth _ _ _ i s Hsessions Hs)
    as (s' & Hs' & _ & _ & more & Hmore).
  exists s', more. split; assumption.
Qed.

Lemma presentStudents_only_grows_witness :
  exists s' more,
    nth_error (sessions (exec_all taylorMath monday_morning live)) 0
    = Some s'
    /\ Session.presentStudents s'
       = (Session.presentStudents session_0900 ++ more)%list.
Proof.
  apply (presentStudents_only_grows taylorMath monday_morning live 0%nat
           session_0900).
  reflexivity.
Defined.

(** X4.  A stored attendance event is never deleted or moved, and of its
    fields only [reason] is ever assigned again: after any history the
    event is found at its place, equal to what it was up to its
    reason. *)
Theorem event_changes_only_its_reason :
  forall (Math : MathLib) (history : list (Op * Clock)) (d : DB) (i : nat)
         (e : Attendance.t),
    nth_error (attendances d) i = Some e ->
    exists e',
      nth_error (attendances (exec_all Math history d)) i = Some e'
      /\ Attendance.set_reason None e' = Attendance.set_reason None e.
Proof.
  intros Math history d i e He.
  destruct (exec_all_evolves Math history d) as (_ & Hevents & _).
  destruct (grows_nth _ _ _ i e Hevents He) as (e' & He' & Hstep).
  exists e'. split; assumption.
Qed.

Lemma event_changes_only_its_reason_witness :
  exists e',
    nth_error
      (attendances
         (exec_all taylorMath
            [(AbsenceReason alice (at_time monday 8 30)
                "Fever, stayed at home",
              ticking_clock (at_time monday 18 0));
             (AutoAbsent, ticking_clock (at_time (monday + 1) 11 0))]
            with_alice_campus)) 0
    = Some e'
    /\ Attendance.set_reason None e' = Attendance.set_reason None alice_campus.
Proof.
  apply (event_changes_only_its_reason taylorMath _ with_alice_campus 0%nat
           alice_campus).
  reflexivity.
Defined.

(** ** Invariants of the store *)

Lemma keeps_refl (P : DB -> Prop) (d : DB) : keeps P d d.
Proof. intros H. exact H. Qed.

Lemma keeps_trans (P : DB -> Prop) (d1 d2 d3 : DB) :
  keeps P d1 d2 -> keeps P d2 d3 -> keeps P d1 d3.
Proof. unfold keeps. auto. Qed.

(** Runs the primitive and decides the tests it makes. *)
Ltac run_primitive :=
  intros clk n st;
  unfold Attendance_create, Attendance_updateMany_reason, Session_create,
    Session_push_presentStudent, Session_updateMany_inactive,
    Request_findByIdAndUpdate;
  unfold_m;
  repeat match goal with
         | |- context [match ?x with _ => _ end] => destruct x eqn:?; cbn
         end;
  unfold keeps; cbn.

Lemma token_unused (token : string) (l : list Session.t) :
  existsb (fun s => String.eqb (Session.token s) token) l = false ->
  ~ In token (map Session.token l).
Proof.
  intros Hfree Hin. apply in_map_iff in Hin. destruct Hin as (s & Hs & Hin).
  assert (Hex : existsb (fun s => String.eqb (Session.token s) token) l
                = true).
  { apply existsb_exists. exists s. split; [exact Hin |].
    rewrite Hs. apply String.eqb_refl. }
  congruence.
Qed.

Lemma exec_all_tokens_distinct (Math : MathLib)
    (history : list (Op * Clock)) (d : DB) :
  keeps tokens_distinct d (exec_all Math history d).
Proof.
  apply (exec_all_preserves (keeps tokens_distinct)
           (keeps_refl _) (keeps_trans _)).
  - intros doc _. run_primitive; intros H; exact H.
  - intros q r. run_primitive. intros H; exact H.
  - intros classId teacherId date period mode token code ssid expiresAt.
    run_primitive; intros H; try exact H.
    unfold tokens_distinct in *. cbn. rewrite map_app. cbn.
    apply (Permutation_NoDup (Permutation_cons_append _ token)).
    constructor; [apply token_unused; assumption | exact H].
  - intros id studentId. run_primitive. unfold tokens_distinct. cbn.
    rewrite map_map. intros H.
    erewrite map_ext; [exact H |].
    intros s. cbn. destruct (Session._id s =? id)%nat; reflexivity.
  - intros q. run_primitive. unfold tokens_distinct. cbn.
    rewrite map_map. intros H.
    erewrite map_ext; [exact H |].
    intros s. cbn. destruct (q s); reflexivity.
  - intros id u. run_primitive; intros H; exact H.
Qed.

Lemma exec_all_sessions_wf (Math : MathLib) (history : list (Op * Clock))
    (d : DB) :
  keeps sessions_wf d (exec_all Math history d).
Proof.
  apply (exec_all_preserves (keeps sessions_wf)
           (keeps_refl _) (keeps_trans _)).
  - intros doc _. run_primitive; intros H; exact H.
  - intros q r. run_primitive. intros H; exact H.
  - intros classId teacherId date period mode token code ssid expiresAt.
    run_primitive; intros H; try exact H.
    unfold sessions_wf in *. cbn. apply Forall_app. split; [exact H |].
    constructor; [| constructor].
    apply andb_prop. assumption.
  - intros id studentId. run_primitive. unfold sessions_wf. cbn.
    intros H. apply Forall_map. eapply Forall_impl; [| exact H].
    intros s Hs. destruct (Session._id s =? id)%nat; exact Hs.
  - intros q. run_primitive. unfold sessions_wf. cbn.
    intros H. apply Forall_map. eapply Forall_impl; [| exact H].
    intros s Hs. destruct (q s); exact Hs.
  - intros id u. run_primitive; intros H; exact H.
Qed.

Lemma exec_all_events_wf (Math : MathLib) (history : list (Op * Clock))
    (d : DB) :
  keeps events_wf d (exec_all Math history d).
Proof.
  apply (exec_all_preserves (keeps events_wf)
           (keeps_refl _) (keeps_trans _)).
  - intros doc Hdoc. unfold doc_ok in Hdoc.
    destruct (Attendance.d_type doc) eqn:Etype;
      run_primitive; intros H; try exact H;
      unfold events_wf in *; cbn; apply Forall_app; (split; [exact H |]);
      (constructor; [| constructor]); unfold event_wf; cbn;
      rewrite Etype; cbn;
      try exact I; try contradiction; try assumption; congruence.
  - intros q r. run_primitive. unfold events_wf. cbn.
    intros H. apply Forall_map. eapply Forall_impl; [| exact H].
    intros e He. destruct (q e); exact He.
  - intros classId teacherId date period mode token code ssid expiresAt.
    run_primitive; intros H; exact H.
  - intros id studentId. run_primitive. intros H; exact H.
  - intros q. run_primitive. intros H; exact H.
  - intros id u. run_primitive; intros H; exact H.
Qed.

(** X5.  Session tokens stay pairwise distinct: when they are distinct
    in a store, they are distinct after every history, whatever tokens
    the requests of the history bring. *)
Theorem session_tokens_stay_distinct :
  forall (Math : MathLib) (history : list (Op * Clock)) (d : DB),
    NoDup (map Session.token (sessions d)) ->
    NoDup (map Session.token (sessions (exec_all Math history d))).
Proof. intros Math history d. apply exec_all_tokens_distinct. Qed.

(** Two teachers start sessions with one and the same token. *)
Lemma session_tokens_stay_distinct_witness :
  NoDup
    (map Session.token
       (sessions
          (exec_all taylorMath
             [(SessionStart 7 "T" "A1B2C3" 1 3 BLE,
               ticking_clock (at_time monday 9 0));
              (SessionStart 8 "T" "D4E5F6" 2 3 WIFI,
               ticking_clock (at_time monday 9 1))]
             school))).
Proof.
  apply (session_tokens_stay_distinct taylorMath _ school). constructor.
Defined.

(** X6.  Every stored session stays within its schema: when the
    sessions of a store have a period between 1 and 8 and a mode among
    BLE, WIFI and INTERNET, so do the sessions after every history. *)
Theorem stored_sessions_within_schema :
  forall (Math : MathLib) (history : list (Op * Clock)) (d : DB),
    Forall session_wf (sessions d) ->
    Forall session_wf (sessions (exec_all Math history d)).
Proof. intros Math history d. apply exec_all_sessions_wf. Qed.

(** Requests for period 9 and for mode GPS among good ones. *)
Lemma stored_sessions_within_schema_witness :
  Forall session_wf
    (sessions
       (exec_all taylorMath
          [(SessionStart 7 "T1" "A1B2C3" 1 9 BLE,
            ticking_clock (at_time monday 9 0));
           (SessionStart 7 "T2" "A1B2C3" 1 2 GPS,
            ticking_clock (at_time monday 9 1));
           (SessionStart 7 "T3" "A1B2C3" 1 8 INTERNET,
            ticking_clock (at_time monday 9 2))]
          school)).
Proof.
  apply (stored_sessions_within_schema taylorMath _ school). constructor.
Defined.

(** X7.  The period goes with the type: when in a store every CLASS
    event has a period between 1 and 8 and every CAMPUS event has none,
    the same holds after every history of class marks, campus marks,
    reviews of requests, absence reasons and sweeps. *)
Theorem period_goes_with_type :
  forall (Math : MathLib) (history : list (Op * Clock)) (d : DB),
    Forall event_wf (attendances d) ->
    Forall event_wf (attendances (exec_all Math history d)).
Proof. intros Math history d. apply exec_all_events_wf. Qed.

Lemma period_goes_with_type_witness :
  Forall event_wf
    (attendances
       (exec_all taylorMath
          ((Review 7 300 APPROVED None, ticking_clock (at_time monday 8 0))
           :: (Campus alice north_400m None,
               ticking_clock (at_time monday 8 30))
           :: monday_morning)
          (with_requests [manual_request] live))).
Proof.
  apply (period_goes_with_type taylorMath _
           (with_requests [manual_request] live)).
  constructor.
Defined.

(** ** The expired-session clean-up *)

Lemma cron_session_cleanup_run (clk : Clock) (d : DB) :
  run cron_session_cleanup clk d
  = (Return tt,
     with_sessions
       (map (fun s => if Session.isActive s
                         && (Session.expiresAt s <? clk 0%nat)
                      then Session.set_isActive false s else s)
            (sessions d)) d).
Proof. reflexivity. Qed.

(** X8.  After the clean-up no stored session is both active and
    expired before the clock reading of the task; a session that is not
    expired by then is left exactly as it was, and so are all
    attendance events. *)
Theorem cleanup_deactivates_expired :
  forall (clk : Clock) (d : DB),
    let d' := snd (run cron_session_cleanup clk d) in
    (forall s', In s' (sessions d') -> Session.isActive s' = true ->
                clk 0%nat <= Session.expiresAt s')
    /\ (forall i s, nth_error (sessions d) i = Some s ->
                    clk 0%nat <= Session.expiresAt s ->
                    nth_error (sessions d') i = Some s)
    /\ List.length (sessions d') = List.length (sessions d)
    /\ attendances d' = attendances d.
Proof.
  intros clk d d'. subst d'. rewrite cron_session_cleanup_run. cbn.
  repeat apply conj.
  - intros s' Hin Hactive. apply in_map_iff in Hin.
    destruct Hin as (s & Hs & _).
    destruct (Session.isActive s) eqn:Ea; cbn in Hs.
    + destruct (Z.ltb_spec (Session.expiresAt s) (clk 0%nat)).
      * subst s'. discriminate Hactive.
      * subst s'. assumption.
    + subst s'. congruence.
  - intros i s Hs Hlive. rewrite nth_error_map, Hs. cbn.
    destruct (Z.ltb_spec (Session.expiresAt s) (clk 0%nat)); [lia |].
    rewrite andb_false_r. reflexivity.
  - apply length_map.
  - reflexivity.
Qed.

(** X9.  Clean-ups compose: running the clean-up and running it again
    at the same or a later clock reading leaves the store that the
    later run alone leaves; in particular a second run at the same
    instant changes nothing. *)
Theorem cleanup_twice_is_the_later_cleanup :
  forall (clk1 clk2 : Clock) (d : DB),
    clk1 0%nat <= clk2 0%nat ->
    snd (run cron_session_cleanup clk2
           (snd (run cron_session_cleanup clk1 d)))
    = snd (run cron_session_cleanup clk2 d).
Proof.
  intros clk1 clk2 d Hle. rewrite !cron_session_cleanup_run. cbn.
  unfold with_sessions. cbn. f_equal.
  rewrite map_map. apply map_ext. intros s.
  destruct (Session.isActive s) eqn:Ea; cbn.
  - destruct (Z.ltb_spec (Session.expiresAt s) (clk1 0%nat)); cbn.
    + destruct (Z.ltb_spec (Session.expiresAt s) (clk2 0%nat)); [| lia].
      reflexivity.
    + rewrite Ea. reflexivity.
  - rewrite Ea. reflexivity.
Qed.

Lemma cleanup_twice_is_the_later_cleanup_witness :
  snd (run cron_session_cleanup (const_clock (at_time monday 10 0))
         (snd (run cron_session_cleanup (const_clock (at_time monday 9 10))
                 live)))
  = snd (run cron_session_cleanup (const_clock (at_time monday 10 0)) live).
Proof.
  apply (cleanup_twice_is_the_later_cleanup
           (const_clock (at_time monday 9 10))
           (const_clock (at_time monday 10 0)) live).
  vm_compute. discriminate.
Defined.

(** ** The auto-absent sweep *)

Lemma cron_auto_absent_unfold (clk : Clock) (n : nat) (d : DB) :
  cron_auto_absent clk n d
  = catch
      (t <- Date_now ;;
       now <- Date_now ;;
       holidayStatus <- isHoliday now ;;
       if isHoliday_ holidayStatus then ret tt
       else
         active <- Student_find Student.isActive ;;
         for_each active (auto_absent_body (setHours0 t)))
      (fun _ => ret tt) clk n d.
Proof. reflexivity. Qed.

Lemma find_app {A} (p : A -> bool) (l l' : list A) :
  find p (l ++ l')
  = match find p l with Some x => Some x | None => find p l' end.
Proof.
  induction l as [| x l IH]; cbn; [reflexivity |].
  destruct (p x); [reflexivity | exact IH].
Qed.

Lemma find_none_forall {A} (p : A -> bool) (l : list A) :
  Forall (fun x => p x = false) l -> find p l = None.
Proof.
  induction 1 as [| x l Hx _ IH]; cbn; [reflexivity |].
  rewrite Hx. exact IH.
Qed.

(** The loop of the sweep: it never throws and only appends. *)
Lemma auto_absent_loop (today : Time) (studs : list Student.t) :
  forall (clk : Clock) (n : nat) (d : DB),
  exists n' added,
    for_each studs (auto_absent_body today) clk n d
    = (Return tt, n', with_added added d)
    /\ Forall (absent_mark studs) added
    /\ (forall id,
           find (absent_query today id) (attendances d) <> None ->
           Forall (fun e => Attendance.studentId e <> id) added)
    /\ (NoDup (map Student._id studs) ->
        map Attendance.studentId added
        = map Student._id
            (filter (fun s =>
                       match find (absent_query today (Student._id s))
                               (attendances d) with
                       | Some _ => false
                       | None => true
                       end) studs)).
Proof.
  induction studs as [| s studs IH]; intros clk n d.
  - exists n, []. cbn. repeat apply conj; auto.
    unfold with_added. cbn. rewrite app_nil_r, Nat.add_0_r.
    destruct d; reflexivity.
  - cbn [for_each filter].
    unfold auto_absent_body at 1, Attendance_findOne, Attendance_create.
    unfold_m. cbn.
    fold (absent_query today (Student._id s)).
    destruct (find (absent_query today (Student._id s)) (attendances d))
      as [found |] eqn:Ef.
    + destruct (IH clk n d) as (n' & added & Hrun & Hall & Hskip & Hexact).
      exists n', added. repeat apply conj.
      * exact Hrun.
      * eapply Forall_impl; [| exact Hall].
        intros e (H1 & H2 & H3 & H4 & s' & Hin & Hs').
        repeat apply conj; auto. exists s'. split; [right |]; assumption.
      * exact Hskip.
      * intros Hnd. inversion Hnd; subst. apply Hexact. assumption.
    + set (e := {| Attendance._id := nextId d;
                   Attendance.studentId := Student._id s;
                   Attendance.classId := Student.classId s;
                   Attendance.date := clk n;
                   Attendance.type := CAMPUS;
                   Attendance.period := None;
                   Attendance.status := ABSENT;
                   Attendance.mode := None;
                   Attendance.location := None;
                   Attendance.deviceId := None;
                   Attendance.markedBy := None;
                   Attendance.reason := None;
                   Attendance.createdAt := clk (S n) |}).
      set (d1 := with_attendances (attendances d ++ [e])
                   (with_nextId (S (nextId d)) d)).
      destruct (IH clk (S (S n)) d1)
        as (n' & added & Hrun & Hall & Hskip & Hexact).
      exists n', (e :: added). repeat apply conj.
      * rewrite Hrun. f_equal. unfold with_added, d1. cbn.
        rewrite <- app_assoc. cbn. f_equal. lia.
      * constructor.
        -- repeat apply conj; try reflexivity.
           exists s. repeat apply conj; try reflexivity. left. reflexivity.
        -- eapply Forall_impl; [| exact Hall].
           intros e' (H1 & H2 & H3 & H4 & s' & Hin & Hs').
           repeat apply conj; auto. exists s'. split; [right |]; assumption.
      * intros id Hfound. constructor.
        -- cbn. intros <-. apply Hfound. exact Ef.
        -- apply Hskip. unfold d1. cbn. rewrite find_app.
           destruct (find (absent_query today id) (attendances d)) eqn:E;
             [discriminate | exfalso; apply Hfound; reflexivity].
      * intros Hnd. inversion Hnd as [| ? ? Hnotin Hrest]; subst. cbn.
        f_equal. rewrite (Hexact Hrest). f_equal. apply filter_ext_in.
        intros s' Hs'. unfold d1. cbn. rewrite find_app.
        destruct (find (absent_query today (Student._id s')) (attendances d));
          [reflexivity |].
        cbn. unfold absent_query at 1. unfold e at 1. cbn.
        destruct (Nat.eqb_spec (Student._id s) (Student._id s')) as [Heq |];
          [| reflexivity].
        exfalso. apply Hnotin. rewrite Heq. apply in_map. exact Hs'.
Qed.

(** The sweep on a day that is no holiday, in terms of its loop. *)
Lemma cron_auto_absent_run (clk : Clock) (d : DB) (status : HolidayStatus) :
  fst (run (isHoliday (clk 1%nat)) clk d) = Return status ->
  run cron_auto_absent clk d
  = if isHoliday_ status then (Return tt, d)
    else
      let '(r, _, d') :=
        for_each (filter Student.isActive (students d))
          (auto_absent_body (setHours0 (clk 0%nat))) clk 2%nat d in
      (Return tt, d').
Proof.
  intros Hstatus. unfold run in *. rewrite cron_auto_absent_unfold.
  unfold Student_find. unfold_m.
  destruct (isHoliday_reads (clk 1%nat) d) as [status' Hread].
  rewrite Hread in Hstatus |- *. cbn in Hstatus. injection Hstatus as ->.
  destruct (isHoliday_ status); [reflexivity |].
  destruct (auto_absent_loop (setHours0 (clk 0%nat))
              (filter Student.isActive (students d)) clk 2%nat d)
    as (n' & added & Hrun & _).
  rewrite Hrun. reflexivity.
Qed.

(** X10.  On a holiday the sweep writes nothing: when [isHoliday] says
    so of the day of the run, the store is left as it was. *)
Theorem sweep_on_holiday_writes_nothing :
  forall (clk : Clock) (d : DB) (status : HolidayStatus),
    fst (run (isHoliday (clk 1%nat)) clk d) = Return status ->
    isHoliday_ status = true ->
    run cron_auto_absent clk d = (Return tt, d).
Proof.
  intros clk d status Hstatus Hholiday.
  rewrite (cron_auto_absent_run clk d status Hstatus), Hholiday.
  reflexivity.
Qed.

(** A Saturday declared a holiday. *)
Lemma sweep_on_holiday_writes_nothing_witness :
  run cron_auto_absent (ticking_clock (at_time saturday 11 0))
    (with_holidays [founders_day] school)
  = (Return tt, with_holidays [founders_day] school).
Proof.
  apply (sweep_on_holiday_writes_nothing
           (ticking_clock (at_time saturday 11 0))
           (with_holidays [founders_day] school)
           {| isHoliday_ := true; isWorkingDay := None; mappedDay := None;
              reason := Some "Founders day" |}); reflexivity.
Defined.

(** X11.  The sweep never throws and only appends: whatever the store
    and the clock, it leaves the stored events in place and unchanged,
    the sessions, students, holiday rules and requests as they were,
    and every event it adds is an ABSENT CAMPUS event, without period
    or mode, carrying the id and the class of an active student. *)
Theorem sweep_only_appends_absent_marks :
  forall (clk : Clock) (d : DB),
    exists added,
      fst (run cron_auto_absent clk d) = Return tt
      /\ attendances (snd (run cron_auto_absent clk d))
         = (attendances d ++ added)%list
      /\ sessions (snd (run cron_auto_absent clk d)) = sessions d
      /\ students (snd (run cron_auto_absent clk d)) = students d
      /\ holidays (snd (run cron_auto_absent clk d)) = holidays d
      /\ requests (snd (run cron_auto_absent clk d)) = requests d
      /\ Forall (absent_mark (filter Student.isActive (students d))) added.
Proof.
  intros clk d.
  destruct (isHoliday_reads (clk 1%nat) d) as [status Hread].
  assert (Hstatus : fst (run (isHoliday (clk 1%nat)) clk d) = Return status)
    by (unfold run; rewrite Hread; reflexivity).
  rewrite (cron_auto_absent_run clk d status Hstatus).
  destruct (isHoliday_ status).
  - exists []. cbn. rewrite app_nil_r. repeat apply conj; auto.
  - destruct (auto_absent_loop (setHours0 (clk 0%nat))
                (filter Student.isActive (students d)) clk 2%nat d)
      as (n' & added & Hrun & Hall & _).
    rewrite Hrun. exists added. cbn. repeat apply conj; auto.
Qed.

(** X12.  A student for whom the campus query of the sweep finds an
    event gets no absent mark: every event with his id in the store
    after the sweep was in the store before. *)
Theorem sweep_skips_marked_students :
  forall (clk : Clock) (d : DB) (id : ObjectId) (e : Attendance.t),
    find (campus_marked id (clk 0%nat)) (attendances d) <> None ->
    In e (attendances (snd (run cron_auto_absent clk d))) ->
    Attendance.studentId e = id ->
    In e (attendances d).
Proof.
  intros clk d id e Hfound.
  destruct (isHoliday_reads (clk 1%nat) d) as [status Hread].
  assert (Hstatus : fst (run (isHoliday (clk 1%nat)) clk d) = Return status)
    by (unfold run; rewrite Hread; reflexivity).
  rewrite (cron_auto_absent_run clk d status Hstatus).
  destruct (isHoliday_ status); [cbn; auto |].
  destruct (auto_absent_loop (setHours0 (clk 0%nat))
              (filter Student.isActive (students d)) clk 2%nat d)
    as (n' & added & Hrun & _ & Hskip & _).
  rewrite Hrun. cbn. intros Hin Hid.
  apply in_app_or in Hin. destruct Hin as [Hin | Hin]; [exact Hin |].
  exfalso. specialize (Hskip id Hfound).
  rewrite Forall_forall in Hskip. exact (Hskip e Hin Hid).
Qed.

(** Alice has a CAMPUS event dated at the midnight of the Monday. *)
Lemma sweep_skips_marked_students_witness :
  In alice_manual_campus [alice_manual_campus].
Proof.
  apply (sweep_skips_marked_students (ticking_clock (at_time monday 11 0))
           (with_attendances [alice_manual_campus] school) 101%nat
           alice_manual_campus).
  - vm_compute. discriminate.
  - left. reflexivity.
  - reflexivity.
Defined.

(** X13.  On a day that is no holiday, with students of distinct ids,
    the sweep adds exactly one event for each active student for whom
    its campus query finds nothing, in the order of the students, and
    none for anyone else. *)
Theorem sweep_marks_each_unmarked_student_once :
  forall (clk : Clock) (d : DB) (status : HolidayStatus),
    fst (run (isHoliday (clk 1%nat)) clk d) = Return status ->
    isHoliday_ status = false ->
    NoDup (map Student._id (students d)) ->
    exists added,
      attendances (snd (run cron_auto_absent clk d))
      = (attendances d ++ added)%list
      /\ map Attendance.studentId added
         = map Student._id
             (filter (unmarked d (clk 0%nat))
                (filter Student.isActive (students d))).
Proof.
  intros clk d status Hstatus Hwork Hids.
  rewrite (cron_auto_absent_run clk d status Hstatus), Hwork.
  destruct (auto_absent_loop (setHours0 (clk 0%nat))
              (filter Student.isActive (students d)) clk 2%nat d)
    as (n' & added & Hrun & _ & _ & Hexact).
  rewrite Hrun. exists added. cbn. split; [reflexivity |].
  apply Hexact. apply student_ids_distinct. exact Hids.
Qed.

Lemma sweep_marks_each_unmarked_student_once_witness :
  exists added,
    attendances
      (snd (run cron_auto_absent (ticking_clock (at_time monday 11 0))
              (with_attendances [alice_manual_campus] school)))
    = ([alice_manual_campus] ++ added)%list
    /\ map Attendance.studentId added = [102; 103]%nat.
Proof.
  apply (sweep_marks_each_unmarked_student_once
           (ticking_clock (at_time monday 11 0))
           (with_attendances [alice_manual_campus] school)
           {| isHoliday_ := false; isWorkingDay := None; mappedDay := None;
              reason := None |}).
  - reflexivity.
  - reflexivity.
  - cbn. repeat constructor; cbn; intuition discriminate.
Defined.

(** ** Reviews of requests *)

Ltac unfold_review :=
  unfold put_request_review, Request_findByIdAndUpdate, Student_findById,
    Attendance_create;
  unfold_m.

(** X14.  Reviewing a request that does not exist answers with status
    500 and writes nothing. *)
Theorem review_of_unknown_request :
  forall (teacherId id : ObjectId) (status : RequestStatus)
         (reviewNote : option string) (clk : Clock) (d : DB),
    status <> PENDING ->
    find (fun r => (Request._id r =? id)%nat) (requests d) = None ->
    exists message,
      run (put_request_review teacherId id status reviewNote) clk d
      = (Return (res_error 500 message), d).
Proof.
  intros teacherId id status reviewNote clk d Hstatus Hnone.
  unfold_review.
  destruct status; [contradiction | |]; cbn; rewrite Hnone; cbn;
    eexists; reflexivity.
Qed.

Lemma review_of_unknown_request_witness :
  exists message,
    run (put_request_review 7 999 APPROVED None)
      (ticking_clock (at_time monday 16 0)) with_manual_request
    = (Return (res_error 500 message), with_manual_request).
Proof.
  apply (review_of_unknown_request 7%nat 999%nat APPROVED None
           (ticking_clock (at_time monday 16 0)) with_manual_request).
  - discriminate.
  - reflexivity.
Defined.



(** X16.  Only the approval of a manual-attendance request creates an
    event: a rejection, and the review of a FRIEND_ATTENDANCE request,
    leave the attendance events and the sessions as they were. *)
Theorem other_reviews_store_no_event :
  forall (teacherId id : ObjectId) (status : RequestStatus)
         (reviewNote : option string) (clk : Clock) (d : DB),
    status <> APPROVED
    \/ (forall request,
           find (fun r => (Request._id r =? id)%nat) (requests d)
           = Some request ->
           Request.type request = FRIEND_ATTENDANCE) ->
    attendances (snd (run (put_request_review teacherId id status
                             reviewNote) clk d)) = attendances d
    /\ sessions (snd (run (put_request_review teacherId id status
                             reviewNote) clk d)) = sessions d.
Proof.
  intros teacherId id status reviewNote clk d Hcase.
  unfold_review.
  destruct status; cbn; [split; reflexivity | |].
  - destruct Hcase as [Hcase | Hcase]; [contradiction |].
    destruct (find _ (requests d)) as [request |] eqn:Ef; cbn;
      [| split; reflexivity].
    destruct (find _ (students d)); cbn; [| split; reflexivity].
    rewrite (Hcase request eq_refl). cbn. split; reflexivity.
  - destruct (find _ (requests d)) as [request |]; cbn;
      [| split; reflexivity].
    destruct (find _ (students d)); cbn; split; reflexivity.
Qed.

Lemma other_reviews_store_no_event_witness :
  attendances
    (snd (run (put_request_review 7 300 REJECTED (Some "Not seen"))
            (ticking_clock (at_time monday 16 0)) with_manual_request))
  = attendances with_manual_request
  /\ sessions
       (snd (run (put_request_review 7 300 REJECTED (Some "Not seen"))
               (ticking_clock (at_time monday 16 0)) with_manual_request))
     = sessions with_manual_request.
Proof.
  apply (other_reviews_store_no_event 7%nat 300%nat REJECTED
           (Some "Not seen") (ticking_clock (at_time monday 16 0))
           with_manual_request).
  left. discriminate.
Defined.

(** ** Absence reasons *)

Lemma post_absence_reason_run (user : Student.t) (date : Time)
    (reason : string) (clk : Clock) (d : DB) :
  run (post_absence_reason user date reason) clk d
  = (Return (res_json tt),
     with_attendances
       (map (fun e =>
               if (Attendance.studentId e =? Student._id user)%nat
                  && (Attendance.date e =? setHours0 date)
                  && Status_eqb (Attendance.status e) ABSENT
               then Attendance.set_reason (Some reason) e else e)
            (attendances d)) d).
Proof. reflexivity. Qed.



(** X18.  An absence reason reaches only events dated at a midnight: an
    event whose date has a time of day, as the events the sweep and the
    marking handlers store have, is left as it was, reason included,
    whatever student and day the reason is submitted for. *)
Theorem absence_reason_misses_timed_events :
  forall (user : Student.t) (date : Time) (reason : string) (clk : Clock)
         (d : DB) (i : nat) (e : Attendance.t),
    nth_error (attendances d) i = Some e ->
    Attendance.date e mod MS_PER_DAY <> 0 ->
    nth_error
      (attendances (snd (run (post_absence_reason user date reason) clk d)))
      i = Some e.
Proof.
  intros user date reason clk d i e He Htimed.
  rewrite post_absence_reason_run. cbn. rewrite nth_error_map, He. cbn.
  destruct (Z.eqb_spec (Attendance.date e) (setHours0 date)) as [Heq |].
  - exfalso. apply Htimed. rewrite Heq. apply setHours0_midnight.
  - rewrite andb_false_r. reflexivity.
Qed.

(** The absent mark the sweep of the Monday stored for Alice. *)
Lemma absence_reason_misses_timed_events_witness :
  nth_error
    (attendances
       (snd (run (post_absence_reason alice (at_time monday 18 0)
                    "Fever, stayed at home")
               (const_clock (at_time monday 18 0)) swept_once))) 0
  = nth_error (attendances swept_once) 0.
Proof.
  pose (e := nth 0 (attendances swept_once) alice_campus).
  change (nth_error (attendances swept_once) 0) with (Some e).
  apply (absence_reason_misses_timed_events alice (at_time monday 18 0)
           "Fever, stayed at home" (const_clock (at_time monday 18 0))
           swept_once 0%nat e).
  - reflexivity.
  - vm_compute. discriminate.
Defined.

(** ** The attendance report, whatever the store *)

Lemma stats_get_in (k : ObjectId) (stats : Stats) (st : Stat) :
  stats_get k stats = Some st -> In st (map snd stats).
Proof.
  induction stats as [| [k' v] rest IH]; cbn; [discriminate |].
  destruct (k' =? k)%nat.
  - intros H. injection H as <-. left. reflexivity.
  - intros H. right. apply IH. exact H.
Qed.

Lemma stats_set_forall (P : Stat -> Prop) (k : ObjectId) (v : Stat)
    (stats : Stats) :
  P v -> Forall P (map snd stats) -> Forall P (map snd (stats_set k v stats)).
Proof.
  intros Hv. induction stats as [| [k' v'] rest IH]; cbn; intros H.
  - constructor; [exact Hv | constructor].
  - inversion H; subst. destruct (k' =? k)%nat; cbn.
    + constructor; assumption.
    + constructor; [assumption | apply IH; assumption].
Qed.

Lemma tally_forall (P : Stat -> Prop) (all : list Student.t)
    (records : list Attendance.t) :
  (forall status st, P st -> P (stat_count status st)) ->
  forall stats stats',
    Forall P (map snd stats) ->
    tally all records stats = Return stats' ->
    Forall P (map snd stats').
Proof.
  intros Hcount. induction records as [| r records IH];
    intros stats stats' Hstats; cbn.
  - intros H. injection H as <-. exact Hstats.
  - destruct (populated_id all r) as [k |]; [| discriminate].
    destruct (stats_get k stats) as [st |] eqn:Eg.
    + apply IH. apply stats_set_forall; [| exact Hstats].
      apply Hcount. rewrite Forall_forall in Hstats. apply Hstats.
      eapply stats_get_in. exact Eg.
    + apply IH. exact Hstats.
Qed.

Lemma stats_init_forall (P : Stat -> Prop) (studs : list Student.t) :
  (forall s, P (stat_init s)) ->
  forall acc,
    Forall P (map snd acc) ->
    Forall P (map snd (fold_left
                         (fun stats student =>
                            stats_set (Student._id student)
                              (stat_init student) stats) studs acc)).
Proof.
  intros Hinit. induction studs as [| s studs IH]; intros acc Hacc; cbn.
  - exact Hacc.
  - apply IH. apply stats_set_forall; [apply Hinit | exact Hacc].
Qed.

(** The report in terms of its tally. *)
Lemma generateAttendanceReport_run (classId : ObjectId)
    (startDate endDate : Time) (clk : Clock) (d : DB) :
  run (generateAttendanceReport classId startDate endDate) clk d
  = match
      tally (students d)
        (sort_by by_date_desc_period
           (filter (fun e => (Attendance.classId e =? classId)%nat
                             && (startDate <=? Attendance.date e)
                             && (Attendance.date e <=? endDate))
              (attendances d)))
        (fold_left (fun stats student =>
                      stats_set (Student._id student) (stat_init student)
                        stats)
                   (enrolled classId d) [])
    with
    | Return stats' =>
        (Return (map (fun kv => stat_percentage (snd kv)) stats'), d)
    | Throw e => (Throw e, d)
    end.
Proof.
  unfold generateAttendanceReport, Attendance_find, Student_find, enrolled.
  unfold_m. cbn. rewrite filter_true.
  destruct (tally _ _ _); reflexivity.
Qed.

(** X19.  In every row of every report, [present] and [absent] add up
    to [totalClasses], whatever the store holds. *)
Theorem report_rows_add_up :
  forall (d : DB) (clk : Clock) (classId : ObjectId)
         (startDate endDate : Time) (rows : list Stat),
    fst (run (generateAttendanceReport classId startDate endDate) clk d)
    = Return rows ->
    Forall (fun row => (present row + absent row)%nat = totalClasses row)
      rows.
Proof.
  intros d clk classId startDate endDate rows.
  rewrite generateAttendanceReport_run.
  destruct (tally _ _ _) as [stats' |] eqn:Et; cbn; [| discriminate].
  intros H. injection H as <-.
  pose (P := fun st => (present st + absent st)%nat = totalClasses st).
  assert (Hall : Forall P (map snd stats')).
  { eapply (tally_forall P); [| | exact Et].
    - intros status st Hst. unfold P in *. cbn.
      destruct (Status_eqb status PRESENT); lia.
    - apply stats_init_forall; [reflexivity | constructor]. }
  rewrite <- map_map. apply Forall_map.
  eapply Forall_impl; [| exact Hall].
  intros st Hst. exact Hst.
Qed.

Lemma report_rows_add_up_witness :
  Forall (fun row => (present row + absent row)%nat = totalClasses row)
    [ {| stat_name := "Alice Johnson"; stat_rollNumber := "CSE202100001";
         totalClasses := 10; present := 8; absent := 2;
         percentage := 80 |};
      {| stat_name := "Bob Wilson"; stat_rollNumber := "CSE202100002";
         totalClasses := 0; present := 0; absent := 0; percentage := 0 |} ].
Proof.
  apply (report_rows_add_up (with_attendances ten_classes school)
           (const_clock 0) 1%nat (at_time monday 0 0)
           (at_time (monday + 6) 23 59)).
  reflexivity.
Defined.

Lemma tally_throws (all : list Student.t) (records : list Attendance.t) :
  (exists r, In r records /\ populated_id all r = None) ->
  forall stats,
    tally all records stats
    = Throw "Cannot read properties of null (reading '_id')".
Proof.
  induction records as [| r records IH]; intros (r0 & Hin & Hnone) stats.
  - destruct Hin.
  - cbn. destruct (populated_id all r) as [k |] eqn:Ep; [| reflexivity].
    assert (Hrest : exists r', In r' records /\ populated_id all r' = None).
    { destruct Hin as [<- | Hin]; [congruence |]. exists r0. auto. }
    destruct (stats_get k stats); apply IH; exact Hrest.
Qed.

(** X20.  The report of a class fails, and writes nothing, as soon as
    one record of the class in the range refers to a student that is
    not stored: no row is returned for anybody. *)
Theorem report_fails_on_dangling_record :
  forall (d : DB) (clk : Clock) (classId : ObjectId)
         (startDate endDate : Time) (e : Attendance.t),
    In e (attendances d) ->
    Attendance.classId e = classId ->
    startDate <= Attendance.date e <= endDate ->
    (forall s, In s (students d) ->
               Student._id s <> Attendance.studentId e) ->
    run (generateAttendanceReport classId startDate endDate) clk d
    = (Throw "Cannot read properties of null (reading '_id')", d).
Proof.
  intros d clk classId startDate endDate e Hin Hclass Hrange Hnone.
  rewrite generateAttendanceReport_run.
  rewrite tally_throws; [reflexivity |].
  exists e. split.
  - apply (Permutation_in _ (Permutation_sym (sort_by_perm _ _))).
    apply filter_In. split; [exact Hin |].
    rewrite Hclass, Nat.eqb_refl. cbn.
    apply andb_true_intro. split; apply Z.leb_le; lia.
  - unfold populated_id.
    destruct (find _ (students d)) as [s |] eqn:Ef; [| reflexivity].
    apply find_some in Ef. destruct Ef as [Hs Heq].
    apply Nat.eqb_eq in Heq. exfalso. exact (Hnone s Hs Heq).
Qed.

(** Alice's campus event in a store without students. *)
Lemma report_fails_on_dangling_record_witness :
  run (generateAttendanceReport 1 (at_time monday 0 0) (at_time monday 23 59))
    (const_clock 0) (with_attendances [alice_campus] empty_db)
  = (Throw "Cannot read properties of null (reading '_id')",
     with_attendances [alice_campus] empty_db).
Proof.
  apply (report_fails_on_dangling_record
           (with_attendances [alice_campus] empty_db) (const_clock 0) 1%nat
           (at_time monday 0 0) (at_time monday 23 59) alice_campus).
  - left. reflexivity.
  - reflexivity.
  - vm_compute. split; discriminate.
  - intros s [].
Defined.

Lemma sort_insert_sorted {A} (leb : A -> A -> bool) (x : A) (l : list A) :
  (forall a b, leb a b = true \/ leb b a = true) ->
  Sorted (fun a b => leb a b = true) l ->
  Sorted (fun a b => leb a b = true) (sort_insert leb x l).
Proof.
  intros Htotal Hsorted. induction Hsorted as [| y l Hl IH Hhd]; cbn.
  - repeat constructor.
  - destruct (leb x y) eqn:Exy.
    + constructor; [constructor; assumption | constructor; exact Exy].
    + constructor; [exact IH |].
      destruct l as [| z l]; cbn.
      * constructor. destruct (Htotal x y); congruence.
      * destruct (leb x z).
        -- constructor. destruct (Htotal x y); congruence.
        -- inversion Hhd; subst. constructor. assumption.
Qed.

Lemma sort_by_sorted {A} (leb : A -> A -> bool) (l : list A) :
  (forall a b, leb a b = true \/ leb b a = true) ->
  Sorted (fun a b => leb a b = true) (sort_by leb l).
Proof.
  intros Htotal. induction l as [| x l IH]; cbn.
  - constructor.
  - apply sort_insert_sorted; assumption.
Qed.

Lemma Sorted_map {A B} (f : A -> B) (R : B -> B -> Prop) (l : list A) :
  Sorted (fun a b => R (f a) (f b)) l -> Sorted R (map f l).
Proof.
  induction 1 as [| x l _ IH Hhd]; cbn; constructor; [exact IH |].
  destruct Hhd; cbn; constructor. assumption.
Qed.

Lemma stats_set_rollNumbers (k : ObjectId) (v st : Stat) (stats : Stats) :
  stats_get k stats = Some st ->
  stat_rollNumber v = stat_rollNumber st ->
  map (fun kv => stat_rollNumber (snd kv)) (stats_set k v stats)
  = map (fun kv => stat_rollNumber (snd kv)) stats.
Proof.
  intros Hget Hroll. induction stats as [| [k' v'] rest IH]; cbn in *;
    [discriminate |].
  destruct (k' =? k)%nat; cbn.
  - injection Hget as ->. rewrite Hroll. reflexivity.
  - rewrite IH by exact Hget. reflexivity.
Qed.

Lemma tally_rollNumbers (all : list Student.t) (records : list Attendance.t) :
  forall stats stats',
    tally all records stats = Return stats' ->
    map (fun kv => stat_rollNumber (snd kv)) stats'
    = map (fun kv => stat_rollNumber (snd kv)) stats.
Proof.
  induction records as [| r records IH]; intros stats stats'; cbn.
  - intros H. injection H as <-. reflexivity.
  - destruct (populated_id all r) as [k |]; [| discriminate].
    destruct (stats_get k stats) as [st |] eqn:Eg; intros H.
    + rewrite (IH _ _ H). eapply stats_set_rollNumbers; [exact Eg |].
      reflexivity.
    + apply (IH _ _ H).
Qed.

(** X21.  With students of distinct ids, a report that is returned has
    one row for each student of the class, and its rows come in
    non-decreasing order of roll number. *)
Theorem report_rows_by_roll_number :
  forall (d : DB) (clk : Clock) (classId : ObjectId)
         (startDate endDate : Time) (rows : list Stat),
    NoDup (map Student._id (students d)) ->
    fst (run (generateAttendanceReport classId startDate endDate) clk d)
    = Return rows ->
    map stat_rollNumber rows
    = map Student.rollNumber (enrolled classId d)
    /\ Sorted (fun a b => String.leb a b = true) (map stat_rollNumber rows).
Proof.
  intros d clk classId startDate endDate rows Hids.
  rewrite generateAttendanceReport_run.
  destruct (tally _ _ _) as [stats' |] eqn:Et; cbn; [| discriminate].
  intros H. injection H as <-.
  assert (Hrolls : map stat_rollNumber
                     (map (fun kv => stat_percentage (snd kv)) stats')
                   = map Student.rollNumber (enrolled classId d)).
  { rewrite map_map. cbn.
    rewrite (tally_rollNumbers _ _ _ _ Et).
    rewrite (stats_init_rows (enrolled classId d) []).
    - cbn. rewrite map_map. reflexivity.
    - cbn. unfold enrolled.
      eapply Permutation_NoDup.
      + apply Permutation_map. apply Permutation_sym. apply sort_by_perm.
      + apply student_ids_distinct. exact Hids. }
  split; [exact Hrolls |].
  rewrite Hrolls. apply Sorted_map. unfold enrolled.
  apply (sort_by_sorted by_rollNumber). intros a b. apply String.leb_total.
Qed.

(** Bob stored ahead of Alice. *)
Lemma report_rows_by_roll_number_witness :
  map stat_rollNumber
    (match
       fst (run (generateAttendanceReport 1 (at_time monday 0 0)
                   (at_time monday 23 59)) (const_clock 0)
              {| attendances := [alice_campus]; sessions := [];
                 students := [charlie; bob; alice]; holidays := [];
                 requests := []; nextId := 200 |})
     with
     | Return rows => rows
     | Throw _ => []
     end)
  = ["CSE202100001"; "CSE202100002"].
Proof.
  refine (proj1 (report_rows_by_roll_number
                   {| attendances := [alice_campus]; sessions := [];
                      students := [charlie; bob; alice]; holidays := [];
                      requests := []; nextId := 200 |}
                   (const_clock 0) 1%nat (at_time monday 0 0)
                   (at_time monday 23 59) _ _ _)).
  - cbn. repeat constructor; cbn; intuition discriminate.
  - reflexivity.
Defined.

(** ** Starting a session *)

(** X22.  On a holiday no session is started: when [isHoliday] makes
    the day of the request a holiday with reason [r], the route answers
    400 "Cannot take attendance on [r]" and writes nothing, whatever
    sessions are stored. *)
Theorem session_start_refused_on_holiday :
  forall (teacherId : ObjectId) (token shortCode : string)
         (classId : ObjectId) (period : nat) (mode : Mode) (clk : Clock)
         (d : DB) (status : HolidayStatus) (r : string),
    period_valid period = true -> session_mode_valid mode = true ->
    fst (run (isHoliday (clk 0%nat)) clk d) = Return status ->
    isHoliday_ status = true ->
    reason status = Some r ->
    run (post_session_start teacherId token shortCode classId period mode)
      clk d
    = (Return (res_error 400 ("Cannot take attendance on " ++ r)), d).
Proof.
  intros teacherId token shortCode classId period mode clk d status r
    Hp Hm Hstatus Hholiday Hreason.
  unfold run in *. unfold post_session_start. rewrite Hp, Hm. cbn [negb].
  unfold_m.
  destruct (isHoliday_reads (clk 0%nat) d) as [status' Hread].
  rewrite Hread in Hstatus |- *. cbn in Hstatus. injection Hstatus as ->.
  rewrite Hholiday, Hreason. reflexivity.
Qed.

(** A Sunday. *)
Lemma session_start_refused_on_holiday_witness :
  run (post_session_start 7 "T" "A1B2C3" 1 3 BLE)
    (ticking_clock (at_time sunday 9 0)) school
  = (Return (res_error 400 "Cannot take attendance on Sunday"), school).
Proof.
  apply (session_start_refused_on_holiday 7%nat "T" "A1B2C3" 1%nat 3%nat BLE
           (ticking_clock (at_time sunday 9 0)) school
           {| isHoliday_ := true; isWorkingDay := None; mappedDay := None;
              reason := Some "Sunday" |} "Sunday"); reflexivity.
Defined.

(** X23.  A request that passes the checks of [session/start] (period
    and mode valid, no holiday, nothing found by the active-session
    query, token not in use) stores one session and answers with it:
    active, without present students, for the class, period, mode and
    teacher of the request, dated at the clock reading of its creation,
    expiring 15 minutes after the next reading, with the short code
    only in mode INTERNET and the network name "SmartAttend_" followed
    by the first 8 characters of the token only in mode WIFI. *)
Theorem session_start_opens_session :
  forall (teacherId : ObjectId) (token shortCode : string)
         (classId : ObjectId) (period : nat) (mode : Mode) (clk : Clock)
         (d : DB) (status : HolidayStatus),
    period_valid period = true -> session_mode_valid mode = true ->
    fst (run (isHoliday (clk 0%nat)) clk d) = Return status ->
    isHoliday_ status = false ->
    find (session_active classId period (clk 1%nat)) (sessions d) = None ->
    existsb (fun s => String.eqb (Session.token s) token) (sessions d)
    = false ->
    let s := started_session d clk teacherId token shortCode classId period
               mode in
    run (post_session_start teacherId token shortCode classId period mode)
      clk d
    = (Return (res_json s),
       with_sessions (sessions d ++ [s]) (with_nextId (S (nextId d)) d)).
Proof.
  intros teacherId token shortCode classId period mode clk d status
    Hp Hm Hstatus Hwork Hnone Hfree s.
  subst s. unfold run in *. unfold post_session_start.
  rewrite Hp, Hm. cbn [negb].
  unfold Session_findOne, createSession, Session_create. unfold_m.
  destruct (isHoliday_reads (clk 0%nat) d) as [status' Hread].
  rewrite Hread in Hstatus |- *. cbn in Hstatus. injection Hstatus as ->.
  rewrite Hwork.
  fold (session_active classId period (clk 1%nat)).
  cbn. rewrite Hnone. cbn. rewrite Hp, Hm. cbn. rewrite Hfree. cbn.
  reflexivity.
Qed.

Lemma session_start_opens_session_witness :
  run (post_session_start 7 "0123456789abcdef" "A1B2C3" 1 3 WIFI)
    (ticking_clock (at_time monday 9 0)) school
  = (Return
       (res_json
          (started_session school (ticking_clock (at_time monday 9 0)) 7
             "0123456789abcdef" "A1B2C3" 1 3 WIFI)),
     with_sessions
       [started_session school (ticking_clock (at_time monday 9 0)) 7
          "0123456789abcdef" "A1B2C3" 1 3 WIFI]
       (with_nextId 201 school)).
Proof.
  apply (session_start_opens_session 7%nat "0123456789abcdef" "A1B2C3" 1%nat
           3%nat WIFI (ticking_clock (at_time monday 9 0)) school
           {| isHoliday_ := false; isWorkingDay := None; mappedDay := None;
              reason := None |}); reflexivity.
Defined.

(** ** Reports over HTTP *)

(** The report service reads the store and leaves it as it was, and its
    result depends neither on the clock nor on the readings taken. *)
Lemma generateAttendanceReport_reads (classId : ObjectId)
    (startDate endDate : Time) (d : DB) :
  exists res,
    forall clk n,
      generateAttendanceReport classId startDate endDate clk n d
      = (res, n, d).
Proof.
  unfold generateAttendanceReport, Attendance_find, Student_find.
  unfold_m. cbn.
  destruct (tally _ _ _); eexists; intros; reflexivity.
Qed.

Arguments generateAttendanceReport : simpl never.

(** X24.  The attendance report route never writes.  A student is
    answered 403 "Access denied"; a STAFF teacher with no assigned
    period in the class is answered 403 "Access denied to this class";
    a CC teacher, and a STAFF teacher with an assigned period in the
    class, are answered with the report of the service, or with 500 and
    the message when the service throws. *)
Theorem attendance_report_access :
  forall (user : Principal) (classId : ObjectId) (startDate endDate : Time)
         (clk : Clock) (d : DB),
    let r := run (get_reports_attendance user classId startDate endDate)
               clk d in
    snd r = d
    /\ (forall student, user = StudentUser student ->
        fst r = Return (res_error 403 "Access denied"))
    /\ (forall teacher, user = TeacherUser teacher ->
        Teacher.role teacher = STAFF ->
        (forall p, In p (Teacher.assignedPeriods teacher) ->
                   fst p <> classId) ->
        fst r = Return (res_error 403 "Access denied to this class"))
    /\ (forall teacher, user = TeacherUser teacher ->
        Teacher.role teacher = CC
        \/ (exists period,
               In (classId, period) (Teacher.assignedPeriods teacher)) ->
        fst r
        = match fst (run (generateAttendanceReport classId startDate
                            endDate) clk d) with
          | Return rows => Return (res_json rows)
          | Throw message => Return (res_error 500 message)
          end).
Proof.
  intros user classId startDate endDate clk d r. subst r.
  destruct (generateAttendanceReport_reads classId startDate endDate d)
    as [res Hservice].
  unfold run, get_reports_attendance. unfold_m.
  destruct user as [teacher | student]; cbn.
  2: { repeat apply conj; try reflexivity; intros; discriminate. }
  destruct (existsb (fun p => (fst p =? classId)%nat)
              (Teacher.assignedPeriods teacher)) eqn:Eassigned.
  - rewrite andb_false_r, !Hservice.
    destruct res; cbn;
      (repeat apply conj; [reflexivity | intros; discriminate | |
                           intros; reflexivity]);
      intros t Ht _ Hnone; injection Ht as <-;
      apply existsb_exists in Eassigned;
      destruct Eassigned as (p & Hp & Heq); apply Nat.eqb_eq in Heq;
      exfalso; exact (Hnone p Hp Heq).
  - rewrite andb_true_r.
    destruct (Teacher.role teacher) eqn:Erole; cbn.
    + rewrite !Hservice.
      destruct res; cbn;
        (repeat apply conj; [reflexivity | intros; discriminate | |
                             intros; reflexivity]);
        intros t Ht Hstaff; injection Ht as <-; congruence.
    + repeat apply conj; try reflexivity; try (intros; discriminate).
      intros t Ht [Hcc | (period & Hin)]; injection Ht as <-;
        [congruence |].
      assert (existsb (fun p => (fst p =? classId)%nat)
                (Teacher.assignedPeriods teacher) = true) as Habs.
      { apply existsb_exists. exists (classId, period).
        split; [exact Hin | apply Nat.eqb_refl]. }
      congruence.
Qed.

(** X25.  The student summary route never writes.  A student who asks
    for the summary of another student is answered 403; an id that no
    student has is answered 404; otherwise the summary counts every
    event stored under the student's id, of any class and type: [total]
    is their number, [present] and [absent] the numbers of those with
    status PRESENT and ABSENT, together at most [total], and [records]
    holds these events and no others. *)
Theorem student_summary_access :
  forall (user : Principal) (studentId : ObjectId) (clk : Clock) (d : DB),
    let r := run (get_reports_student user studentId) clk d in
    let mine :=
      filter (fun e => (Attendance.studentId e =? studentId)%nat)
        (attendances d) in
    snd r = d
    /\ (forall student, user = StudentUser student ->
        Student._id student <> studentId ->
        fst r = Return (res_error 403 "Access denied"))
    /\ ((forall student, user = StudentUser student ->
                         Student._id student = studentId) ->
        find (fun s => (Student._id s =? studentId)%nat) (students d) = None ->
        fst r = Return (res_error 404 "Student not found"))
    /\ ((forall student, user = StudentUser student ->
                         Student._id student = studentId) ->
        find (fun s => (Student._id s =? studentId)%nat) (students d)
        <> None ->
        exists summary,
          fst r = Return (res_json summary)
          /\ Summary.total summary = List.length mine
          /\ Summary.present summary
             = List.length
                 (filter (fun e => Status_eqb (Attendance.status e) PRESENT)
                    mine)
          /\ Summary.absent summary
             = List.length
                 (filter (fun e => Status_eqb (Attendance.status e) ABSENT)
                    mine)
          /\ (Summary.present summary + Summary.absent summary
              <= Summary.total summary)%nat
          /\ Permutation (Summary.records summary) mine).
Proof.
  intros user studentId clk d r mine. subst r mine.
  unfold run, get_reports_student, Student_findById, Attendance_find.
  unfold_m.
  assert (Hdenied :
            match user with
            | StudentUser student =>
                negb (Student._id student =? studentId)%nat
            | TeacherUser _ => false
            end = false
            <-> (forall student, user = StudentUser student ->
                                 Student._id student = studentId)).
  { destruct user as [t | s]; split; intros H; try reflexivity.
    - intros student Heq. discriminate.
    - intros student Heq. injection Heq as <-.
      apply negb_false_iff, Nat.eqb_eq in H. exact H.
    - rewrite (H s eq_refl), Nat.eqb_refl. reflexivity. }
  destruct (match user with
            | StudentUser student =>
                negb (Student._id student =? studentId)%nat
            | TeacherUser _ => false
            end) eqn:Ed; cbn.
  - assert (Hnot : ~ (forall student, user = StudentUser student ->
                                      Student._id student = studentId)).
    { intros H. apply Hdenied in H. discriminate. }
    repeat apply conj; try reflexivity; intros; contradiction.
  - assert (Hown := proj1 Hdenied eq_refl).
    destruct (find _ (students d)) as [s |] eqn:Ef; cbn.
    + repeat apply conj; try reflexivity.
      * intros student Hu Hne. exfalso. exact (Hne (Hown student Hu)).
      * intros _ Habs. discriminate.
      * intros _ _. eexists. split; [reflexivity |]. cbn.
        set (mine := filter _ (attendances d)).
        assert (Hperm : Permutation (sort_by by_date_desc mine) mine)
          by apply sort_by_perm.
        repeat apply conj.
        -- apply Permutation_length. exact Hperm.
        -- apply filter_length_perm. exact Hperm.
        -- apply filter_length_perm. exact Hperm.
        -- rewrite <- (filter_split_length
                         (fun a => Status_eqb (Attendance.status a) PRESENT)
                         (sort_by by_date_desc mine)).
           apply Nat.add_le_mono_l.
           generalize (sort_by by_date_desc mine). intros l.
           induction l as [| a l IH]; cbn; [lia |].
           destruct (Attendance.status a); cbn; lia.
        -- exact Hperm.
    + repeat apply conj; try reflexivity.
      * intros student Hu Hne. exfalso. exact (Hne (Hown student Hu)).
      * intros _ Habs. contradiction.
Qed.

(** ** Declaring holidays *)

Arguments weekday_name : simpl never.

(** X26.  A holiday rule is stored for a CC teacher only, and only with
    a name and with a [mappedDay] that is absent or a weekday from
    monday to friday: whenever the route changes the stored rules, all
    three hold, and the rule of the request is what it appended.
    Nothing else in the store is ever touched. *)
Theorem holiday_declaration_requires_cc :
  forall (user : Principal) (name : string) (startDate endDate : Time)
         (type : HolidayType) (mappedDay : option string) (clk : Clock)
         (d : DB),
    let d' := snd (run (post_holidays user name startDate endDate type
                          mappedDay) clk d) in
    attendances d' = attendances d
    /\ sessions d' = sessions d
    /\ students d' = students d
    /\ requests d' = requests d
    /\ (holidays d' <> holidays d ->
        (exists teacher, user = TeacherUser teacher
                         /\ Teacher.role teacher = CC)
        /\ name <> ""
        /\ (forall day, mappedDay = Some day -> weekday_name day = true)
        /\ holidays d'
           = (holidays d
              ++ [{| Holiday.name := name; Holiday.startDate := startDate;
                     Holiday.endDate := endDate; Holiday.type := type;
                     Holiday.mappedDay := mappedDay |}])%list).
Proof.
  intros user name startDate endDate type mappedDay clk d d'. subst d'.
  unfold run, post_holidays, authorize, Holiday_create. unfold_m.
  destruct user as [teacher | student]; cbn.
  2: { do 4 (split; [reflexivity |]). intros H. exfalso. apply H. reflexivity. }
  destruct (Teacher.role teacher) eqn:Erole; cbn.
  2: { do 4 (split; [reflexivity |]). intros H. exfalso. apply H. reflexivity. }
  destruct (String.eqb_spec name "") as [Ename | Ename]; cbn.
  { do 4 (split; [reflexivity |]). intros H. exfalso. apply H. reflexivity. }
  destruct mappedDay as [day |]; cbn.
  - destruct (weekday_name day) eqn:Eday; cbn.
    + do 4 (split; [reflexivity |]). intros _.
      split; [exists teacher; split; [reflexivity | exact Erole] |].
      split; [exact Ename |]. split; [| reflexivity].
      intros day' Hday'. injection Hday' as <-. exact Eday.
    + do 4 (split; [reflexivity |]). intros H. exfalso. apply H. reflexivity.
  - do 4 (split; [reflexivity |]). intros _.
    split; [exists teacher; split; [reflexivity | exact Erole] |].
    split; [exact Ename |]. split; [| reflexivity].
    intros day Hday. discriminate.
Qed.

(** What [isHoliday] answers for [date] from the rule it looks at. *)
Lemma isHoliday_by_first_rule (date : Time) (d d' : DB) :
  find (covers date) (holidays d') = find (covers date) (holidays d) ->
  forall clk n,
    fst (fst (isHoliday date clk n d')) = fst (fst (isHoliday date clk n d)).
Proof.
  intros Hfind clk n. unfold isHoliday, Holiday_findOne. unfold_m.
  destruct (getDay date =? 0); [reflexivity |].
  fold (covers date). cbn. rewrite Hfind.
  destruct (find (covers date) (holidays d)) as [h |]; [| reflexivity].
  destruct (Holiday.type h); [reflexivity |].
  destruct (getDay date =? 6); reflexivity.
Qed.

(** The answer of [isHoliday] when the first rule that contains the
    date is known. *)
Lemma isHoliday_of_first_rule (date : Time) (d : DB) (h : Holiday.t)
    (clk : Clock) :
  find (covers date) (holidays d) = Some h ->
  getDay date <> 0 ->
  fst (run (isHoliday date) clk d)
  = match Holiday.type h with
    | SPECIAL =>
        Return {| isHoliday_ := true; isWorkingDay := None;
                  mappedDay := None; reason := Some (Holiday.name h) |}
    | SATURDAY_WORKING =>
        if getDay date =? 6
        then Return {| isHoliday_ := false; isWorkingDay := Some true;
                       mappedDay := Holiday.mappedDay h;
                       reason := Some "Working Saturday" |}
        else Return {| isHoliday_ := false; isWorkingDay := None;
                       mappedDay := None; reason := None |}
    end.
Proof.
  intros Hfind Hday. unfold run, isHoliday, Holiday_findOne. unfold_m.
  destruct (Z.eqb_spec (getDay date) 0) as [E | _]; [contradiction |].
  fold (covers date). cbn. rewrite Hfind.
  destruct (Holiday.type h); [reflexivity |].
  destruct (getDay date =? 6); reflexivity.
Qed.

(** X27.  A rule that a CC teacher declares goes behind the stored
    rules.  The resolution of every date that an earlier rule contains,
    and of every date that the new rule does not contain, stays what it
    was.  A date, not a Sunday, that only the new rule contains becomes
    a holiday with the rule's name when the rule is SPECIAL, and a
    working Saturday when the rule is SATURDAY_WORKING and the date a
    Saturday. *)
Theorem declared_rule_goes_behind_earlier_rules :
  forall (teacher : Teacher.t) (name : string) (startDate endDate : Time)
         (type : HolidayType) (mappedDay : option string) (clk : Clock)
         (d : DB),
    Teacher.role teacher = CC ->
    name <> "" ->
    (forall day, mappedDay = Some day -> weekday_name day = true) ->
    let h := {| Holiday.name := name; Holiday.startDate := startDate;
                Holiday.endDate := endDate; Holiday.type := type;
                Holiday.mappedDay := mappedDay |} in
    let r := run (post_holidays (TeacherUser teacher) name startDate endDate
                    type mappedDay) clk d in
    fst r = Return (reply_json 201 h)
    /\ (forall date clk',
           find (covers date) (holidays d) <> None \/ covers date h = false ->
           fst (run (isHoliday date) clk' (snd r))
           = fst (run (isHoliday date) clk' d))
    /\ (forall date clk',
           find (covers date) (holidays d) = None ->
           covers date h = true ->
           getDay date <> 0 ->
           type = SPECIAL ->
           fst (run (isHoliday date) clk' (snd r))
           = Return {| isHoliday_ := true; isWorkingDay := None;
                       mappedDay := None; reason := Some name |})
    /\ (forall date clk',
           find (covers date) (holidays d) = None ->
           covers date h = true ->
           getDay date = 6 ->
           type = SATURDAY_WORKING ->
           fst (run (isHoliday date) clk' (snd r))
           = Return {| isHoliday_ := false; isWorkingDay := Some true;
                       mappedDay := mappedDay;
                       reason := Some "Working Saturday" |}).
Proof.
  intros teacher name startDate endDate type mappedDay clk d
    Hcc Hname Hday h r.
  assert (Hrun : r = (Return (reply_json 201 h),
                      with_holidays (holidays d ++ [h]) d)).
  { subst r. unfold run, post_holidays, authorize, Holiday_create. unfold_m.
    rewrite Hcc. cbn.
    destruct (String.eqb_spec name "") as [E | _]; [contradiction |]. cbn.
    destruct mappedDay as [day |]; cbn; [| reflexivity].
    rewrite (Hday day eq_refl). reflexivity. }
  rewrite Hrun. cbn [fst snd].
  assert (Hsame : forall date clk' d1 d2,
             find (covers date) (holidays d1)
             = find (covers date) (holidays d2) ->
             fst (run (isHoliday date) clk' d1)
             = fst (run (isHoliday date) clk' d2)).
  { intros date clk' d1 d2 Hfind. unfold run.
    pose proof (isHoliday_by_first_rule date d2 d1 Hfind clk' 0%nat) as H.
    destruct (isHoliday date clk' 0%nat d1) as [[r1 n1] d1'].
    destruct (isHoliday date clk' 0%nat d2) as [[r2 n2] d2'].
    exact H. }
  assert (Hnew : forall date,
             find (covers date) (holidays d) = None ->
             covers date h = true ->
             find (covers date) (holidays (with_holidays (holidays d ++ [h]) d))
             = Some h).
  { intros date Hnone Hcov. cbn. rewrite find_app, Hnone. cbn.
    rewrite Hcov. reflexivity. }
  repeat apply conj.
  - reflexivity.
  - intros date clk' Hcase. apply Hsame. cbn. rewrite find_app.
    destruct (find (covers date) (holidays d)) as [h0 |] eqn:Ef;
      [reflexivity |].
    destruct Hcase as [Habs | Hcov]; [contradiction |].
    cbn. rewrite Hcov. reflexivity.
  - intros date clk' Hnone Hcov Hday0 Htype.
    rewrite (isHoliday_of_first_rule date _ h clk' (Hnew date Hnone Hcov)
               Hday0).
    cbn. rewrite Htype. reflexivity.
  - intros date clk' Hnone Hcov Hsat Htype.
    rewrite (isHoliday_of_first_rule date _ h clk' (Hnew date Hnone Hcov))
      by (rewrite Hsat; discriminate).
    cbn. rewrite Htype, Hsat. reflexivity.
Qed.

(** The coordinator declares Founders day for the Saturday. *)
Lemma declared_rule_goes_behind_earlier_rules_witness :
  fst (run (isHoliday (at_time saturday 10 0))
         (ticking_clock (at_time saturday 10 0))
         (snd (run (post_holidays (TeacherUser coordinator) "Founders day"
                      (at_time saturday 0 0) (at_time saturday 0 0) SPECIAL
                      None)
                 (ticking_clock (at_time monday 12 0)) school)))
  = Return {| isHoliday_ := true; isWorkingDay := None; mappedDay := None;
              reason := Some "Founders day" |}.
Proof.
  refine (proj1 (proj2 (proj2
            (declared_rule_goes_behind_earlier_rules coordinator
               "Founders day" (at_time saturday 0 0) (at_time saturday 0 0)
               SPECIAL None (ticking_clock (at_time monday 12 0)) school
               _ _ _)))
            (at_time saturday 10 0) (ticking_clock (at_time saturday 10 0))
            _ _ _ _).
  - reflexivity.
  - discriminate.
  - intros day Hday. discriminate.
  - reflexivity.
  - reflexivity.
  - vm_compute. discriminate.
  - reflexivity.
Defined.

(** ** Marks after a session has been closed *)

Lemma find_session_grows (id : ObjectId) (l l' : list Session.t)
    (s : Session.t) :
  grows session_step l l' ->
  find (fun s => (Session._id s =? id)%nat) l = Some s ->
  exists s',
    find (fun s => (Session._id s =? id)%nat) l' = Some s'
    /\ session_step s s'.
Proof.
  intros (kept & added & -> & H).
  induction H as [| x x' l kept Hx _ IH]; cbn; [discriminate |].
  assert (Hid : Session._id x' = Session._id x).
  { destruct Hx as (Hfixed & _). unfold session_fixed in Hfixed.
    congruence. }
  rewrite Hid. destruct (Session._id x =? id)%nat.
  - intros Hs. injection Hs as <-. exists x'. split; [reflexivity | exact Hx].
  - exact IH.
Qed.

(** X28.  A closed session refuses marks for good: when the session a
    request names is stored inactive, then after any history of
    handlers and tasks a mark for it is answered with an error and
    stores nothing, whoever marks and whatever token is supplied. *)
Theorem closed_session_refuses_marks :
  forall (Math : MathLib) (history : list (Op * Clock)) (d : DB)
         (sessionId : ObjectId) (s : Session.t) (user : Student.t)
         (token : string) (location : option Location)
         (deviceId : option string) (clk : Clock),
    find (fun s => (Session._id s =? sessionId)%nat) (sessions d) = Some s ->
    Session.isActive s = false ->
    let d' := exec_all Math history d in
    let r := run (post_attendance_mark user sessionId token location
                    deviceId) clk d' in
    snd r = d'
    /\ (fst r = Return (res_invalid ["token"])
        \/ fst r = Return (res_error 400 "Invalid session or token")
        \/ fst r = Return (res_error 500 "Invalid or expired session")).
Proof.
  intros Math history d sessionId s user token location deviceId clk
    Hfound Hclosed d' r.
  destruct (exec_all_evolves Math history d) as (Hsessions & _).
  destruct (find_session_grows sessionId _ _ s Hsessions Hfound)
    as (s' & Hfound' & _ & Hactive & _).
  assert (Hclosed' : Session.isActive s' = false).
  { destruct (Session.isActive s'); [| reflexivity].
    rewrite Hactive in Hclosed by reflexivity. discriminate. }
  subst r. fold d'. fold d' in Hfound'.
  unfold run, post_attendance_mark, markAttendance, Session_findById.
  unfold_m.
  destruct (String.eqb token ""); cbn; [split; auto |].
  rewrite Hfound'. cbn.
  destruct (String.eqb (Session.token s') token); cbn; [| split; auto].
  rewrite Hfound'. cbn. rewrite Hclosed'. cbn. split; auto.
Qed.

(** The 09:00 session, closed by the clean-up of 09:20: after a mark
    that Bob attempts at 09:21, the mark of Alice stores nothing. *)
Lemma closed_session_refuses_marks_witness :
  snd (run (post_attendance_mark alice 200 "T" None None)
         (ticking_clock (at_time monday 9 21))
         (exec_all taylorMath
            [(Mark bob 200 "T" None None,
              ticking_clock (at_time monday 9 21))]
            (exec taylorMath SessionCleanup
               (ticking_clock (at_time monday 9 20)) live)))
  = exec_all taylorMath
      [(Mark bob 200 "T" None None, ticking_clock (at_time monday 9 21))]
      (exec taylorMath SessionCleanup
         (ticking_clock (at_time monday 9 20)) live).
Proof.
  refine (proj1 (closed_session_refuses_marks taylorMath
                   [(Mark bob 200 "T" None None,
                     ticking_clock (at_time monday 9 21))]
                   (exec taylorMath SessionCleanup
                      (ticking_clock (at_time monday 9 20)) live)
                   200%nat (Session.set_isActive false session_0900) alice
                   "T" None None (ticking_clock (at_time monday 9 21))
                   _ _)).
  - reflexivity.
  - reflexivity.
Defined.

(** ** The campus route *)

(** X29.  [POST /api/attendance/campus] writes only in time and place.
    Either the store is left as it was, and the answer is 200 with a
    stored CAMPUS event of the caller dated at the midnight of the
    first clock reading, or an error of status 500; or the second clock
    reading is before 11:00, the position is within the campus radius,
    no such event was stored, and the answer is 200 with one new
    PRESENT CAMPUS event with mode GPS, appended to the store under the
    class the store holds for the caller. *)
Theorem campus_route_writes_only_in_time_and_place :
  forall (Math : MathLib) (user : Student.t) (location : Location)
         (deviceId : option string) (clk : Clock) (d : DB),
    let r := run (post_attendance_campus Math user location deviceId)
               clk d in
    (snd r = d
     /\ ((exists e,
            fst r = Return (res_json e)
            /\ In e (attendances d)
            /\ campus_marked (Student._id user) (clk 0%nat) e = true)
         \/ exists message, fst r = Return (res_error 500 message)))
    \/ (getHours (clk 1%nat) < 11
        /\ isWithinCampus Math (latitude location) (longitude location)
           = true
        /\ find (campus_marked (Student._id user) (clk 0%nat))
             (attendances d) = None
        /\ exists student,
             find (fun s => (Student._id s =? Student._id user)%nat)
               (students d) = Some student
             /\ let e := campus_event d clk (Student._id user)
                           (Student.classId student) location deviceId in
                fst r = Return (res_json e)
                /\ snd r = with_attendances (attendances d ++ [e])
                             (with_nextId (S (nextId d)) d)).
Proof.
  intros Math user location deviceId clk d r. subst r.
  unfold post_attendance_campus, markCampusAttendance, Attendance_findOne,
    Student_findById, Attendance_create.
  unfold_m. cbn.
  fold (campus_marked (Student._id user) (clk 0%nat)).
  destruct (find (campus_marked _ _) (attendances d)) as [e0 |] eqn:Ee; cbn.
  { left. split; [reflexivity |]. left. exists e0.
    destruct (find_some _ _ Ee) as (Hin & Hmarked). auto. }
  destruct (Z.leb_spec 11 (getHours (clk 1%nat))) as [Eh | Eh]; cbn.
  { left. split; [reflexivity |]. right. eexists. reflexivity. }
  destruct (isWithinCampus Math (latitude location) (longitude location))
    eqn:Ew; cbn.
  2: { left. split; [reflexivity |]. right. eexists. reflexivity. }
  destruct (find (fun s => (Student._id s =? Student._id user)%nat)
              (students d)) as [student |] eqn:Es; cbn.
  2: { left. split; [reflexivity |]. right. eexists. reflexivity. }
  right. repeat apply conj; try assumption; try reflexivity.
  exists student. repeat apply conj; reflexivity.
Qed.

(** Alice, 400 m north of the campus center at 09:00, is marked. *)
Example campus_route_marks_alice :
  let r := run (post_attendance_campus taylorMath alice north_400m None)
             (ticking_clock (at_time monday 9 0)) school in
  map Attendance.status (attendances (snd r)) = [PRESENT]
  /\ map Attendance.type (attendances (snd r)) = [CAMPUS].
Proof. vm_compute. split; reflexivity. Qed.
